(** * beautyapp: the mock data generator of [app.py]

    A shallow embedding of [generate_mock_data] and of the executive-summary
    arithmetic that consumes its Sales table.

    Conventions of the embedding.
    - A Python [float] is a rational number ([Q]): every finite binary64 value
      is one.  Arithmetic is exact; the rounding of binary64 operations is not
      modelled.
    - A Python [int] is a [Z].
    - A date (a [datetime.date] or a [pd.Timestamp] at midnight) is its
      proleptic Gregorian ordinal, a [Z], as [date.toordinal()] gives it.
    - The two random sources ([random] and [np.random]) are tapes of raw
      numbers read left to right; every library sampler is a function of the
      next cell of its tape, so the theorems hold for every random source.
    - An exception aborts the call: a computation returns [Ok] or [Raised].
    - The record lists only ever grow by [append]; a loop is modelled by the
      list of records it appends, in order.
    - The [st.cache_data] decorator only replays the result of an earlier
      call with the same arguments; it is left out. *)

From Stdlib Require Import ZArith QArith Qround Qabs List String Bool Lia Lqa.
From Stdlib Require Import Sorted.
Import ListNotations.

Local Open Scope Z_scope.
Local Open Scope Q_scope.

(** ** Numbers *)

Definition Qltb (x y : Q) : bool := negb (Qle_bool y x).

(** [max(a, b)] and [min(a, b)] of Python: the first argument wins a tie. *)
Definition py_max (a b : Q) : Q := if Qltb a b then b else a.
Definition py_min (a b : Q) : Q := if Qltb b a then b else a.

(** [app.py], lines 28-29. *)
Definition clamp (x lo hi : Q) : Q := py_max lo (py_min hi x).

(** [int(x)] of a float: truncation toward zero. *)
Definition py_int (x : Q) : Z := Z.quot (Qnum x) (Zpos (Qden x)).

(** Rounding to the nearest integer, ties to the even one. *)
Definition round_half_even (y : Q) : Z :=
  let f := Qfloor y in
  let r := y - inject_Z f in
  if Qltb r (1 # 2) then f
  else if Qltb (1 # 2) r then (f + 1)%Z
  else if Z.even f then f else (f + 1)%Z.

(** [round(x, 2)] of a float. *)
Definition py_round2 (x : Q) : Q := inject_Z (round_half_even (x * 100)) / 100.

(** The fractional part, in [0, 1). *)
Definition Qfrac (x : Q) : Q := x - inject_Z (Qfloor x).

(** ** Exceptions and the generator monad *)

Inductive exn : Type :=
| IndexError
| KeyError (key : string)
| ValueError.

Inductive result (A : Type) : Type :=
| Ok (a : A)
| Raised (e : exn).
Arguments Ok {A} a.
Arguments Raised {A} e.

(** The state of the two random sources: [random] of the standard library and
    [np.random], each a tape and the position of its next unread cell. *)
Record Rng : Type := mkRng {
  py_tape : nat -> Q;
  py_pos : nat;
  np_tape : nat -> Q;
  np_pos : nat
}.

Definition M (A : Type) : Type := Rng -> result (A * Rng).

Definition ret {A} (a : A) : M A := fun g => Ok (a, g).

Definition bind {A B} (m : M A) (k : A -> M B) : M B :=
  fun g => match m g with
           | Ok (a, g') => k a g'
           | Raised e => Raised e
           end.

Definition raise {A} (e : exn) : M A := fun _ => Raised e.

Definition lift {A} (r : result A) : M A :=
  match r with
  | Ok a => ret a
  | Raised e => raise e
  end.

Declare Scope gen_scope.
Delimit Scope gen_scope with gen.
Notation "x <- m ;; k" := (bind m (fun x => k))
  (at level 100, m at next level, right associativity) : gen_scope.
Notation "' p <- m ;; k" := (bind m (fun x => let p := x in k))
  (at level 100, p pattern, m at next level, right associativity) : gen_scope.
Local Open Scope gen_scope.

(** [for _ in range(n)]: run [m] [n] times and collect what it yields. *)
Fixpoint repeatM {A} (n : nat) (m : M A) : M (list A) :=
  match n with
  | O => ret []
  | S n' => a <- m ;; l <- repeatM n' m ;; ret (a :: l)
  end.

(** [for x in l] with no state carried between the iterations. *)
Fixpoint mapM {A B} (f : A -> M B) (l : list A) : M (list B) :=
  match l with
  | [] => ret []
  | x :: l' => b <- f x ;; bs <- mapM f l' ;; ret (b :: bs)
  end.

(** [for x in l] with a state carried from one iteration to the next. *)
Fixpoint mapAccumM {S A B} (f : S -> A -> M (S * B)) (s : S) (l : list A)
  : M (S * list B) :=
  match l with
  | [] => ret (s, [])
  | x :: l' =>
      '(s1, b) <- f s x ;;
      '(s2, bs) <- mapAccumM f s1 l' ;;
      ret (s2, b :: bs)
  end.

(** [range(n)] runs no iteration for a negative [n]. *)
Definition range_len (n : Z) : nat := Z.to_nat n.

(** ** Lists and dicts of Python *)

Definition len {A} (l : list A) : Z := Z.of_nat (List.length l).

(** [l[i]]: a negative index counts from the end. *)
Definition list_getitem {A} (l : list A) (i : Z) : result A :=
  let j := if (i <? 0)%Z then (i + len l)%Z else i in
  if (j <? 0)%Z then Raised IndexError
  else match nth_error l (Z.to_nat j) with
       | Some a => Ok a
       | None => Raised IndexError
       end.

(** A dict literal with string keys, in insertion order. *)
Definition dict (V : Type) : Type := list (string * V).

Fixpoint dict_find {V} (d : dict V) (k : string) : option V :=
  match d with
  | [] => None
  | (k', v) :: d' => if String.eqb k k' then Some v else dict_find d' k
  end.

(** [d[k]]. *)
Definition dict_get {V} (d : dict V) (k : string) : result V :=
  match dict_find d k with
  | Some v => Ok v
  | None => Raised (KeyError k)
  end.

(** [d[k] = v]: an existing key keeps its place, a new one goes last. *)
Fixpoint dict_set {V} (d : dict V) (k : string) (v : V) : dict V :=
  match d with
  | [] => [(k, v)]
  | (k', v') :: d' =>
      if String.eqb k k' then (k', v) :: d' else (k', v') :: dict_set d' k v
  end.

Definition dict_keys {V} (d : dict V) : list string := map fst d.

(** ** The samplers of [random] *)

Definition py_next : M Q :=
  fun g => Ok (py_tape g (py_pos g),
               mkRng (py_tape g) (S (py_pos g)) (np_tape g) (np_pos g)).

(** [random.random()]: a float in [0, 1). *)
Definition random_random : M Q := x <- py_next ;; ret (Qfrac x).

(** [_randbelow(n)] for a positive [n]: an integer in [0, n). *)
Definition randbelow (n : Z) : M Z := x <- py_next ;; ret (Qfloor x mod n)%Z.

(** [random.randint(a, b)]. *)
Definition random_randint (a b : Z) : M Z :=
  r <- randbelow (b - a + 1) ;; ret (a + r)%Z.

(** [random.choice(seq)]. *)
Definition random_choice {A} (seq : list A) : M A :=
  if (len seq =? 0)%Z then raise IndexError
  else i <- randbelow (len seq) ;; lift (list_getitem seq i).

(** [itertools.accumulate(weights)]. *)
Fixpoint accumulate_from (acc : Q) (ws : list Q) : list Q :=
  match ws with
  | [] => []
  | w :: ws' => (acc + w) :: accumulate_from (acc + w) ws'
  end.

Definition accumulate (ws : list Q) : list Q :=
  match ws with
  | [] => []
  | w :: ws' => w :: accumulate_from w ws'
  end.

(** The loop of [bisect.bisect_right(a, x, lo, hi)].  Each iteration shrinks
    [hi - lo], so [hi - lo] iterations are enough: [bisect_right] below runs
    it with that many. *)
Fixpoint bisect_loop (fuel : nat) (a : list Q) (x : Q) (lo hi : Z) : Z :=
  match fuel with
  | O => lo
  | S fuel' =>
      if (lo <? hi)%Z then
        let mid := ((lo + hi) / 2)%Z in
        if Qltb x (nth (Z.to_nat mid) a 0) then bisect_loop fuel' a x lo mid
        else bisect_loop fuel' a x (mid + 1)%Z hi
      else lo
  end.

Definition bisect_right (a : list Q) (x : Q) (lo hi : Z) : Z :=
  bisect_loop (Z.to_nat (hi - lo)) a x lo hi.

(** [random.choices(population, weights=weights)[0]]. *)
Definition random_choices_weighted {A} (population : list A) (weights : list Q)
  : M A :=
  let n := len population in
  let cum_weights := accumulate weights in
  if negb (len cum_weights =? n)%Z then raise ValueError
  else
    c <- lift (list_getitem cum_weights (-1)) ;;
    let total := c + 0 in
    if Qle_bool total 0 then raise ValueError
    else
      let hi := (n - 1)%Z in
      u <- random_random ;;
      lift (list_getitem population (bisect_right cum_weights (u * total) 0 hi)).

(** [random.choices(population, k=k)]. *)
Definition random_choices_k {A} (population : list A) (k : nat) : M (list A) :=
  let n := inject_Z (len population) + 0 in
  repeatM k (u <- random_random ;;
             lift (list_getitem population (Qfloor (u * n)))).

(** ** The samplers of [np.random] *)

Definition np_next : M Q :=
  fun g => Ok (np_tape g (np_pos g),
               mkRng (py_tape g) (py_pos g) (np_tape g) (S (np_pos g))).

(** [np.random.normal(loc, scale)]: [loc + scale * z], [z] standard normal. *)
Definition np_random_normal (loc scale : Q) : M Q :=
  z <- np_next ;; ret (loc + scale * z).

(** [np.random.uniform(low, high)]: [low + (high - low) * u], [u] in [0, 1). *)
Definition np_random_uniform (low high : Q) : M Q :=
  u <- np_next ;; ret (low + (high - low) * Qfrac u).

(** [np.random.exponential(scale)]: [scale * e], [e] a standard exponential,
    which is never negative. *)
Definition np_random_exponential (scale : Q) : M Q :=
  e <- np_next ;; ret (scale * Qabs e).

(** ** Dates *)

(** [date.weekday()]: Monday is 0. *)
Definition weekday (date : Z) : Z := ((date + 6) mod 7)%Z.

(** [date.timetuple().tm_yday], by [datetime]'s own ordinal arithmetic. *)
Definition tm_yday (date : Z) : Z :=
  let n := (date - 1)%Z in
  let n := (n mod 146097)%Z in
  let n100 := (n / 36524)%Z in
  let n := (n mod 36524)%Z in
  let n := (n mod 1461)%Z in
  let n1 := (n / 365)%Z in
  let n := (n mod 365)%Z in
  if (n1 =? 4)%Z || (n100 =? 4)%Z then 366%Z else (n + 1)%Z.

(** ** The four tables *)

Module Sales.
Record row : Type := mk {
  Brand : string;
  Date : Z;
  Category : string;
  Product : string;
  Channel : string;
  Offer : string;
  Campaign : string;
  Qty : Z;
  UnitPrice : Q;
  Revenue : Q
}.
Definition keys : list string :=
  ["Brand"; "Date"; "Category"; "Product"; "Channel"; "Offer"; "Campaign";
   "Qty"; "UnitPrice"; "Revenue"]%string.
End Sales.

Module Marketing.
Record row : Type := mk {
  Brand : string;
  Date : Z;
  Channel : string;
  Campaign : string;
  Traffic : Z;
  CTR : Q;
  CPC : option Q
}.
Definition keys : list string :=
  ["Brand"; "Date"; "Channel"; "Campaign"; "Traffic"; "CTR"; "CPC"]%string.
End Marketing.

Module Social.
Record row : Type := mk {
  Brand : string;
  Date : Z;
  Platform : string;
  EngagementRate : Q;
  Followers : Z
}.
Definition keys : list string :=
  ["Brand"; "Date"; "Platform"; "EngagementRate"; "Followers"]%string.
End Social.

Module Reviews.
Record row : Type := mk {
  Brand : string;
  Date : Z;
  Sentiment : string;
  Rating : Z
}.
Definition keys : list string :=
  ["Brand"; "Date"; "Sentiment"; "Rating"]%string.
End Reviews.

(** A [pd.DataFrame]: its column labels and its rows. *)
Record DataFrame (A : Type) : Type := mkDataFrame {
  columns : list string;
  rows : list A
}.
Arguments mkDataFrame {A} columns rows.
Arguments columns {A} d.
Arguments rows {A} d.

(** [pd.DataFrame(records)] of a list of dicts that all have the keys [keys]:
    the columns are the keys met in the records, so an empty list gives a
    frame with no column at all. *)
Definition pd_DataFrame {A} (keys : list string) (records : list A)
  : DataFrame A :=
  match records with
  | [] => mkDataFrame [] []
  | _ :: _ => mkDataFrame keys records
  end.

(** [df["Date"] = pd.to_datetime(df["Date"])]: reading a column that the frame
    does not have raises [KeyError]; a timestamp converts to itself. *)
Definition normalize_date {A} (df : DataFrame A) : result (DataFrame A) :=
  if existsb (String.eqb "Date") (columns df) then Ok df
  else Raised (KeyError "Date").

(** What [generate_mock_data] returns. *)
Record Tables : Type := mkTables {
  sales_df : DataFrame Sales.row;
  marketing_df : DataFrame Marketing.row;
  social_df : DataFrame Social.row;
  reviews_df : DataFrame Reviews.row;
  campaigns_out : list string
}.

(** ** The constants of [generate_mock_data] (lines 39-51, 72-76, 83-89,
    111-116, 145-146) *)

Local Open Scope string_scope.

Definition default_brands : list string := ["Radiance"; "GlowUp"; "PureBeauty"].

Definition categories : dict (list string) :=
  [("Skincare", ["Hydrating Serum"; "SPF50 Sunscreen"; "Vitamin C Cream";
                 "Gentle Cleanser"]);
   ("Makeup", ["Matte Lipstick"; "Glow Foundation"; "Brow Kit";
               "Volumizing Mascara"]);
   ("Haircare", ["Argan Shampoo"; "Keratin Conditioner"; "Repair Mask";
                 "Curl Cream"]);
   ("Fragrance", ["Citrus Mist"; "Noir Eau de Parfum"; "Floral Bloom"]);
   ("Body", ["Shea Body Butter"; "Exfoliating Scrub"; "Aloe Body Gel"])].

Definition channels : list string := ["Online"; "In-store"; "Wholesale"].
Definition marketing_channels : list string :=
  ["Organic"; "Paid"; "Social"; "Email"].
Definition social_platforms : list string :=
  ["Instagram"; "Facebook"; "TikTok"; "YouTube"].
Definition offers : list string :=
  ["None"; "10% Off"; "Buy 1 Get 1"; "Free Gift"].
Definition campaigns : list string :=
  ["Summer Glow"; "Holiday Sparkle"; "Winter Warmth"; "Spring Fresh";
   "Loyalty Boost"].

Definition cat_weights : dict (list Q) :=
  [("Radiance", [0.4; 0.3; 0.15; 0.1; 0.05]%Q);
   ("GlowUp", [0.3; 0.4; 0.1; 0.1; 0.1]%Q);
   ("PureBeauty", [0.25; 0.25; 0.3; 0.1; 0.1]%Q)].

Definition base_price : dict Z :=
  [("Skincare", 45%Z); ("Makeup", 35%Z); ("Haircare", 30%Z);
   ("Fragrance", 75%Z); ("Body", 25%Z)].

Definition base_traffic : dict Z :=
  [("Organic", 1200%Z); ("Paid", 800%Z); ("Social", 600%Z); ("Email", 400%Z)].

Definition sentiments : list string := ["Positive"; "Neutral"; "Negative"].
Definition sentiment_weights : list Q := [0.7; 0.2; 0.1]%Q.

(** ** The executive summary, lines 231-233 *)

(** [sales_df["Revenue"].sum()] and [sales_df["Qty"].sum()]. *)
Definition total_revenue (sales : list Sales.row) : Q :=
  fold_left Qplus (map Sales.Revenue sales) 0.
Definition total_orders (sales : list Sales.row) : Z :=
  fold_left Z.add (map Sales.Qty sales) 0%Z.

(** [a / b] of NumPy numbers: there is no quotient when [b] is zero. *)
Definition np_true_divide (a : Q) (b : Z) : option Q :=
  if (b =? 0)%Z then None else Some (a / inject_Z b).

(** [total_revenue / total_orders if total_orders else 0]. *)
Definition avg_order_value (total_revenue : Q) (total_orders : Z) : option Q :=
  if negb (total_orders =? 0)%Z then np_true_divide total_revenue total_orders
  else Some 0.

(** ** A concrete call

    The dashboard calls the generator with 91 days and no brand list; the
    samples below stand for the libraries and the random sources of one such
    call starting on 2024-01-01. *)

Definition sample_sin (x : Q) : Q := 0.
Definition sample_pi : Q := 355 # 113.
Definition empty_when_negative (start periods : Z) : result (list Z) := Ok [].
Definition sample_rng : Rng :=
  mkRng (fun n => inject_Z (Z.of_nat n) * (7 # 10)) 0
        (fun n => inject_Z (Z.of_nat n) * (13 # 10) - 3) 0.

(** Another state of the random sources: the cells of the tape of
    [np.random] cycle through eleven values from -6.1 to 6.9. *)
Definition sample_draws : Rng :=
  mkRng (fun n => inject_Z (Z.of_nat n) * (7 # 10)) 0
        (fun n => inject_Z (Z.of_nat (n mod 11)) * (13 # 10) - (61 # 10)) 0.

(** A Sales table of three rows, the first three that two days of
    "Radiance" starting on 2024-01-01 give with [sample_rng]. *)
Definition sample_sales : DataFrame Sales.row :=
  mkDataFrame Sales.keys
    [Sales.mk "Radiance" 738886 "Makeup" "Matte Lipstick" "Wholesale" "None"
              "Winter Warmth" 1 26.08 26.08;
     Sales.mk "Radiance" 738886 "Skincare" "Gentle Cleanser" "In-store" "None"
              "Winter Warmth" 3 51.08 153.24;
     Sales.mk "Radiance" 738886 "Skincare" "SPF50 Sunscreen" "Online" "None"
              "Winter Warmth" 7 67.5 472.50].

(** ** The generator *)

Section Generator.

(** [np.sin] and [np.pi]: a function on floats and a float. *)
Variable np_sin : Q -> Q.
Variable np_pi : Q.

(** What [pd.date_range(start=s, periods=n).tolist()] does for a negative
    [n]: it depends on the pandas at hand, and nothing below relies on it. *)
Variable date_range_negative : Z -> Z -> result (list Z).

(** [pd.date_range(start=start, periods=periods).tolist()]: one day after
    the other from [start] on. *)
Definition pd_date_range (start periods : Z) : result (list Z) :=
  if (periods <? 0)%Z then date_range_negative start periods
  else Ok (map (fun i => (start + Z.of_nat i)%Z) (seq 0 (Z.to_nat periods))).

(** Lines 24-26. *)
Definition generate_seasonal_multiplier (date : Z) : Q :=
  let day_of_year := tm_yday date in
  1 + 0.25 * np_sin (2 * np_pi * (inject_Z day_of_year / 365) - np_pi / 2).

(** Line 65. *)
Definition weekday_factor (date : Z) : Q :=
  if existsb (Z.eqb (weekday date)) [4%Z; 5%Z] then 1.1 else 0.9.

(** Line 66, after the draw: [int(clamp(x, 40, 150))]. *)
Definition daily_orders_of (x : Q) : Z := py_int (clamp x 40 150).

(** One pass of the order loop, lines 72-107. *)
Definition gen_order (brand : string) (date : Z) (active_campaign : string)
  : M Sales.row :=
  let cats := dict_keys categories in
  weights <- lift (dict_get cat_weights brand) ;;
  cat <- random_choices_weighted cats weights ;;
  products <- lift (dict_get categories cat) ;;
  prod <- random_choice products ;;
  channel <- random_choices_weighted channels [0.6; 0.3; 0.1]%Q ;;
  offer <- random_choices_weighted offers [0.7; 0.15; 0.1; 0.05]%Q ;;
  base <- lift (dict_get base_price cat) ;;
  x <- np_random_normal (inject_Z base) (inject_Z base * 0.15) ;;
  let price := py_round2 x in
  let price := clamp price (inject_Z base * 0.6) (inject_Z base * 1.5) in
  e <- np_random_exponential 1.5 ;;
  let qty := Z.max 1 (py_int e) in
  let revenue := py_round2 (price * inject_Z qty) in
  ret (Sales.mk brand date cat prod channel offer active_campaign
                qty price revenue).

(** One pass of the marketing loop, lines 110-129. *)
Definition gen_marketing (brand : string) (date : Z)
    (active_campaign : string) (seasonal_mult : Q) (mkt_channel : string)
  : M Marketing.row :=
  base <- lift (dict_get base_traffic mkt_channel) ;;
  x <- np_random_normal (inject_Z base * seasonal_mult) (inject_Z base * 0.1) ;;
  let traffic := py_int (clamp x 100 5000) in
  u <- np_random_uniform 0.3 4.5 ;;
  let ctr := py_round2 u in
  cpc <- (if String.eqb mkt_channel "Paid"
          then v <- np_random_uniform 0.3 2.0 ;; ret (Some (py_round2 v))
          else ret None) ;;
  ret (Marketing.mk brand date mkt_channel active_campaign traffic ctr cpc).

(** One pass of the social loop, lines 132-142: the running count of the
    platform is updated in the dict, then read back into the record. *)
Definition gen_social (brand : string) (date : Z) (followers : dict Z)
    (platform : string) : M (dict Z * Social.row) :=
  f <- lift (dict_get followers platform) ;;
  u <- np_random_uniform 1.0005 1.003 ;;
  let followers := dict_set followers platform (py_int (inject_Z f * u)) in
  v <- np_random_uniform 0.5 8.5 ;;
  let engagement_rate := py_round2 v in
  f' <- lift (dict_get followers platform) ;;
  ret (followers, Social.mk brand date platform engagement_rate f').

(** What one day appends to the three per-day lists. *)
Definition DayRecords : Type :=
  (list Sales.row * list Marketing.row * list Social.row)%type.

(** One pass of the day loop, lines 63-142. *)
Definition gen_day (brand : string) (followers : dict Z) (date : Z)
  : M (dict Z * DayRecords) :=
  let seasonal_mult := generate_seasonal_multiplier date in
  let weekday_factor := weekday_factor date in
  x <- np_random_normal (80 * seasonal_mult * weekday_factor) 15 ;;
  let daily_orders := daily_orders_of x in
  active_campaign <- random_choice campaigns ;;
  sales <- repeatM (range_len daily_orders)
                   (gen_order brand date active_campaign) ;;
  marketing <- mapM (gen_marketing brand date active_campaign seasonal_mult)
                    marketing_channels ;;
  '(followers, social) <- mapAccumM (gen_social brand date) followers
                                    social_platforms ;;
  ret (followers, (sales, marketing, social)).

(** One review, lines 149-158: the dict literal [rating_map] draws both of
    its random ratings before the lookup. *)
Definition gen_review (brand : string) (review_date : Z) : M Reviews.row :=
  sentiment <- random_choices_weighted sentiments sentiment_weights ;;
  r_pos <- random_randint 4 5 ;;
  r_neg <- random_randint 1 2 ;;
  let rating_map : dict Z :=
    [("Positive", r_pos); ("Neutral", 3%Z); ("Negative", r_neg)] in
  rating <- lift (dict_get rating_map sentiment) ;;
  ret (Reviews.mk brand review_date sentiment rating).

(** The reviews of a brand, lines 144-158. *)
Definition gen_reviews (brand : string) (dates : list Z)
  : M (list Reviews.row) :=
  review_dates <- random_choices_k dates 120 ;;
  mapM (gen_review brand) review_dates.

(** What one brand appends to the four lists. *)
Definition BrandRecords : Type :=
  (list Sales.row * list Marketing.row * list Social.row
   * list Reviews.row)%type.

Definition day_sales (d : DayRecords) : list Sales.row := fst (fst d).
Definition day_marketing (d : DayRecords) : list Marketing.row := snd (fst d).
Definition day_social (d : DayRecords) : list Social.row := snd d.

(** One pass of the brand loop, lines 60-158. *)
Definition gen_brand (dates : list Z) (brand : string) : M BrandRecords :=
  followers <- mapM (fun p => v <- random_randint 5000 15000 ;; ret (p, v))
                    social_platforms ;;
  '(_, days) <- mapAccumM (gen_day brand) followers dates ;;
  reviews <- gen_reviews brand dates ;;
  ret (List.concat (map day_sales days),
       List.concat (map day_marketing days),
       List.concat (map day_social days), reviews).

Definition brand_sales (b : BrandRecords) : list Sales.row :=
  fst (fst (fst b)).
Definition brand_marketing (b : BrandRecords) : list Marketing.row :=
  snd (fst (fst b)).
Definition brand_social (b : BrandRecords) : list Social.row := snd (fst b).
Definition brand_reviews (b : BrandRecords) : list Reviews.row := snd b.

(** The four record lists when the brand loop is over, lines 55-158. *)
Record Records : Type := mkRecords {
  sales_records : list Sales.row;
  marketing_records : list Marketing.row;
  social_records : list Social.row;
  reviews_records : list Reviews.row
}.

Definition collect_records (dates : list Z) (brands : list string)
  : M Records :=
  parts <- mapM (gen_brand dates) brands ;;
  ret (mkRecords (List.concat (map brand_sales parts))
                 (List.concat (map brand_marketing parts))
                 (List.concat (map brand_social parts))
                 (List.concat (map brand_reviews parts))).

(** Lines 160-168: the frames are built, then their [Date] column is
    converted, one frame after the other. *)
Definition assemble (r : Records) : result Tables :=
  let sales_df := pd_DataFrame Sales.keys (sales_records r) in
  let marketing_df := pd_DataFrame Marketing.keys (marketing_records r) in
  let social_df := pd_DataFrame Social.keys (social_records r) in
  let reviews_df := pd_DataFrame Reviews.keys (reviews_records r) in
  match normalize_date sales_df with
  | Raised e => Raised e
  | Ok sales_df =>
  match normalize_date marketing_df with
  | Raised e => Raised e
  | Ok marketing_df =>
  match normalize_date social_df with
  | Raised e => Raised e
  | Ok social_df =>
  match normalize_date reviews_df with
  | Raised e => Raised e
  | Ok reviews_df =>
      Ok (mkTables sales_df marketing_df social_df reviews_df campaigns)
  end end end end.

(** [generate_mock_data(start_date, days, brands)], lines 35-168. *)
Definition generate_mock_data (start_date : Z) (days : Z)
    (brands : option (list string)) : M Tables :=
  let brands := match brands with
                | None => default_brands
                | Some bs => bs
                end in
  dates <- lift (pd_date_range start_date days) ;;
  records <- collect_records dates brands ;;
  lift (assemble records).

(** ** The dashboard script (lines 173-233, 295-318, 375-378) *)

(** Lines 173-174. *)
Definition brands_available : list string :=
  ["Radiance"; "GlowUp"; "PureBeauty"].

(** What [st.sidebar.date_input] hands back: one date, or a tuple of dates
    (of any length while the user is still picking). *)
Inductive date_input : Type :=
| OneDate (d : Z)
| DateTuple (ds : list Z).

(** Lines 183-186: the filter window is the widget's pair of dates, and the
    whole range when the widget does not hold exactly two dates. *)
Definition filter_window (date_range : date_input) (start_date today : Z)
  : Z * Z :=
  match date_range with
  | DateTuple [start_filter; end_filter] => (start_filter, end_filter)
  | _ => (start_date, today)
  end.

(** Lines 179-180 and 189: the data of the last 90 days and today. *)
Definition load_data (today : Z) : M Tables :=
  let start_date := (today - 90)%Z in
  generate_mock_data start_date ((today - start_date) + 1)%Z
                     (Some brands_available).

(** [series.isin(values)] on one cell. *)
Definition isin (x : string) (values : list string) : bool :=
  existsb (String.eqb x) values.

(** [df[mask]]: the rows the mask keeps, under the same columns.  The masks
    below read columns of frames that [generate_mock_data] returned, which
    are never empty, so every column they read is there. *)
Definition df_filter {A} (mask : A -> bool) (df : DataFrame A) : DataFrame A :=
  mkDataFrame (columns df) (filter mask (rows df)).

(** Lines 197-202. *)
Definition filter_sales (selected_brands selected_campaigns : list string)
    (start_filter end_filter : Z) (df : DataFrame Sales.row)
  : DataFrame Sales.row :=
  df_filter (fun r => isin (Sales.Brand r) selected_brands
                      && isin (Sales.Campaign r) selected_campaigns
                      && (start_filter <=? Sales.Date r)%Z
                      && (Sales.Date r <=? end_filter)%Z) df.

(** Lines 204-209. *)
Definition filter_marketing (selected_brands selected_campaigns : list string)
    (start_filter end_filter : Z) (df : DataFrame Marketing.row)
  : DataFrame Marketing.row :=
  df_filter (fun r => isin (Marketing.Brand r) selected_brands
                      && isin (Marketing.Campaign r) selected_campaigns
                      && (start_filter <=? Marketing.Date r)%Z
                      && (Marketing.Date r <=? end_filter)%Z) df.

(** Lines 211-215. *)
Definition filter_social (selected_brands : list string)
    (start_filter end_filter : Z) (df : DataFrame Social.row)
  : DataFrame Social.row :=
  df_filter (fun r => isin (Social.Brand r) selected_brands
                      && (start_filter <=? Social.Date r)%Z
                      && (Social.Date r <=? end_filter)%Z) df.

(** Lines 217-221. *)
Definition filter_reviews (selected_brands : list string)
    (start_filter end_filter : Z) (df : DataFrame Reviews.row)
  : DataFrame Reviews.row :=
  df_filter (fun r => isin (Reviews.Brand r) selected_brands
                      && (start_filter <=? Reviews.Date r)%Z
                      && (Reviews.Date r <=? end_filter)%Z) df.

(** Lines 231-233: total revenue, total units and average order value of the
    filtered Sales table. *)
Definition executive_summary (df : DataFrame Sales.row) : Q * Z * option Q :=
  let revenue := total_revenue (rows df) in
  let orders := total_orders (rows df) in
  (revenue, orders, avg_order_value revenue orders).

(** Line 295: [marketing_df[marketing_df["Channel"] == "Paid"]], and line 318
    with "Email". *)
Definition channel_rows (channel : string) (df : DataFrame Marketing.row)
  : DataFrame Marketing.row :=
  df_filter (fun r => String.eqb (Marketing.Channel r) channel) df.

(** Line 303: [paid_ads.dropna(subset=["CPC"])]. *)
Definition dropna_CPC (df : DataFrame Marketing.row)
  : DataFrame Marketing.row :=
  df_filter (fun r => match Marketing.CPC r with
                      | Some _ => true
                      | None => false
                      end) df.

(** Lines 375-378: the rows of one group of
    [social_df.groupby(["Brand", "Platform"])], and the ["max"] aggregate of
    a column of integers (a group is never empty). *)
Definition social_group (brand platform : string) (df : DataFrame Social.row)
  : list Social.row :=
  filter (fun r => String.eqb (Social.Brand r) brand
                   && String.eqb (Social.Platform r) platform)
         (rows df).

Definition agg_max (values : list Z) : option Z :=
  match values with
  | [] => None
  | v :: vs => Some (fold_left Z.max vs v)
  end.

Local Close Scope string_scope.

(** ** Specifications of computations

    [always m P]: from every state of the random sources, [m] returns, and
    what it returns satisfies [P].  [raises m e]: from every state, [m] raises
    [e]. *)

Definition always {A} (m : M A) (P : A -> Prop) : Prop :=
  forall g, exists a g', m g = Ok (a, g') /\ P a.

Definition raises {A} (m : M A) (e : exn) : Prop :=
  forall g, m g = Raised e.

(** The steps of a loop that carries a state: [R s x s' b] relates the state
    before and after the pass on [x] and what the pass yields. *)
Inductive Chain {S A B} (R : S -> A -> S -> B -> Prop)
  : S -> list A -> S -> list B -> Prop :=
| Chain_nil s : Chain R s [] s []
| Chain_cons s x s1 b l s2 bs :
    R s x s1 b -> Chain R s1 l s2 bs -> Chain R s (x :: l) s2 (b :: bs).

(** * Specification

    The predicates the theorems are stated with. *)

(** The brands the category-weight table has a row for (lines 72-76). *)
Definition known_brand (b : string) : Prop :=
  In b (dict_keys cat_weights).

(** What a Sales row must satisfy. *)
Definition sales_row_ok (r : Sales.row) : Prop :=
  Sales.Revenue r = py_round2 (Sales.UnitPrice r * inject_Z (Sales.Qty r))
  /\ (1 <= Sales.Qty r)%Z
  /\ exists base : Z,
       dict_find base_price (Sales.Category r) = Some base
       /\ 0.6 * inject_Z base <= Sales.UnitPrice r <= 1.5 * inject_Z base.

(** What a Marketing row must satisfy. *)
Definition marketing_row_ok (r : Marketing.row) : Prop :=
  (100 <= Marketing.Traffic r <= 5000)%Z
  /\ 0.3 <= Marketing.CTR r <= 4.5
  /\ (Marketing.CPC r <> None <-> Marketing.Channel r = "Paid"%string)
  /\ (forall c, Marketing.CPC r = Some c -> 0.3 <= c <= 2.0).

(** The running follower counts: a count, never negative, per platform. *)
Definition followers_ok (followers : dict Z) : Prop :=
  forall p, In p social_platforms ->
            exists f, dict_find followers p = Some f /\ (0 <= f)%Z.

(** The counts a brand starts from (line 61). *)
Definition initial_followers (followers : dict Z) : Prop :=
  forall p, In p social_platforms ->
            exists f, dict_find followers p = Some f /\ (5000 <= f <= 15000)%Z.

(** One day of growth of a count (line 133): the count times a factor in
    [1.0005, 1.003], truncated. *)
Definition growth_step (f f' : Z) : Prop :=
  (0 <= f)%Z
  /\ exists u : Q, 1.0005 <= u <= 1.003 /\ f' = py_int (inject_Z f * u).

(** One pass of the social loop on platform [p]: the record carries the new
    count of [p], one step of growth from the old one, and no other count
    moves. *)
Definition social_step (brand : string) (date : Z)
    (fol : dict Z) (p : string) (fol' : dict Z) (r : Social.row) : Prop :=
  Social.Brand r = brand /\ Social.Date r = date /\ Social.Platform r = p
  /\ (exists f, dict_find fol p = Some f
                /\ growth_step f (Social.Followers r))
  /\ dict_find fol' p = Some (Social.Followers r)
  /\ (forall q, q <> p -> dict_find fol' q = dict_find fol q).

(** The mean of the normal law the order count of a day is drawn from. *)
Definition order_mean (date : Z) : Q :=
  80 * generate_seasonal_multiplier date * weekday_factor date.

(** What one pass of the day loop does: [n] orders, with [n] the clamped and
    truncated normal draw; one campaign [c] on every Sales and Marketing
    record; one Marketing record per channel; one step of every follower
    count. *)
Definition day_step (brand : string) (fol : dict Z) (date : Z)
    (fol' : dict Z) (rec : DayRecords) : Prop :=
  exists (z : Q) (c : string),
    List.length (day_sales rec)
    = range_len (daily_orders_of (order_mean date + 15 * z))
    /\ In c campaigns
    /\ Forall (fun r => Sales.Brand r = brand /\ Sales.Date r = date
                        /\ Sales.Campaign r = c /\ sales_row_ok r)
              (day_sales rec)
    /\ Forall2 (fun ch r => Marketing.Brand r = brand
                            /\ Marketing.Date r = date
                            /\ Marketing.Campaign r = c
                            /\ Marketing.Channel r = ch
                            /\ marketing_row_ok r)
               marketing_channels (day_marketing rec)
    /\ Chain (social_step brand date) fol social_platforms fol'
             (day_social rec).

(** What one pass of the brand loop does: the day loop over the horizon,
    from the initial follower counts, then 120 reviews dated within the
    horizon. *)
Definition brand_step (dates : list Z) (brand : string) (part : BrandRecords)
  : Prop :=
  exists (fol0 fol1 : dict Z) (days : list DayRecords),
    initial_followers fol0
    /\ Chain (day_step brand) fol0 dates fol1 days
    /\ brand_sales part = List.concat (map day_sales days)
    /\ brand_marketing part = List.concat (map day_marketing days)
    /\ brand_social part = List.concat (map day_social days)
    /\ List.length (brand_reviews part) = 120%nat
    /\ Forall (fun r => Reviews.Brand r = brand /\ In (Reviews.Date r) dates)
              (brand_reviews part).

(** The four record lists are the records of the brands, one brand after the
    other. *)
Definition collect_ok (dates : list Z) (brands : list string) (r : Records)
  : Prop :=
  exists parts : list BrandRecords,
    Forall2 (brand_step dates) brands parts
    /\ sales_records r = List.concat (map brand_sales parts)
    /\ marketing_records r = List.concat (map brand_marketing parts)
    /\ social_records r = List.concat (map brand_social parts)
    /\ reviews_records r = List.concat (map brand_reviews parts).

(** The brand list the call works on (lines 36-37). *)
Definition brands_of (brands : option (list string)) : list string :=
  match brands with
  | None => default_brands
  | Some bs => bs
  end.

(** The day horizon of a call with a day count that is not negative. *)
Definition horizon (start_date days : Z) : list Z :=
  map (fun i => (start_date + Z.of_nat i)%Z) (seq 0 (Z.to_nat days)).

(** The tables of four record lists none of which is empty. *)
Definition tables_of (r : Records) : Tables :=
  mkTables (mkDataFrame Sales.keys (sales_records r))
           (mkDataFrame Marketing.keys (marketing_records r))
           (mkDataFrame Social.keys (social_records r))
           (mkDataFrame Reviews.keys (reviews_records r))
           campaigns.

(** What the call does once the horizon is known (lines 55-168). *)
Definition after_dates (dates : list Z) (brands : list string) : M Tables :=
  records <- collect_records dates brands ;; lift (assemble records).

(** The tables of a call that returns. *)
Definition generate_ok (dates : list Z) (brands : list string) (t : Tables)
  : Prop :=
  exists r, collect_ok dates brands r /\ t = tables_of r.

(** The part that goes with the key [k0]. *)
Fixpoint part_of {K P} (eqb : K -> K -> bool) (k0 : K) (keys : list K)
    (parts : list P) : option P :=
  match keys, parts with
  | k :: ks, p :: ps => if eqb k k0 then Some p else part_of eqb k0 ks ps
  | _, _ => None
  end.

(** [linked R lo l hi]: from [lo], through the values of [l] in order, to
    [hi], each value is [R]-related to the next; [hi] is the last one. *)
Fixpoint linked (R : Z -> Z -> Prop) (lo : Z) (l : list Z) (hi : Z) : Prop :=
  match l with
  | [] => lo = hi
  | x :: l' => R lo x /\ linked R x l' hi
  end.

(** The records of a platform among Social records. *)
Definition on_platform (p : string) (rows : list Social.row)
  : list Social.row :=
  filter (fun r => String.eqb (Social.Platform r) p) rows.

(** A call the generator answers with tables: at least one day, at least one
    brand, every brand one of the three the weight table knows. *)
Definition valid_call (days : Z) (brands : list string) : Prop :=
  (1 <= days)%Z /\ brands <> [] /\ Forall known_brand brands.

(** The Sales and the Marketing records of a brand on a day. *)
Definition sales_on (b : string) (d : Z) (t : Tables) : list Sales.row :=
  filter (fun r => String.eqb (Sales.Brand r) b && Z.eqb (Sales.Date r) d)
         (rows (sales_df t)).

Definition marketing_on (b : string) (d : Z) (t : Tables)
  : list Marketing.row :=
  filter (fun r => String.eqb (Marketing.Brand r) b
                   && Z.eqb (Marketing.Date r) d)
         (rows (marketing_df t)).

(** The Social records of a brand on a platform, in table order. *)
Definition followers_series (b p : string) (t : Tables) : list Social.row :=
  filter (fun r => String.eqb (Social.Brand r) b
                   && String.eqb (Social.Platform r) p)
         (rows (social_df t)).

(** The Reviews records of a brand. *)
Definition reviews_of (b : string) (t : Tables) : list Reviews.row :=
  filter (fun r => String.eqb (Reviews.Brand r) b) (rows (reviews_df t)).

(** An exception that tells the caller an argument is invalid. *)
Definition invalid_argument_signal (e : exn) : Prop := e = ValueError.

Definition fails_with_invalid_argument {A} (r : result A) : Prop :=
  exists e, r = Raised e /\ invalid_argument_signal e.

(** [ensures m P]: whenever [m] returns, what it returns satisfies [P]. *)
Definition ensures {A} (m : M A) (P : A -> Prop) : Prop :=
  forall g a g', m g = Ok (a, g') -> P a.

(** The labels of a Sales row come from the catalogs, its product from the
    list of its category, its brand and day from the call. *)
Definition sales_row_wf (brands : list string) (dates : list Z)
    (r : Sales.row) : Prop :=
  In (Sales.Brand r) brands /\ In (Sales.Date r) dates
  /\ In (Sales.Campaign r) campaigns
  /\ In (Sales.Channel r) channels /\ In (Sales.Offer r) offers
  /\ exists products,
       dict_find categories (Sales.Category r) = Some products
       /\ In (Sales.Product r) products.

Definition marketing_row_wf (brands : list string) (dates : list Z)
    (r : Marketing.row) : Prop :=
  In (Marketing.Brand r) brands /\ In (Marketing.Date r) dates
  /\ In (Marketing.Campaign r) campaigns
  /\ In (Marketing.Channel r) marketing_channels.

Definition social_row_wf (brands : list string) (dates : list Z)
    (r : Social.row) : Prop :=
  In (Social.Brand r) brands /\ In (Social.Date r) dates
  /\ In (Social.Platform r) social_platforms
  /\ 0.5 <= Social.EngagementRate r <= 8.5
  /\ (5000 <= Social.Followers r)%Z.

(** The rating goes with the sentiment (line 150). *)
Definition rating_matches (sentiment : string) (rating : Z) : Prop :=
  (sentiment = "Positive"%string /\ (4 <= rating <= 5)%Z)
  \/ (sentiment = "Neutral"%string /\ rating = 3%Z)
  \/ (sentiment = "Negative"%string /\ (1 <= rating <= 2)%Z).

Definition review_row_wf (brands : list string) (dates : list Z)
    (r : Reviews.row) : Prop :=
  In (Reviews.Brand r) brands /\ In (Reviews.Date r) dates
  /\ rating_matches (Reviews.Sentiment r) (Reviews.Rating r).

(** No follower count is below the least initial count. *)
Definition followers_floor (followers : dict Z) : Prop :=
  forall p f, dict_find followers p = Some f -> (5000 <= f)%Z.

(** What the rows of the four tables satisfy, and the catalog handed back. *)
Definition tables_wf (brands : list string) (dates : list Z) (t : Tables)
  : Prop :=
  Forall (sales_row_wf brands dates) (rows (sales_df t))
  /\ Forall (marketing_row_wf brands dates) (rows (marketing_df t))
  /\ Forall (social_row_wf brands dates) (rows (social_df t))
  /\ Forall (review_row_wf brands dates) (rows (reviews_df t))
  /\ campaigns_out t = campaigns.

(** [runs m P]: whenever [m], started in the state [g] of the random
    sources, returns [a] and leaves them in [g'], [P g a g'] holds. *)
Definition runs {A} (m : M A) (P : Rng -> A -> Rng -> Prop) : Prop :=
  forall g a g', m g = Ok (a, g') -> P g a g'.

(** Between [g] and [g'], [k] cells of the tape of [np.random] were read,
    and the tape is the same. *)
Definition np_frame (k : nat) (g g' : Rng) : Prop :=
  np_tape g' = np_tape g /\ np_pos g' = (np_pos g + k)%nat.

(** Following the spec's words (4.2, step 2), and none of the code's
    functions: the daily order count is a draw of the normal law of mean
    [80 * seasonal * weekday] and deviation 15 - that is, the mean plus 15
    times a standard normal draw [z] - clamped to [40, 150], then truncated
    toward zero to an integer. *)
Definition spec_daily_orders (seasonal weekday z : Q) : Z :=
  let x := 80 * seasonal * weekday + 15 * z in
  let c := if Qle_bool 40 x then (if Qle_bool x 150 then x else 150)
           else 40 in
  if Qle_bool 0 c then Qfloor c else (- Qfloor (- c))%Z.

(** The draws of [np.random] that a day takes besides its order count and
    the two of each order: 9 for the four marketing channels (a CPC for
    "Paid" only) and 8 for the four platforms. *)
Definition day_other_draws : nat := (9 + 8)%nat.

(** The order counts of the days of one brand, when the tape of [np.random]
    stands at [pos] as its day loop starts, and where the tape stands at its
    end: each day reads its standard normal draw at the current position. *)
Fixpoint order_schedule (tape : nat -> Q) (pos : nat) (dates : list Z)
  : list Z * nat :=
  match dates with
  | [] => ([], pos)
  | d :: ds =>
      let n := spec_daily_orders (generate_seasonal_multiplier d)
                                 (weekday_factor d) (tape pos) in
      let rest := order_schedule tape
                    (pos + (1 + 2 * Z.to_nat n + day_other_draws)) ds in
      (n :: fst rest, snd rest)
  end.

(** The same for the brands one after the other: the reviews and the initial
    follower counts draw from [random], not from [np.random]. *)
Fixpoint brand_schedule (tape : nat -> Q) (pos : nat) (dates : list Z)
    (brands : list string) : list (list Z) :=
  match brands with
  | [] => []
  | _ :: bs =>
      let days := order_schedule tape pos dates in
      fst days :: brand_schedule tape (snd days) dates bs
  end.

(** The number of Sales rows of a day among the rows of a brand. *)
Definition count_on (d : Z) (rows : list Sales.row) : Z :=
  Z.of_nat (List.length (filter (fun r => Z.eqb (Sales.Date r) d) rows)).

(** A marketing record reads two cells, and a third for the CPC of "Paid". *)
Definition marketing_draws (mkt_channel : string) : nat :=
  if String.eqb mkt_channel "Paid" then 3%nat else 2%nat.

(** * Verification *)

(** ** The model on sample values *)

Example clamp_mid : clamp 80 40 150 = 80.
Proof. reflexivity. Qed.
Example clamp_low : clamp (-3) 40 150 = 40.
Proof. reflexivity. Qed.
Example clamp_high : clamp 1000 40 150 = 150.
Proof. reflexivity. Qed.
Example py_int_neg : py_int (-(7 # 2)) = (-3)%Z.
Proof. reflexivity. Qed.
Example round2_tie_even : Qeq_bool (py_round2 (1 # 8)) 0.12 = true.
Proof. reflexivity. Qed.
Example round2_tie_up : Qeq_bool (py_round2 (3 # 8)) 0.38 = true.
Proof. reflexivity. Qed.
Example round2_plain : Qeq_bool (py_round2 (2 # 3)) 0.67 = true.
Proof. reflexivity. Qed.

Example weekday_2024_01_01 : weekday 738886 = 0%Z.
Proof. reflexivity. Qed.
Example yday_2024_01_01 : tm_yday 738886 = 1%Z.
Proof. reflexivity. Qed.
Example yday_2024_12_31 : tm_yday 739251 = 366%Z.
Proof. reflexivity. Qed.
Example yday_2023_12_31 : tm_yday 738885 = 365%Z.
Proof. reflexivity. Qed.
Example bisect_mid : bisect_right [0.4; 0.7; 0.85; 0.95; 1] 0.7 0 4 = 2%Z.
Proof. reflexivity. Qed.
Example bisect_top : bisect_right [0.4; 0.7; 0.85; 0.95; 1] 1 0 4 = 4%Z.
Proof. reflexivity. Qed.

(** ** Numbers *)

Lemma Qltb_true (x y : Q) : Qltb x y = true <-> x < y.
Proof.
  unfold Qltb. rewrite negb_true_iff, <- not_true_iff_false, Qle_bool_iff.
  split; intro H; [apply Qnot_le_lt | apply Qlt_not_le]; exact H.
Qed.

Lemma Qltb_false (x y : Q) : Qltb x y = false <-> y <= x.
Proof.
  unfold Qltb. rewrite negb_false_iff, Qle_bool_iff. reflexivity.
Qed.

Lemma clamp_bounds (x lo hi : Q) : lo <= hi -> lo <= clamp x lo hi <= hi.
Proof.
  intro H. unfold clamp, py_max, py_min.
  destruct (Qltb x hi) eqn:E1.
  - apply Qltb_true in E1.
    destruct (Qltb lo x) eqn:E2.
    + apply Qltb_true in E2. lra.
    + lra.
  - destruct (Qltb lo hi) eqn:E2; lra.
Qed.

Lemma py_int_floor (x : Q) : 0 <= x -> py_int x = Qfloor x.
Proof.
  destruct x as [n d]. unfold Qle, py_int, Qfloor. simpl. intro H.
  apply Z.quot_div_nonneg; lia.
Qed.

Lemma py_int_bounds (a b : Z) (x : Q) :
  (0 <= a)%Z -> inject_Z a <= x <= inject_Z b -> (a <= py_int x <= b)%Z.
Proof.
  intros Ha [H1 H2].
  assert (H0 : 0 <= x).
  { apply Qle_trans with (inject_Z a); [| exact H1].
    change 0 with (inject_Z 0). rewrite <- Zle_Qle. exact Ha. }
  rewrite (py_int_floor x H0).
  rewrite <- (Qfloor_Z a), <- (Qfloor_Z b).
  split; apply Qfloor_resp_le; assumption.
Qed.

Lemma Qfrac_bounds (x : Q) : 0 <= Qfrac x < 1.
Proof.
  unfold Qfrac.
  pose proof (Qfloor_le x) as H1. pose proof (Qlt_floor x) as H2.
  rewrite inject_Z_plus in H2. change (inject_Z 1) with 1 in H2.
  split; lra.
Qed.

Lemma round_half_even_bounds (a b : Z) (y : Q) :
  inject_Z a <= y <= inject_Z b -> (a <= round_half_even y <= b)%Z.
Proof.
  intros [H1 H2].
  assert (Fa : (a <= Qfloor y)%Z).
  { rewrite <- (Qfloor_Z a). apply Qfloor_resp_le. exact H1. }
  assert (Fb : (Qfloor y <= b)%Z).
  { rewrite <- (Qfloor_Z b). apply Qfloor_resp_le. exact H2. }
  assert (Up : (Qfloor y = b -> y - inject_Z (Qfloor y) <= 0)).
  { intro E. rewrite E. lra. }
  assert (Lt : (Qfloor y < b -> Qfloor y + 1 <= b)%Z) by lia.
  unfold round_half_even.
  destruct (Qltb (y - inject_Z (Qfloor y)) (1 # 2)) eqn:E1; [lia |].
  apply Qltb_false in E1.
  assert (Hb : (Qfloor y < b)%Z).
  { destruct (Z.eq_dec (Qfloor y) b) as [E | E]; [| lia].
    specialize (Up E). lra. }
  destruct (Qltb (1 # 2) (y - inject_Z (Qfloor y))); [lia |].
  destruct (Z.even (Qfloor y)); lia.
Qed.

Lemma py_round2_bounds (a b : Z) (x : Q) :
  inject_Z a / 100 <= x <= inject_Z b / 100 ->
  inject_Z a / 100 <= py_round2 x <= inject_Z b / 100.
Proof.
  unfold py_round2, Qdiv. change (/ 100) with (1 # 100).
  intros [H1 H2].
  destruct (round_half_even_bounds a b (x * 100)) as [R1 R2].
  { split; lra. }
  rewrite Zle_Qle in R1, R2.
  split; lra.
Qed.

(** ** Rules of [always] and [raises] *)

Lemma always_ret {A} (a : A) (P : A -> Prop) : P a -> always (ret a) P.
Proof. intros H g. exists a, g. split; [reflexivity | exact H]. Qed.

Lemma always_bind {A B} (m : M A) (k : A -> M B) (P : A -> Prop)
    (Q : B -> Prop) :
  always m P -> (forall a, P a -> always (k a) Q) -> always (bind m k) Q.
Proof.
  intros Hm Hk g. destruct (Hm g) as (a & g1 & E & Pa).
  destruct (Hk a Pa g1) as (b & g2 & E2 & Qb).
  exists b, g2. unfold bind. rewrite E. split; assumption.
Qed.

Lemma always_weaken {A} (m : M A) (P Q : A -> Prop) :
  always m P -> (forall a, P a -> Q a) -> always m Q.
Proof.
  intros Hm HPQ g. destruct (Hm g) as (a & g1 & E & Pa).
  exists a, g1. split; [exact E | apply HPQ; exact Pa].
Qed.

Lemma always_lift {A} (r : result A) (a : A) (P : A -> Prop) :
  r = Ok a -> P a -> always (lift r) P.
Proof. intros -> H. apply always_ret. exact H. Qed.

Lemma raises_lift {A} (r : result A) (e : exn) :
  r = Raised e -> raises (lift r) e.
Proof. intros -> g. reflexivity. Qed.

Lemma raises_bind {A B} (m : M A) (k : A -> M B) (e : exn) :
  raises m e -> raises (bind m k) e.
Proof. intros H g. unfold bind. rewrite (H g). reflexivity. Qed.

Lemma raises_after {A B} (m : M A) (k : A -> M B) (P : A -> Prop) (e : exn) :
  always m P -> (forall a, P a -> raises (k a) e) -> raises (bind m k) e.
Proof.
  intros Hm Hk g. destruct (Hm g) as (a & g1 & E & Pa).
  unfold bind. rewrite E. apply Hk. exact Pa.
Qed.

Lemma always_repeatM {A} (n : nat) (m : M A) (P : A -> Prop) :
  always m P ->
  always (repeatM n m) (fun l => List.length l = n /\ Forall P l).
Proof.
  intro Hm. induction n as [| n IH]; simpl.
  - apply always_ret. split; [reflexivity | constructor].
  - apply (always_bind _ _ P); [exact Hm |]. intros a Pa.
    apply (always_bind _ _ _ _ IH). intros l [Hl Hf].
    apply always_ret. split; [simpl; congruence | constructor; assumption].
Qed.

Lemma raises_repeatM {A} (n : nat) (m : M A) (e : exn) :
  raises m e -> (0 < n)%nat -> raises (repeatM n m) e.
Proof.
  intros Hm Hn. destruct n as [| n]; [lia |]. simpl.
  apply raises_bind. exact Hm.
Qed.

Lemma always_mapM {A B} (f : A -> M B) (l : list A) (P : A -> B -> Prop) :
  (forall x, In x l -> always (f x) (P x)) ->
  always (mapM f l) (fun bs => Forall2 P l bs).
Proof.
  induction l as [| x l IH]; intro H; simpl.
  - apply always_ret. constructor.
  - apply (always_bind _ _ (P x)); [apply H; left; reflexivity |].
    intros b Pb.
    apply (always_bind _ _ (fun bs => Forall2 P l bs)).
    + apply IH. intros y Hy. apply H. right. exact Hy.
    + intros bs Hbs. apply always_ret. constructor; assumption.
Qed.

Lemma always_mapAccumM {S A B} (f : S -> A -> M (S * B))
    (R : S -> A -> S -> B -> Prop) (Inv : S -> Prop) (l : list A) :
  (forall s x, Inv s -> In x l ->
     always (f s x) (fun sb => R s x (fst sb) (snd sb) /\ Inv (fst sb))) ->
  forall s, Inv s ->
  always (mapAccumM f s l)
         (fun sbs => Chain R s l (fst sbs) (snd sbs) /\ Inv (fst sbs)).
Proof.
  induction l as [| x l IH]; intros H s Hs; simpl.
  - apply always_ret. split; [constructor | exact Hs].
  - eapply always_bind; [apply H; [exact Hs | left; reflexivity] |].
    intros [s1 b] [HR Hs1]. simpl in HR, Hs1.
    eapply always_bind.
    + apply IH; [| exact Hs1]. intros s' y Hs' Hy. apply H; [exact Hs' |].
      right. exact Hy.
    + intros [s2 bs] [HC Hs2]. simpl in HC, Hs2.
      apply always_ret. simpl. split; [| exact Hs2].
      econstructor; eassumption.
Qed.

(** ** The samplers *)

Lemma py_next_always : always py_next (fun _ => True).
Proof. intro g. eexists _, _. split; [reflexivity | exact I]. Qed.

Lemma np_next_always : always np_next (fun _ => True).
Proof. intro g. eexists _, _. split; [reflexivity | exact I]. Qed.

Lemma random_random_spec : always random_random (fun u => 0 <= u < 1).
Proof.
  unfold random_random. eapply always_bind; [apply py_next_always |].
  intros x _. apply always_ret. apply Qfrac_bounds.
Qed.

Lemma randbelow_spec (n : Z) :
  (0 < n)%Z -> always (randbelow n) (fun r => (0 <= r < n)%Z).
Proof.
  intro Hn. unfold randbelow. eapply always_bind; [apply py_next_always |].
  intros x _. apply always_ret. apply Z.mod_pos_bound. exact Hn.
Qed.

Lemma random_randint_spec (a b : Z) :
  (a <= b)%Z -> always (random_randint a b) (fun r => (a <= r <= b)%Z).
Proof.
  intro Hab. unfold random_randint.
  eapply always_bind; [apply randbelow_spec; lia |].
  intros r Hr. cbv beta in Hr. apply always_ret. lia.
Qed.

Lemma list_getitem_in_range {A} (l : list A) (i : Z) :
  (0 <= i < len l)%Z -> exists a, list_getitem l i = Ok a /\ In a l.
Proof.
  intros [H0 H1]. unfold list_getitem, len in *.
  destruct (i <? 0)%Z eqn:E; [apply Z.ltb_lt in E; lia |]. rewrite E.
  destruct (nth_error l (Z.to_nat i)) as [a |] eqn:En.
  - exists a. split; [reflexivity |]. eapply nth_error_In. exact En.
  - apply nth_error_None in En. lia.
Qed.

Lemma always_getitem {A} (l : list A) (i : Z) :
  (0 <= i < len l)%Z -> always (lift (list_getitem l i)) (fun a => In a l).
Proof.
  intro H. destruct (list_getitem_in_range l i H) as (a & E & Ha).
  eapply always_lift; eassumption.
Qed.

Lemma len_pos {A} (l : list A) : l <> [] -> (0 < len l)%Z.
Proof. destruct l; [congruence |]. intros _. unfold len. simpl. lia. Qed.

Lemma random_choice_spec {A} (seq : list A) :
  seq <> [] -> always (random_choice seq) (fun a => In a seq).
Proof.
  intro Hne. pose proof (len_pos seq Hne) as Hlen. unfold random_choice.
  destruct (len seq =? 0)%Z eqn:E; [apply Z.eqb_eq in E; lia |].
  eapply always_bind; [apply randbelow_spec; exact Hlen |].
  intros i Hi. cbv beta in Hi. apply always_getitem. exact Hi.
Qed.

Lemma bisect_loop_bounds (fuel : nat) (a : list Q) (x : Q) (lo hi : Z) :
  (lo <= hi)%Z -> (lo <= bisect_loop fuel a x lo hi <= hi)%Z.
Proof.
  revert lo hi. induction fuel as [| fuel IH]; intros lo hi H; simpl; [lia |].
  destruct (lo <? hi)%Z eqn:E; [| lia]. apply Z.ltb_lt in E.
  assert (Hm : (lo <= (lo + hi) / 2 < hi)%Z).
  { split; [apply Z.div_le_lower_bound | apply Z.div_lt_upper_bound]; lia. }
  destruct (Qltb x (nth (Z.to_nat ((lo + hi) / 2)) a 0)).
  - specialize (IH lo ((lo + hi) / 2)%Z). lia.
  - specialize (IH ((lo + hi) / 2 + 1)%Z hi). lia.
Qed.

(** The loop of [bisect_right] never stops for lack of fuel: any amount of
    at least [hi - lo] gives the same index. *)
Lemma bisect_loop_enough_fuel (fuel1 fuel2 : nat) (a : list Q) (x : Q)
    (lo hi : Z) :
  (hi - lo <= Z.of_nat fuel1)%Z -> (hi - lo <= Z.of_nat fuel2)%Z ->
  bisect_loop fuel1 a x lo hi = bisect_loop fuel2 a x lo hi.
Proof.
  revert fuel2 lo hi.
  induction fuel1 as [| f1 IH]; intros [| f2] lo hi H1 H2; simpl;
    try reflexivity.
  - destruct (lo <? hi)%Z eqn:E; [apply Z.ltb_lt in E; lia | reflexivity].
  - destruct (lo <? hi)%Z eqn:E; [apply Z.ltb_lt in E; lia | reflexivity].
  - destruct (lo <? hi)%Z eqn:E; [| reflexivity]. apply Z.ltb_lt in E.
    assert (Hm : (lo <= (lo + hi) / 2 < hi)%Z).
    { split; [apply Z.div_le_lower_bound | apply Z.div_lt_upper_bound]; lia. }
    destruct (Qltb x (nth (Z.to_nat ((lo + hi) / 2)) a 0)); apply IH; lia.
Qed.

Lemma random_choices_weighted_spec {A} (population : list A)
    (weights : list Q) (c : Q) :
  population <> [] ->
  len (accumulate weights) = len population ->
  list_getitem (accumulate weights) (-1) = Ok c ->
  Qle_bool (c + 0) 0 = false ->
  always (random_choices_weighted population weights)
         (fun a => In a population).
Proof.
  intros Hne Hlen Hc Htot. pose proof (len_pos population Hne) as Hpos.
  unfold random_choices_weighted. rewrite Hlen, Z.eqb_refl. simpl negb. cbv iota.
  rewrite Hc. simpl lift.
  apply (always_bind _ _ (fun c' => c' = c)); [apply always_ret; reflexivity |].
  intros c' ->. rewrite Htot.
  eapply always_bind; [apply random_random_spec |]. intros u _.
  apply always_getitem.
  pose proof (bisect_loop_bounds
                (Z.to_nat (len population - 1 - 0)) (accumulate weights)
                (u * (c + 0)) 0 (len population - 1)) as Hb.
  unfold bisect_right. lia.
Qed.

Lemma list_getitem_nil {A} (i : Z) : @list_getitem A [] i = Raised IndexError.
Proof.
  unfold list_getitem.
  destruct (if (i <? 0)%Z then (i + len [])%Z else i) as [| p | p] eqn:E;
    simpl; try reflexivity.
  destruct (Pos.to_nat p); reflexivity.
Qed.

Lemma Qfloor_index (u : Q) (n : Z) :
  0 <= u < 1 -> (0 < n)%Z -> (0 <= Qfloor (u * (inject_Z n + 0)) < n)%Z.
Proof.
  intros [Hu0 Hu1] Hn.
  assert (Hq : 0 < inject_Z n).
  { change 0 with (inject_Z 0). rewrite <- Zlt_Qlt. exact Hn. }
  set (x := u * (inject_Z n + 0)).
  assert (Hx0 : 0 <= x) by (unfold x; nra).
  assert (Hx1 : x < inject_Z n) by (unfold x; nra).
  split.
  - change 0%Z with (Qfloor (inject_Z 0)). apply Qfloor_resp_le. exact Hx0.
  - rewrite Zlt_Qlt. pose proof (Qfloor_le x). lra.
Qed.

Lemma random_choices_k_spec {A} (population : list A) (k : nat) :
  population <> [] ->
  always (random_choices_k population k)
         (fun l => List.length l = k /\ Forall (fun a => In a population) l).
Proof.
  intro Hne. unfold random_choices_k. apply always_repeatM.
  eapply always_bind; [apply random_random_spec |]. intros u Hu.
  apply always_getitem. apply Qfloor_index; [exact Hu | apply len_pos, Hne].
Qed.

Lemma random_choices_k_empty {A} (k : nat) :
  (0 < k)%nat -> raises (@random_choices_k A [] k) IndexError.
Proof.
  intro Hk. unfold random_choices_k. apply raises_repeatM; [| exact Hk].
  eapply raises_after; [apply random_random_spec |]. intros u _.
  apply raises_lift. apply list_getitem_nil.
Qed.

Lemma np_random_normal_spec (loc scale : Q) :
  always (np_random_normal loc scale) (fun _ => True).
Proof.
  unfold np_random_normal. eapply always_bind; [apply np_next_always |].
  intros z _. apply always_ret. exact I.
Qed.

Lemma np_random_uniform_spec (low high : Q) :
  low <= high ->
  always (np_random_uniform low high) (fun x => low <= x <= high).
Proof.
  intro H. unfold np_random_uniform.
  eapply always_bind; [apply np_next_always |]. intros u _.
  apply always_ret. pose proof (Qfrac_bounds u). nra.
Qed.

Lemma np_random_exponential_spec (scale : Q) :
  0 <= scale -> always (np_random_exponential scale) (fun x => 0 <= x).
Proof.
  intro H. unfold np_random_exponential.
  eapply always_bind; [apply np_next_always |]. intros e _.
  apply always_ret. pose proof (Qabs_nonneg e). nra.
Qed.

Lemma py_round2_between (lo hi x : Q) (a b : Z) :
  lo == inject_Z a / 100 -> hi == inject_Z b / 100 ->
  lo <= x <= hi -> lo <= py_round2 x <= hi.
Proof.
  intros Ea Eb H. rewrite Ea, Eb in *. apply py_round2_bounds. exact H.
Qed.

(** ** Rows *)

Ltac step spec := eapply always_bind; [apply spec |].
Ltac in_cases H :=
  repeat (destruct H as [H | H]; [subst |]); try contradiction.

Lemma gen_order_spec (brand : string) (date : Z) (campaign : string) :
  known_brand brand ->
  always (gen_order brand date campaign)
         (fun r => Sales.Brand r = brand /\ Sales.Date r = date
                   /\ Sales.Campaign r = campaign /\ sales_row_ok r).
Proof.
  intro Hb. unfold gen_order.
  apply (always_bind _ _ (fun w => In w (map snd cat_weights))).
  { unfold known_brand in Hb. simpl in Hb. in_cases Hb;
      (eapply always_lift; [reflexivity | simpl; tauto]). }
  intros w Hw.
  apply (always_bind _ _ (fun c => In c (dict_keys categories))).
  { simpl in Hw. in_cases Hw;
      (eapply random_choices_weighted_spec;
       [discriminate | reflexivity | reflexivity | reflexivity]). }
  intros cat Hcat.
  apply (always_bind _ _ (fun ps : list string => ps <> [])).
  { simpl in Hcat. in_cases Hcat;
      (eapply always_lift; [reflexivity | discriminate]). }
  intros products Hps.
  step (random_choice_spec products Hps). intros prod _.
  eapply always_bind.
  { eapply (random_choices_weighted_spec channels);
      [discriminate | reflexivity | reflexivity | reflexivity]. }
  intros channel _.
  eapply always_bind.
  { eapply (random_choices_weighted_spec offers);
      [discriminate | reflexivity | reflexivity | reflexivity]. }
  intros offer _.
  apply (always_bind _ _ (fun b : Z =>
           dict_find base_price cat = Some b
           /\ inject_Z b * 0.6 <= inject_Z b * 1.5)).
  { simpl in Hcat. in_cases Hcat;
      (eapply always_lift; [reflexivity | split; [reflexivity | discriminate]]). }
  intros base [Hbase Hle].
  step np_random_normal_spec. intros x _.
  step (np_random_exponential_spec 1.5). { discriminate. }
  intros e He. apply always_ret. unfold sales_row_ok.
  cbn [Sales.Brand Sales.Date Sales.Campaign Sales.Revenue Sales.UnitPrice
       Sales.Qty Sales.Category].
  repeat split; try reflexivity; [apply Z.le_max_l |].
  exists base. split; [exact Hbase |].
  pose proof (clamp_bounds (py_round2 x) _ _ Hle). lra.
Qed.

Lemma gen_order_unknown (brand : string) (date : Z) (campaign : string) :
  ~ known_brand brand ->
  raises (gen_order brand date campaign) (KeyError brand).
Proof.
  intro Hb. unfold gen_order. apply raises_bind. apply raises_lift.
  unfold dict_get.
  destruct (dict_find cat_weights brand) as [w |] eqn:E; [| reflexivity].
  exfalso. apply Hb. unfold known_brand. simpl in *.
  repeat match type of E with
         | (if String.eqb ?a ?b then _ else _) = _ =>
             destruct (String.eqb_spec a b); [subst; tauto |]
         end.
  discriminate.
Qed.

Lemma gen_marketing_spec (brand : string) (date : Z) (campaign : string)
    (seasonal_mult : Q) (mkt_channel : string) :
  In mkt_channel marketing_channels ->
  always (gen_marketing brand date campaign seasonal_mult mkt_channel)
         (fun r => Marketing.Brand r = brand /\ Marketing.Date r = date
                   /\ Marketing.Campaign r = campaign
                   /\ Marketing.Channel r = mkt_channel
                   /\ marketing_row_ok r).
Proof.
  intro Hc. unfold gen_marketing.
  apply (always_bind _ _ (fun _ => True)).
  { simpl in Hc. in_cases Hc; (eapply always_lift; [reflexivity | exact I]). }
  intros base _.
  step np_random_normal_spec. intros x _.
  step (np_random_uniform_spec 0.3 4.5). { discriminate. }
  intros u Hu.
  apply (always_bind _ _ (fun cpc : option Q =>
           (cpc <> None <-> mkt_channel = "Paid"%string)
           /\ forall c, cpc = Some c -> 0.3 <= c <= 2.0)).
  { destruct (String.eqb_spec mkt_channel "Paid") as [E | E].
    - step (np_random_uniform_spec 0.3 2.0). { discriminate. }
      intros v Hv. apply always_ret. split.
      + split; [intros _; exact E | discriminate].
      + intros c [= <-].
        apply (py_round2_between _ _ _ 30 200); [reflexivity .. | exact Hv].
    - apply always_ret. split.
      + split; [congruence | intro; contradiction].
      + discriminate. }
  intros cpc [Hcpc1 Hcpc2]. apply always_ret. unfold marketing_row_ok.
  cbn [Marketing.Brand Marketing.Date Marketing.Campaign Marketing.Channel
       Marketing.Traffic Marketing.CTR Marketing.CPC].
  do 4 (split; [reflexivity |]).
  split; [| split; [| split; [exact Hcpc1 | exact Hcpc2]]].
  - apply (py_int_bounds 100 5000); [lia |].
    apply (clamp_bounds x 100 5000). discriminate.
  - apply (py_round2_between _ _ _ 30 450); [reflexivity .. | exact Hu].
Qed.

Lemma dict_find_set_same {V} (d : dict V) (k : string) (v : V) :
  dict_find (dict_set d k v) k = Some v.
Proof.
  induction d as [| [k' v'] d IH]; simpl.
  - rewrite String.eqb_refl. reflexivity.
  - destruct (String.eqb k k') eqn:E; simpl; rewrite E; [reflexivity | exact IH].
Qed.

Lemma dict_find_set_other {V} (d : dict V) (k k0 : string) (v : V) :
  k0 <> k -> dict_find (dict_set d k v) k0 = dict_find d k0.
Proof.
  intro Hne. induction d as [| [k' v'] d IH]; simpl.
  - destruct (String.eqb_spec k0 k); [contradiction | reflexivity].
  - destruct (String.eqb_spec k k') as [-> | Hk]; simpl.
    + destruct (String.eqb_spec k0 k'); [contradiction | reflexivity].
    + rewrite IH. reflexivity.
Qed.

Lemma growth_not_below (f : Z) (u : Q) :
  (0 <= f)%Z -> 1.0005 <= u <= 1.003 -> (f <= py_int (inject_Z f * u))%Z.
Proof.
  intros Hf [Hu _].
  assert (H0 : 0 <= inject_Z f).
  { change 0 with (inject_Z 0). rewrite <- Zle_Qle. exact Hf. }
  assert (Hx : inject_Z f <= inject_Z f * u) by nra.
  rewrite py_int_floor by lra.
  rewrite <- (Qfloor_Z f) at 1. apply Qfloor_resp_le. exact Hx.
Qed.

Lemma growth_step_le (f f' : Z) : growth_step f f' -> (f <= f')%Z.
Proof.
  intros (Hf & u & Hu & ->). apply growth_not_below; assumption.
Qed.

Lemma initial_followers_ok (fol : dict Z) :
  initial_followers fol -> followers_ok fol.
Proof.
  intros H p Hp. destruct (H p Hp) as (f & E & Hf).
  exists f. split; [exact E | lia].
Qed.

Lemma gen_social_spec (brand : string) (date : Z) (fol : dict Z) (p : string) :
  followers_ok fol -> In p social_platforms ->
  always (gen_social brand date fol p)
         (fun sb => social_step brand date fol p (fst sb) (snd sb)
                    /\ followers_ok (fst sb)).
Proof.
  intros Hfol Hp. destruct (Hfol p Hp) as (f & Ef & Hf). unfold gen_social.
  apply (always_bind _ _ (fun f' => f' = f)).
  { eapply always_lift; [unfold dict_get; rewrite Ef |]; reflexivity. }
  intros f' ->.
  step (np_random_uniform_spec 1.0005 1.003). { discriminate. }
  intros u Hu. cbv beta in Hu.
  pose proof (growth_not_below f u Hf Hu) as Hg.
  step (np_random_uniform_spec 0.5 8.5). { discriminate. }
  intros v _.
  apply (always_bind _ _ (fun f' => f' = py_int (inject_Z f * u))).
  { eapply always_lift;
      [unfold dict_get; rewrite dict_find_set_same |]; reflexivity. }
  intros f' ->. apply always_ret.
  cbn [fst snd]. unfold social_step.
  cbn [Social.Brand Social.Date Social.Platform Social.Followers].
  split.
  - split; [reflexivity |]. split; [reflexivity |]. split; [reflexivity |].
    split.
    { exists f. split; [exact Ef |]. split; [exact Hf |].
      exists u. split; [exact Hu | reflexivity]. }
    split; [apply dict_find_set_same |].
    intros q Hq. apply dict_find_set_other. exact Hq.
  - intros q Hq. destruct (string_dec q p) as [-> | Hne].
    + exists (py_int (inject_Z f * u)).
      split; [apply dict_find_set_same | lia].
    + rewrite (dict_find_set_other _ _ _ _ Hne). apply Hfol. exact Hq.
Qed.

Lemma init_followers_spec :
  always (mapM (fun p => v <- random_randint 5000 15000 ;; ret (p, v))
               social_platforms)
         initial_followers.
Proof.
  eapply always_weaken.
  - apply (always_mapM _ _ (fun p pv => fst pv = p
                                        /\ (5000 <= snd pv <= 15000)%Z)).
    intros p _. step (random_randint_spec 5000 15000). { lia. }
    intros v Hv. cbv beta in Hv. apply always_ret. simpl. split; [reflexivity | lia].
  - intros fol H. unfold initial_followers.
    induction H as [| p [k v] ps fol' [Hk Hv] _ IH]; intros q Hq.
    + contradiction.
    + simpl in Hk, Hv. subst k. simpl.
      destruct (String.eqb_spec q p) as [-> | Hne].
      * exists v. split; [reflexivity | exact Hv].
      * destruct Hq as [-> | Hq]; [contradiction |]. apply IH. exact Hq.
Qed.

Lemma gen_review_spec (brand : string) (date : Z) :
  always (gen_review brand date)
         (fun r => Reviews.Brand r = brand /\ Reviews.Date r = date).
Proof.
  unfold gen_review.
  apply (always_bind _ _ (fun s => In s sentiments)).
  { eapply random_choices_weighted_spec;
      [discriminate | reflexivity | reflexivity | reflexivity]. }
  intros s Hs.
  step (random_randint_spec 4 5). { lia. } intros r_pos _.
  step (random_randint_spec 1 2). { lia. } intros r_neg _.
  apply (always_bind _ _ (fun _ => True)).
  { simpl in Hs. in_cases Hs; (eapply always_lift; [reflexivity | exact I]). }
  intros rating _. apply always_ret. split; reflexivity.
Qed.

Lemma Forall2_length_Forall {A B} (P : A -> Prop) (R : A -> B -> Prop)
    (Q : B -> Prop) (l : list A) (l' : list B) :
  (forall a b, P a -> R a b -> Q b) ->
  Forall P l -> Forall2 R l l' ->
  List.length l' = List.length l /\ Forall Q l'.
Proof.
  intros H HP HR. induction HR as [| a b l l' Hab _ IH].
  - split; [reflexivity | constructor].
  - inversion HP as [| ? ? Pa HP']; subst. destruct (IH HP') as [E F].
    split; [simpl; congruence | constructor; [eapply H; eassumption | exact F]].
Qed.

Lemma gen_reviews_spec (brand : string) (dates : list Z) :
  dates <> [] ->
  always (gen_reviews brand dates)
         (fun rs => List.length rs = 120%nat
                    /\ Forall (fun r => Reviews.Brand r = brand
                                        /\ In (Reviews.Date r) dates) rs).
Proof.
  intro Hne. unfold gen_reviews.
  step (random_choices_k_spec dates 120 Hne). intros ds [Hlen Hin].
  eapply always_weaken.
  - apply (always_mapM _ _ (fun d r => Reviews.Brand r = brand
                                       /\ Reviews.Date r = d)).
    intros d _. apply gen_review_spec.
  - intros rs H. cbv beta.
    destruct (Forall2_length_Forall
                (fun d => In d dates)
                (fun d r => Reviews.Brand r = brand /\ Reviews.Date r = d)
                (fun r => Reviews.Brand r = brand /\ In (Reviews.Date r) dates)
                ds rs) as [E F]; try assumption.
    + intros d r Hd [Hb Hdt]. split; [exact Hb | rewrite Hdt; exact Hd].
    + split; [congruence | exact F].
Qed.

Lemma gen_reviews_empty (brand : string) :
  raises (gen_reviews brand []) IndexError.
Proof.
  unfold gen_reviews. apply raises_bind. apply random_choices_k_empty. lia.
Qed.

(** ** One day *)

Lemma np_random_normal_form (loc scale : Q) :
  always (np_random_normal loc scale) (fun x => exists z, x = loc + scale * z).
Proof.
  unfold np_random_normal. eapply always_bind; [apply np_next_always |].
  intros z _. apply always_ret. exists z. reflexivity.
Qed.

Lemma daily_orders_bounds (x : Q) : (40 <= daily_orders_of x <= 150)%Z.
Proof.
  unfold daily_orders_of. apply (py_int_bounds 40 150); [lia |].
  apply (clamp_bounds x 40 150). discriminate.
Qed.

Lemma gen_day_spec (brand : string) (fol : dict Z) (date : Z) :
  known_brand brand -> followers_ok fol ->
  always (gen_day brand fol date)
         (fun sb => day_step brand fol date (fst sb) (snd sb)
                    /\ followers_ok (fst sb)).
Proof.
  intros Hb Hfol. unfold gen_day.
  step np_random_normal_form. intros x [z Hx].
  step (random_choice_spec campaigns). { discriminate. }
  intros c Hc. cbv beta in Hc.
  step (always_repeatM (range_len (daily_orders_of x)) _ _
          (gen_order_spec brand date c Hb)).
  intros sales [Hlen Hsales].
  eapply always_bind.
  { apply (always_mapM _ marketing_channels
             (fun ch r => Marketing.Brand r = brand
                          /\ Marketing.Date r = date
                          /\ Marketing.Campaign r = c
                          /\ Marketing.Channel r = ch
                          /\ marketing_row_ok r)).
    intros ch Hch. apply gen_marketing_spec. exact Hch. }
  intros marketing Hmkt.
  eapply always_bind.
  { apply (always_mapAccumM (gen_social brand date) (social_step brand date)
             followers_ok social_platforms).
    - intros s p Hs Hp. apply gen_social_spec; assumption.
    - exact Hfol. }
  intros [fol' social] [Hchain Hfol']. cbn [fst snd] in Hchain, Hfol'.
  apply always_ret. cbn [fst snd]. split; [| exact Hfol'].
  exists z, c. unfold day_sales, day_marketing, day_social, order_mean.
  cbn [fst snd]. rewrite <- Hx.
  split; [exact Hlen |]. split; [exact Hc |]. split; [exact Hsales |].
  split; [exact Hmkt | exact Hchain].
Qed.

Lemma gen_day_unknown (brand : string) (fol : dict Z) (date : Z) :
  ~ known_brand brand -> raises (gen_day brand fol date) (KeyError brand).
Proof.
  intro Hb. unfold gen_day.
  eapply raises_after; [apply np_random_normal_form |]. intros x _.
  eapply raises_after; [apply (random_choice_spec campaigns); discriminate |].
  intros c _. apply raises_bind. apply raises_repeatM.
  - apply gen_order_unknown. exact Hb.
  - pose proof (daily_orders_bounds x). unfold range_len. lia.
Qed.

(** ** One brand *)

Lemma gen_brand_spec (dates : list Z) (brand : string) :
  known_brand brand -> dates <> [] ->
  always (gen_brand dates brand) (brand_step dates brand).
Proof.
  intros Hb Hd. unfold gen_brand.
  step init_followers_spec. intros fol0 Hfol0.
  eapply always_bind.
  { apply (always_mapAccumM (gen_day brand) (day_step brand) followers_ok
             dates).
    - intros s d Hs _. apply gen_day_spec; assumption.
    - apply initial_followers_ok. exact Hfol0. }
  intros [fol1 days] [Hchain _]. cbn [fst snd] in Hchain.
  step (gen_reviews_spec brand dates Hd). intros reviews [Hlen Hrev].
  apply always_ret. exists fol0, fol1, days.
  unfold brand_sales, brand_marketing, brand_social, brand_reviews.
  cbn [fst snd]. repeat (split; [first [assumption | reflexivity] |]).
  exact Hrev.
Qed.

Lemma gen_brand_no_dates (brand : string) :
  raises (gen_brand [] brand) IndexError.
Proof.
  unfold gen_brand.
  eapply raises_after; [apply init_followers_spec |]. intros fol0 _.
  simpl mapAccumM.
  eapply raises_after; [apply (always_ret _ (fun _ => True)); exact I |].
  intros [fol1 days] _. apply raises_bind. apply gen_reviews_empty.
Qed.

Lemma gen_brand_unknown (dates : list Z) (brand : string) :
  ~ known_brand brand -> dates <> [] ->
  raises (gen_brand dates brand) (KeyError brand).
Proof.
  intros Hb Hd. unfold gen_brand.
  eapply raises_after; [apply init_followers_spec |]. intros fol0 _.
  apply raises_bind. destruct dates as [| d ds]; [congruence |].
  simpl mapAccumM. apply raises_bind. apply gen_day_unknown. exact Hb.
Qed.

(** ** The brand loop *)

Lemma collect_records_spec (dates : list Z) (brands : list string) :
  Forall known_brand brands -> dates <> [] ->
  always (collect_records dates brands) (collect_ok dates brands).
Proof.
  intros Hb Hd. unfold collect_records.
  eapply always_bind.
  { apply (always_mapM _ brands (brand_step dates)).
    intros b Hin. apply gen_brand_spec; [| exact Hd].
    rewrite Forall_forall in Hb. apply Hb. exact Hin. }
  intros parts Hparts. apply always_ret. exists parts.
  cbn [sales_records marketing_records social_records reviews_records].
  repeat (split; [first [assumption | reflexivity] |]). reflexivity.
Qed.

Lemma collect_records_no_brand (dates : list Z) :
  always (collect_records dates [])
         (fun r => r = mkRecords [] [] [] []).
Proof.
  unfold collect_records. simpl mapM.
  eapply always_bind; [apply (always_ret _ (fun p => p = [])); reflexivity |].
  intros parts ->. apply always_ret. reflexivity.
Qed.

Lemma raises_mapM {A B} (f : A -> M B) (P : A -> B -> Prop)
    (l1 : list A) (x : A) (l2 : list A) (e : exn) :
  (forall y, In y l1 -> always (f y) (P y)) ->
  raises (f x) e ->
  raises (mapM f (l1 ++ x :: l2)) e.
Proof.
  intros H Hx. induction l1 as [| y l1 IH]; simpl.
  - apply raises_bind. exact Hx.
  - eapply raises_after; [apply H; left; reflexivity |]. intros b _.
    apply raises_bind. apply IH. intros y' Hy'. apply H. right. exact Hy'.
Qed.

Lemma collect_records_no_dates (brand : string) (brands : list string) :
  raises (collect_records [] (brand :: brands)) IndexError.
Proof.
  unfold collect_records. apply raises_bind.
  apply (raises_mapM _ (fun _ _ => True) [] brand brands).
  - intros y [].
  - apply gen_brand_no_dates.
Qed.

Lemma collect_records_unknown (dates : list Z)
    (known : list string) (brand : string) (rest : list string) :
  Forall known_brand known -> ~ known_brand brand -> dates <> [] ->
  raises (collect_records dates (known ++ brand :: rest)) (KeyError brand).
Proof.
  intros Hk Hb Hd. unfold collect_records. apply raises_bind.
  apply (raises_mapM _ (brand_step dates)).
  - intros y Hy. apply gen_brand_spec; [| exact Hd].
    rewrite Forall_forall in Hk. apply Hk. exact Hy.
  - apply gen_brand_unknown; assumption.
Qed.

(** ** Assembly and the whole call *)

Lemma generate_unfold (start_date days : Z) (brands : option (list string)) :
  generate_mock_data start_date days brands
  = bind (lift (pd_date_range start_date days))
         (fun dates => after_dates dates (brands_of brands)).
Proof. reflexivity. Qed.

Lemma pd_date_range_horizon (start_date days : Z) :
  (0 <= days)%Z -> pd_date_range start_date days = Ok (horizon start_date days).
Proof.
  intro H. unfold pd_date_range.
  destruct (days <? 0)%Z eqn:E; [apply Z.ltb_lt in E; lia | reflexivity].
Qed.

Lemma horizon_nonempty (start_date days : Z) :
  (1 <= days)%Z -> horizon start_date days <> [].
Proof.
  intro H. unfold horizon.
  destruct (Z.to_nat days) as [| n] eqn:E; [lia | discriminate].
Qed.

Lemma assemble_nonempty (r : Records) :
  sales_records r <> [] -> marketing_records r <> [] ->
  social_records r <> [] -> reviews_records r <> [] ->
  assemble r = Ok (tables_of r).
Proof.
  destruct r as [[| s ss] [| m ms] [| o os] [| v vs]]; simpl;
    intros H1 H2 H3 H4; try congruence.
  reflexivity.
Qed.

Lemma assemble_empty : assemble (mkRecords [] [] [] []) = Raised (KeyError "Date").
Proof. reflexivity. Qed.

Lemma app_nonempty {A} (l1 l2 : list A) : l1 <> [] -> (l1 ++ l2)%list <> [].
Proof. destruct l1; [congruence | discriminate]. Qed.

Lemma length_nonempty {A} (l : list A) : (0 < List.length l)%nat -> l <> [].
Proof. destruct l; simpl; [lia | discriminate]. Qed.

Lemma brand_step_nonempty (dates : list Z) (brand : string)
    (part : BrandRecords) :
  dates <> [] -> brand_step dates brand part ->
  brand_sales part <> [] /\ brand_marketing part <> []
  /\ brand_social part <> [] /\ brand_reviews part <> [].
Proof.
  intros Hd (fol0 & fol1 & days & _ & Hchain & Es & Em & Eo & Hlen & _).
  destruct Hchain as [| s d s1 rec l s2 recs Hday _]; [congruence |].
  destruct Hday as (z & c & Hn & _ & _ & Hm & Ho).
  rewrite Es, Em, Eo. simpl. repeat split.
  - apply app_nonempty. apply length_nonempty. rewrite Hn.
    pose proof (daily_orders_bounds (order_mean d + 15 * z)).
    unfold range_len. lia.
  - apply app_nonempty. inversion Hm. discriminate.
  - apply app_nonempty. inversion Ho. discriminate.
  - apply length_nonempty. lia.
Qed.

Lemma collect_ok_nonempty (dates : list Z) (brands : list string)
    (r : Records) :
  dates <> [] -> brands <> [] -> collect_ok dates brands r ->
  assemble r = Ok (tables_of r).
Proof.
  intros Hd Hb (parts & Hparts & Es & Em & Eo & Ev).
  destruct Hparts as [| b p bs ps Hp _]; [congruence |].
  destruct (brand_step_nonempty dates b p Hd Hp) as (N1 & N2 & N3 & N4).
  apply assemble_nonempty; [rewrite Es | rewrite Em | rewrite Eo | rewrite Ev];
    simpl; apply app_nonempty; assumption.
Qed.

Lemma after_dates_spec (dates : list Z) (brands : list string) :
  dates <> [] -> brands <> [] -> Forall known_brand brands ->
  always (after_dates dates brands) (generate_ok dates brands).
Proof.
  intros Hd Hne Hb. unfold after_dates.
  step (collect_records_spec dates brands Hb Hd). intros r Hr.
  eapply always_lift; [apply (collect_ok_nonempty dates brands); assumption |].
  exists r. split; [exact Hr | reflexivity].
Qed.

Lemma after_dates_no_brand (dates : list Z) :
  raises (after_dates dates []) (KeyError "Date").
Proof.
  unfold after_dates.
  eapply raises_after; [apply collect_records_no_brand |].
  intros r ->. apply raises_lift. apply assemble_empty.
Qed.

Lemma after_dates_no_dates (brand : string) (brands : list string) :
  raises (after_dates [] (brand :: brands)) IndexError.
Proof. unfold after_dates. apply raises_bind, collect_records_no_dates. Qed.

Lemma after_dates_unknown (dates : list Z)
    (known : list string) (brand : string) (rest : list string) :
  Forall known_brand known -> ~ known_brand brand -> dates <> [] ->
  raises (after_dates dates (known ++ brand :: rest)) (KeyError brand).
Proof.
  intros. unfold after_dates. apply raises_bind.
  apply collect_records_unknown; assumption.
Qed.

Lemma known_brand_dec (b : string) : {known_brand b} + {~ known_brand b}.
Proof. unfold known_brand. apply in_dec. exact string_dec. Qed.

(** A brand list is all known, or splits at its first unknown brand. *)
Lemma first_unknown (brands : list string) :
  Forall known_brand brands
  \/ exists known b rest,
       brands = (known ++ b :: rest)%list
       /\ Forall known_brand known /\ ~ known_brand b.
Proof.
  induction brands as [| b bs IH]; [left; constructor |].
  destruct (known_brand_dec b) as [Hb | Hb].
  - destruct IH as [H | (known & b' & rest & E & Hk & Hb')].
    + left. constructor; assumption.
    + right. exists (b :: known), b', rest. subst bs.
      split; [reflexivity |]. split; [constructor; assumption | exact Hb'].
  - right. exists [], b, bs. split; [reflexivity |].
    split; [constructor | exact Hb].
Qed.

(** Past [pd.date_range], the call never gives an invalid-argument signal. *)
Lemma after_dates_no_ValueError (dates : list Z) (brands : list string)
    (g : Rng) :
  after_dates dates brands g <> Raised ValueError.
Proof.
  destruct brands as [| b bs].
  - rewrite (after_dates_no_brand dates g). discriminate.
  - destruct dates as [| d ds].
    + rewrite (after_dates_no_dates b bs g). discriminate.
    + destruct (first_unknown (b :: bs))
        as [H | (known & b' & rest & E & Hk & Hb')].
      * destruct (after_dates_spec (d :: ds) (b :: bs)) with (g := g)
          as (t & g' & E & _); try discriminate; [exact H |].
        rewrite E. discriminate.
      * rewrite E.
        rewrite (after_dates_unknown (d :: ds) known b' rest Hk Hb'); discriminate.
Qed.

(** ** Records grouped by a key

    The records of a table are the concatenation of parts, one per key (a
    brand, or a day); when the keys are all different, the records of a key
    are exactly its part. *)

Section Keyed.

Context {K P : Type} (eqb : K -> K -> bool).
Hypothesis eqb_spec : forall x y, eqb x y = true <-> x = y.

Lemma part_of_rel (Rel : K -> P -> Prop) (keys : list K) (parts : list P)
    (k0 : K) :
  Forall2 Rel keys parts -> In k0 keys ->
  exists p0, part_of eqb k0 keys parts = Some p0 /\ Rel k0 p0.
Proof.
  intros H Hin. induction H as [| k p ks ps Hkp _ IH]; [contradiction |].
  simpl. destruct (eqb k k0) eqn:E.
  - apply eqb_spec in E. subst k0. exists p. split; [reflexivity | exact Hkp].
  - destruct Hin as [-> | Hin]; [| apply IH; exact Hin].
    assert (E' : eqb k0 k0 = true) by (apply eqb_spec; reflexivity).
    congruence.
Qed.

Lemma filter_key_all {R} (key : R -> K) (k0 : K) (l : list R) :
  Forall (fun r => key r = k0) l -> filter (fun r => eqb (key r) k0) l = l.
Proof.
  induction 1 as [| r l Hr _ IH]; simpl; [reflexivity |].
  assert (E : eqb (key r) k0 = true) by (apply eqb_spec; exact Hr).
  rewrite E, IH. reflexivity.
Qed.

Lemma filter_key_none {R} (key : R -> K) (k k0 : K) (l : list R) :
  k <> k0 -> Forall (fun r => key r = k) l ->
  filter (fun r => eqb (key r) k0) l = [].
Proof.
  intros Hne. induction 1 as [| r l Hr _ IH]; simpl; [reflexivity |].
  destruct (eqb (key r) k0) eqn:E; [| exact IH].
  apply eqb_spec in E. congruence.
Qed.

Lemma filter_key_absent {R} (key : R -> K) (proj : P -> list R)
    (keys : list K) (parts : list P) (k0 : K) :
  Forall2 (fun k p => Forall (fun r => key r = k) (proj p)) keys parts ->
  ~ In k0 keys ->
  filter (fun r => eqb (key r) k0) (List.concat (map proj parts)) = [].
Proof.
  induction 1 as [| k p ks ps Hkp _ IH]; intro Hn; simpl; [reflexivity |].
  rewrite filter_app, IH by (intro; apply Hn; right; assumption).
  rewrite (filter_key_none key k k0); [reflexivity | | exact Hkp].
  intros ->. apply Hn. left. reflexivity.
Qed.

Lemma part_of_filter {R} (key : R -> K) (proj : P -> list R)
    (keys : list K) (parts : list P) (k0 : K) (p0 : P) :
  NoDup keys ->
  Forall2 (fun k p => Forall (fun r => key r = k) (proj p)) keys parts ->
  part_of eqb k0 keys parts = Some p0 ->
  filter (fun r => eqb (key r) k0) (List.concat (map proj parts)) = proj p0.
Proof.
  intros Hnd H. revert Hnd.
  induction H as [| k p ks ps Hkp Hrest IH]; intros Hnd E; [discriminate |].
  inversion Hnd as [| ? ? Hnotin Hnd']; subst. simpl in E |- *.
  rewrite filter_app. destruct (eqb k k0) eqn:Ek.
  - apply eqb_spec in Ek. subst k0. inversion E; subst p0.
    rewrite (filter_key_all key k _ Hkp).
    rewrite (filter_key_absent key proj ks ps k Hrest Hnotin).
    apply app_nil_r.
  - rewrite (filter_key_none key k k0); [| | exact Hkp].
    + simpl. apply IH; assumption.
    + intros ->. assert (eqb k0 k0 = true) by (apply eqb_spec; reflexivity).
      congruence.
Qed.

End Keyed.

Lemma filter_andb {A} (f g : A -> bool) (l : list A) :
  filter (fun x => f x && g x) l = filter g (filter f l).
Proof.
  induction l as [| x l IH]; simpl; [reflexivity |].
  destruct (f x); simpl; [destruct (g x) |]; rewrite IH; reflexivity.
Qed.

Lemma Forall2_weaken {A B} (R R' : A -> B -> Prop) (l : list A) (l' : list B) :
  (forall a b, R a b -> R' a b) -> Forall2 R l l' -> Forall2 R' l l'.
Proof. intros H. induction 1; constructor; auto. Qed.

Lemma Forall2_concat {A B C} (R : A -> B -> Prop) (Q : C -> Prop)
    (proj : B -> list C) (l : list A) (l' : list B) :
  (forall a b, R a b -> Forall Q (proj b)) ->
  Forall2 R l l' -> Forall Q (List.concat (map proj l')).
Proof.
  intros H. induction 1 as [| a b l l' Hab _ IH]; simpl; [constructor |].
  apply Forall_app. split; [eapply H; exact Hab | exact IH].
Qed.

Lemma Chain_Forall2 {S A B} (R : S -> A -> S -> B -> Prop)
    (s : S) (l : list A) (s' : S) (bs : list B) :
  Chain R s l s' bs -> Forall2 (fun x b => exists s1 s2, R s1 x s2 b) l bs.
Proof.
  induction 1 as [| s x s1 b l s2 bs HR _ IH]; constructor; [| exact IH].
  exists s, s1. exact HR.
Qed.

Lemma string_eqb_iff (x y : string) : String.eqb x y = true <-> x = y.
Proof. apply String.eqb_eq. Qed.

Lemma Z_eqb_iff (x y : Z) : Z.eqb x y = true <-> x = y.
Proof. apply Z.eqb_eq. Qed.

(** ** The horizon *)

Lemma in_horizon (start_date days d : Z) :
  In d (horizon start_date days) -> (start_date <= d < start_date + days)%Z.
Proof.
  unfold horizon. rewrite in_map_iff. intros (i & <- & Hi).
  apply in_seq in Hi. lia.
Qed.

Lemma horizon_increasing (start_date days : Z) :
  StronglySorted Z.lt (horizon start_date days).
Proof.
  unfold horizon. generalize 0%nat as k.
  induction (Z.to_nat days) as [| n IH]; intro k; simpl; constructor.
  - apply IH.
  - rewrite Forall_forall. intros d Hd. apply in_map_iff in Hd.
    destruct Hd as (i & <- & Hi). apply in_seq in Hi. lia.
Qed.

Lemma horizon_NoDup (start_date days : Z) : NoDup (horizon start_date days).
Proof.
  pose proof (horizon_increasing start_date days) as H.
  induction H as [| d l _ IH Hd]; constructor; [| exact IH].
  intro Hin. rewrite Forall_forall in Hd. specialize (Hd d Hin). lia.
Qed.

(** ** The records of a brand, and of a brand on a day *)

Lemma Chain_social_keys (brand : string) (date : Z) (fol : dict Z)
    (ps : list string) (fol' : dict Z) (rows : list Social.row) :
  Chain (social_step brand date) fol ps fol' rows ->
  Forall (fun r => Social.Brand r = brand /\ Social.Date r = date) rows.
Proof.
  induction 1 as [| s x s1 r l s2 rs (Hb & Hd & _) _ IH]; constructor;
    [split; assumption | exact IH].
Qed.

Lemma Forall_impl_in {A} (P Q : A -> Prop) (l : list A) :
  (forall a, P a -> Q a) -> Forall P l -> Forall Q l.
Proof. intros H HP. eapply Forall_impl; eassumption. Qed.

Lemma Forall2_right {A B} (R : A -> B -> Prop) (Q : B -> Prop)
    (l : list A) (l' : list B) :
  (forall a b, R a b -> Q b) -> Forall2 R l l' -> Forall Q l'.
Proof. intros H. induction 1; constructor; eauto. Qed.

Lemma day_step_keys (brand : string) (fol : dict Z) (date : Z) (fol' : dict Z)
    (rec : DayRecords) :
  day_step brand fol date fol' rec ->
  Forall (fun r => Sales.Brand r = brand /\ Sales.Date r = date)
         (day_sales rec)
  /\ Forall (fun r => Marketing.Brand r = brand /\ Marketing.Date r = date)
            (day_marketing rec)
  /\ Forall (fun r => Social.Brand r = brand /\ Social.Date r = date)
            (day_social rec).
Proof.
  intros (z & c & _ & _ & Hs & Hm & Ho). split; [| split].
  - eapply Forall_impl_in; [| exact Hs]. cbv beta. tauto.
  - eapply Forall2_right; [| exact Hm]. cbv beta. tauto.
  - eapply Chain_social_keys. exact Ho.
Qed.

Lemma brand_step_days (dates : list Z) (brand : string) (part : BrandRecords) :
  brand_step dates brand part ->
  exists days,
    Forall2 (fun d rec => exists fol fol', day_step brand fol d fol' rec)
            dates days
    /\ brand_sales part = List.concat (map day_sales days)
    /\ brand_marketing part = List.concat (map day_marketing days)
    /\ brand_social part = List.concat (map day_social days).
Proof.
  intros (fol0 & fol1 & days & _ & Hchain & Es & Em & Eo & _).
  exists days. split; [| tauto].
  exact (Chain_Forall2 _ _ _ _ _ Hchain).
Qed.

Lemma brand_step_keys (dates : list Z) (brand : string) (part : BrandRecords) :
  brand_step dates brand part ->
  Forall (fun r => Sales.Brand r = brand) (brand_sales part)
  /\ Forall (fun r => Marketing.Brand r = brand) (brand_marketing part)
  /\ Forall (fun r => Social.Brand r = brand) (brand_social part)
  /\ Forall (fun r => Reviews.Brand r = brand) (brand_reviews part).
Proof.
  intro H. destruct (brand_step_days _ _ _ H) as (days & Hd & Es & Em & Eo).
  destruct H as (_ & _ & _ & _ & _ & _ & _ & _ & _ & Hrev).
  rewrite Es, Em, Eo. repeat split.
  - eapply Forall2_concat; [| exact Hd]. intros d rec (fol & fol' & Hday).
    destruct (day_step_keys _ _ _ _ _ Hday) as (H1 & _).
    eapply Forall_impl_in; [| exact H1]. cbv beta. tauto.
  - eapply Forall2_concat; [| exact Hd]. intros d rec (fol & fol' & Hday).
    destruct (day_step_keys _ _ _ _ _ Hday) as (_ & H2 & _).
    eapply Forall_impl_in; [| exact H2]. cbv beta. tauto.
  - eapply Forall2_concat; [| exact Hd]. intros d rec (fol & fol' & Hday).
    destruct (day_step_keys _ _ _ _ _ Hday) as (_ & _ & H3).
    eapply Forall_impl_in; [| exact H3]. cbv beta. tauto.
  - eapply Forall_impl_in; [| exact Hrev]. cbv beta. tauto.
Qed.

(** With brands that are all different, the records of a brand in each table
    are what its pass of the brand loop appended. *)
Lemma brand_part (dates : list Z) (brands : list string) (t : Tables)
    (b : string) :
  generate_ok dates brands t -> NoDup brands -> In b brands ->
  exists part,
    brand_step dates b part
    /\ filter (fun r => String.eqb (Sales.Brand r) b) (rows (sales_df t))
       = brand_sales part
    /\ filter (fun r => String.eqb (Marketing.Brand r) b)
              (rows (marketing_df t))
       = brand_marketing part
    /\ filter (fun r => String.eqb (Social.Brand r) b) (rows (social_df t))
       = brand_social part
    /\ filter (fun r => String.eqb (Reviews.Brand r) b) (rows (reviews_df t))
       = brand_reviews part.
Proof.
  intros (r & (parts & Hparts & Es & Em & Eo & Ev) & ->) Hnd Hin.
  destruct (part_of_rel String.eqb string_eqb_iff _ _ _ b Hparts Hin)
    as (part & Epart & Hstep).
  exists part. split; [exact Hstep |].
  unfold tables_of. cbn [rows sales_df marketing_df social_df reviews_df].
  rewrite Es, Em, Eo, Ev.
  repeat split;
    (apply (part_of_filter String.eqb string_eqb_iff _ _ brands parts b part);
     [exact Hnd | | exact Epart]);
    (eapply Forall2_weaken; [| exact Hparts]); intros b' p' Hp';
    apply (brand_step_keys _ _ _ Hp').
Qed.

(** With days that are all different, the Sales and Marketing records of a
    brand on a day are what that pass of the day loop appended. *)
Lemma day_part (dates : list Z) (b : string) (part : BrandRecords) (d : Z) :
  brand_step dates b part -> NoDup dates -> In d dates ->
  exists fol fol' rec,
    day_step b fol d fol' rec
    /\ filter (fun r => Z.eqb (Sales.Date r) d) (brand_sales part)
       = day_sales rec
    /\ filter (fun r => Z.eqb (Marketing.Date r) d) (brand_marketing part)
       = day_marketing rec.
Proof.
  intros Hstep Hnd Hin.
  destruct (brand_step_days _ _ _ Hstep) as (days & Hdays & Es & Em & _).
  destruct (part_of_rel Z.eqb Z_eqb_iff _ _ _ d Hdays Hin)
    as (rec & Erec & fol & fol' & Hday).
  exists fol, fol', rec. split; [exact Hday |]. rewrite Es, Em.
  split;
    (apply (part_of_filter Z.eqb Z_eqb_iff _ _ dates days d rec);
     [exact Hnd | | exact Erec]);
    (eapply Forall2_weaken; [| exact Hdays]);
    intros d' rec' (f1 & f2 & Hd');
    destruct (day_step_keys _ _ _ _ _ Hd') as (H1 & H2 & _);
    [eapply Forall_impl_in; [| exact H1] | eapply Forall_impl_in; [| exact H2]];
    cbv beta; tauto.
Qed.

(** ** Follower series *)

Lemma linked_app (R : Z -> Z -> Prop) (a b c : Z) (l1 l2 : list Z) :
  linked R a l1 b -> linked R b l2 c -> linked R a (l1 ++ l2)%list c.
Proof.
  revert a. induction l1 as [| x l1 IH]; simpl; intros a H1 H2.
  - subst b. exact H2.
  - destruct H1 as [Hx H1]. split; [exact Hx | apply IH; assumption].
Qed.

Lemma linked_Sorted (R : Z -> Z -> Prop) (a b : Z) (l : list Z) :
  linked R a l b -> Sorted R (a :: l).
Proof.
  revert a. induction l as [| x l IH]; simpl; intros a H.
  - repeat constructor.
  - destruct H as [Hx H]. constructor; [apply IH; exact H |].
    constructor. exact Hx.
Qed.

Lemma Sorted_weaken {A} (R R' : A -> A -> Prop) (l : list A) :
  (forall x y, R x y -> R' x y) -> Sorted R l -> Sorted R' l.
Proof.
  intros H. induction 1 as [| x l _ IH Hd]; constructor; [exact IH |].
  destruct Hd; constructor. apply H. assumption.
Qed.

Lemma social_platforms_NoDup : NoDup social_platforms.
Proof.
  unfold social_platforms.
  repeat (constructor; [simpl; intuition discriminate |]). constructor.
Qed.

Lemma day_series (brand : string) (date : Z) (fol : dict Z)
    (ps : list string) (fol' : dict Z) (rows : list Social.row) (p0 : string) :
  Chain (social_step brand date) fol ps fol' rows -> NoDup ps ->
  forall f0, dict_find fol p0 = Some f0 ->
  exists f1,
    dict_find fol' p0 = Some f1
    /\ linked growth_step f0 (map Social.Followers (on_platform p0 rows)) f1
    /\ (In p0 ps -> map Social.Date (on_platform p0 rows) = [date])
    /\ (~ In p0 ps -> on_platform p0 rows = []).
Proof.
  induction 1 as [| s x s1 r l s2 rs Hstep _ IH]; intros Hnd f0 Ef0.
  - exists f0. simpl. tauto.
  - inversion Hnd as [| ? ? Hx Hnd']; subst.
    destruct Hstep as (_ & Hd & Hp & (f & Ef & Hg) & Es1 & Hother).
    unfold on_platform in *. simpl. rewrite Hp.
    destruct (String.eqb_spec x p0) as [-> | Hne].
    + rewrite Ef0 in Ef. inversion Ef; subst f.
      destruct (IH Hnd' _ Es1) as (f1 & E1 & Hl & _ & Hnone).
      exists f1. split; [exact E1 |]. simpl. split; [split; assumption |].
      split; [| intro Hn; exfalso; apply Hn; left; reflexivity].
      intros _. rewrite (Hnone Hx). simpl. rewrite Hd. reflexivity.
    + assert (E : dict_find s1 p0 = Some f0).
      { rewrite Hother; [exact Ef0 | congruence]. }
      destruct (IH Hnd' _ E) as (f1 & E1 & Hl & Hin & Hnone).
      exists f1. split; [exact E1 |]. split; [exact Hl |]. split.
      * intros [-> | H]; [contradiction | apply Hin; exact H].
      * intro Hn. apply Hnone. intro H. apply Hn. right. exact H.
Qed.

Lemma brand_series (brand : string) (fol0 : dict Z) (dates : list Z)
    (fol1 : dict Z) (days : list DayRecords) (p0 : string) :
  Chain (day_step brand) fol0 dates fol1 days -> In p0 social_platforms ->
  forall f0, dict_find fol0 p0 = Some f0 ->
  exists f1,
    dict_find fol1 p0 = Some f1
    /\ linked growth_step f0
         (map Social.Followers
              (on_platform p0 (List.concat (map day_social days)))) f1
    /\ map Social.Date (on_platform p0 (List.concat (map day_social days)))
       = dates.
Proof.
  intros Hchain Hp.
  induction Hchain as [| s d s1 rec l s2 recs Hday _ IH]; intros f0 Ef0.
  - exists f0. simpl. tauto.
  - destruct Hday as (_ & _ & _ & _ & _ & _ & Hsoc).
    destruct (day_series _ _ _ _ _ _ p0 Hsoc social_platforms_NoDup _ Ef0)
      as (fm & Em & Hl1 & Hd1 & _).
    destruct (IH _ Em) as (f1 & E1 & Hl2 & Hd2).
    exists f1. split; [exact E1 |].
    unfold on_platform in *. simpl. rewrite filter_app, !map_app.
    split; [eapply linked_app; eassumption |].
    rewrite (Hd1 Hp), Hd2. reflexivity.
Qed.

(** ** The generated tables *)

Lemma generate_returns (start_date days : Z) (brands : option (list string)) :
  valid_call days (brands_of brands) ->
  always (generate_mock_data start_date days brands)
         (generate_ok (horizon start_date days) (brands_of brands)).
Proof.
  intros (Hd & Hne & Hk). rewrite generate_unfold.
  rewrite pd_date_range_horizon by lia. simpl lift.
  apply (always_bind _ _ (fun ds => ds = horizon start_date days));
    [apply always_ret; reflexivity |].
  intros ds ->. apply after_dates_spec; [| assumption ..].
  apply horizon_nonempty. exact Hd.
Qed.

Lemma brand_day (dates : list Z) (brands : list string) (t : Tables)
    (b : string) (d : Z) :
  generate_ok dates brands t -> NoDup brands -> NoDup dates ->
  In b brands -> In d dates ->
  exists fol fol' rec,
    day_step b fol d fol' rec
    /\ sales_on b d t = day_sales rec
    /\ marketing_on b d t = day_marketing rec.
Proof.
  intros Hok Hnb Hnd Hb Hd.
  destruct (brand_part dates brands t b Hok Hnb Hb)
    as (part & Hstep & Es & Em & _).
  destruct (day_part dates b part d Hstep Hnd Hd)
    as (fol & fol' & rec & Hday & Eds & Edm).
  exists fol, fol', rec. split; [exact Hday |].
  unfold sales_on, marketing_on. rewrite !filter_andb, Es, Em. tauto.
Qed.

(** C1, at the failing input: with a day count of zero and a brand list that
    is not empty, the call does not return four empty tables; drawing the
    review dates of the first brand from the empty horizon raises
    [IndexError]. *)
Theorem zero_days_raises (start_date : Z) (brand : string)
    (brands : list string) :
  raises (generate_mock_data start_date 0 (Some (brand :: brands)))
         IndexError.
Proof.
  rewrite generate_unfold. simpl lift.
  eapply raises_after; [apply (always_ret _ (fun ds => ds = [])); reflexivity |].
  intros ds ->. apply after_dates_no_dates.
Qed.

(** C2, amended: the generator checks neither argument.  The only
    invalid-argument signal a call can give is one that [pd.date_range]
    raised on a negative day count; and with an empty brand list and a day
    count that is not negative the brand loop runs zero times, raises nothing
    and leaves four empty record lists. *)
Theorem no_argument_validation (start_date days : Z)
    (brands : option (list string)) (g : Rng) :
  (generate_mock_data start_date days brands g = Raised ValueError ->
   (days < 0)%Z /\ date_range_negative start_date days = Raised ValueError)
  /\ ((0 <= days)%Z -> brands_of brands = [] ->
      pd_date_range start_date days = Ok (horizon start_date days)
      /\ collect_records (horizon start_date days) (brands_of brands) g
         = Ok (mkRecords [] [] [] [], g)).
Proof.
  split.
  - rewrite generate_unfold. unfold bind, pd_date_range.
    destruct (days <? 0)%Z eqn:E.
    + apply Z.ltb_lt in E.
      destruct (date_range_negative start_date days) as [ds | e]; simpl.
      * intro H. exfalso. exact (after_dates_no_ValueError _ _ _ H).
      * intros [= ->]. split; [exact E | reflexivity].
    + simpl. intro H. exfalso. exact (after_dates_no_ValueError _ _ _ H).
  - intros Hd ->. split; [apply pd_date_range_horizon; exact Hd | reflexivity].
Qed.

(** C3: every row of the generated Sales table has
    [Revenue = round(UnitPrice * Qty, 2)], [Qty >= 1] and [UnitPrice] within
    [0.6 * base, 1.5 * base] for the base price of its category. *)
Theorem sales_rows_consistent (start_date days : Z)
    (brands : option (list string)) :
  valid_call days (brands_of brands) ->
  always (generate_mock_data start_date days brands)
         (fun t => Forall sales_row_ok (rows (sales_df t))).
Proof.
  intro Hv. eapply always_weaken; [apply generate_returns; exact Hv |].
  intros t (r & (parts & Hparts & Es & _) & ->).
  unfold tables_of. cbn [rows sales_df]. rewrite Es.
  eapply Forall2_concat; [| exact Hparts]. intros b part Hstep.
  destruct (brand_step_days _ _ _ Hstep) as (ds & Hds & E & _). rewrite E.
  eapply Forall2_concat; [| exact Hds].
  intros d rec (fol & fol' & z & c & _ & _ & Hs & _).
  eapply Forall_impl_in; [| exact Hs]. cbv beta. tauto.
Qed.

(** C4: every row of the generated Marketing table has [Traffic] in
    [100, 5000], [CTR] in [0.3, 4.5], a [CPC] exactly when its channel is
    "Paid", and then one in [0.3, 2.0]. *)
Theorem marketing_rows_in_range (start_date days : Z)
    (brands : option (list string)) :
  valid_call days (brands_of brands) ->
  always (generate_mock_data start_date days brands)
         (fun t => Forall marketing_row_ok (rows (marketing_df t))).
Proof.
  intro Hv. eapply always_weaken; [apply generate_returns; exact Hv |].
  intros t (r & (parts & Hparts & _ & Em & _) & ->).
  unfold tables_of. cbn [rows marketing_df]. rewrite Em.
  eapply Forall2_concat; [| exact Hparts]. intros b part Hstep.
  destruct (brand_step_days _ _ _ Hstep) as (ds & Hds & _ & E & _). rewrite E.
  eapply Forall2_concat; [| exact Hds].
  intros d rec (fol & fol' & z & c & _ & _ & _ & Hm & _).
  eapply Forall2_right; [| exact Hm]. cbv beta. tauto.
Qed.

(** C5: for every brand and platform, the Social records of the pair come
    one per day of the horizon in chronological order, and their [Followers]
    never decrease from one day to the next: starting from a count in
    [5000, 15000], each day's count is the previous one times a factor in
    [1.0005, 1.003], truncated.  The brands are a set: the list names no
    brand twice. *)
Theorem followers_non_decreasing (start_date days : Z)
    (brands : option (list string)) :
  valid_call days (brands_of brands) -> NoDup (brands_of brands) ->
  always (generate_mock_data start_date days brands)
         (fun t =>
            forall b p, In b (brands_of brands) -> In p social_platforms ->
              let series := followers_series b p t in
              map Social.Date series = horizon start_date days
              /\ Sorted Z.le (map Social.Followers series)
              /\ exists f0, (5000 <= f0 <= 15000)%Z
                   /\ Sorted growth_step (f0 :: map Social.Followers series)).
Proof.
  intros Hv Hnd. eapply always_weaken; [apply generate_returns; exact Hv |].
  intros t Hok b p Hb Hp.
  destruct (brand_part _ _ t b Hok Hnd Hb) as (part & Hstep & _ & _ & Eo & _).
  destruct Hstep as (fol0 & fol1 & ds & Hinit & Hchain & _ & _ & Es & _).
  destruct (Hinit p Hp) as (f0 & Ef0 & Hf0).
  destruct (brand_series b fol0 _ fol1 ds p Hchain Hp f0 Ef0)
    as (f1 & _ & Hl & Hdates).
  assert (E : followers_series b p t
              = on_platform p (List.concat (map day_social ds))).
  { unfold followers_series, on_platform. rewrite filter_andb, Eo, Es.
    reflexivity. }
  cbv zeta. rewrite E. split; [exact Hdates |].
  pose proof (linked_Sorted _ _ _ _ Hl) as HS.
  split; [| exists f0; split; assumption].
  inversion HS as [| ? ? HS' _]; subst.
  eapply Sorted_weaken; [| exact HS']. apply growth_step_le.
Qed.

(** C6: with at least one day, for every brand the Reviews table holds
    exactly 120 rows of that brand, hence at most 120 distinct review dates,
    and every review date lies within the generated day horizon.  The brands
    are a set: the list names no brand twice. *)
Theorem reviews_per_brand (start_date days : Z)
    (brands : option (list string)) :
  valid_call days (brands_of brands) -> NoDup (brands_of brands) ->
  always (generate_mock_data start_date days brands)
         (fun t =>
            forall b, In b (brands_of brands) ->
              let rs := reviews_of b t in
              List.length rs = 120%nat
              /\ (List.length (nodup Z.eq_dec (map Reviews.Date rs)) <= 120)%nat
              /\ Forall (fun r => (start_date <= Reviews.Date r
                                   < start_date + days)%Z) rs).
Proof.
  intros Hv Hnd. eapply always_weaken; [apply generate_returns; exact Hv |].
  intros t Hok b Hb.
  destruct (brand_part _ _ t b Hok Hnd Hb) as (part & Hstep & _ & _ & _ & Ev).
  destruct Hstep as (_ & _ & _ & _ & _ & _ & _ & _ & Hlen & Hrev).
  cbv zeta. unfold reviews_of. rewrite Ev. split; [exact Hlen |]. split.
  - rewrite <- Hlen, <- (length_map Reviews.Date).
    apply NoDup_incl_length; [apply NoDup_nodup |].
    intros d Hd. apply nodup_In in Hd. exact Hd.
  - eapply Forall_impl_in; [| exact Hrev]. intros r [_ Hin].
    apply in_horizon. exact Hin.
Qed.

(** C7: for every brand and every day there is one campaign of the catalog
    that every Sales row and every Marketing row of that brand on that day
    carries; such rows exist, so the campaign is the only one.  The brands
    are a set: the list names no brand twice. *)
Theorem one_campaign_per_brand_day (start_date days : Z)
    (brands : option (list string)) :
  valid_call days (brands_of brands) -> NoDup (brands_of brands) ->
  always (generate_mock_data start_date days brands)
         (fun t =>
            forall b d,
              In b (brands_of brands) -> In d (horizon start_date days) ->
              exists c,
                In c campaigns
                /\ Forall (fun r => Sales.Campaign r = c) (sales_on b d t)
                /\ Forall (fun r => Marketing.Campaign r = c)
                          (marketing_on b d t)
                /\ sales_on b d t <> [] /\ marketing_on b d t <> []).
Proof.
  intros Hv Hnd. eapply always_weaken; [apply generate_returns; exact Hv |].
  intros t Hok b d Hb Hd.
  destruct (brand_day _ _ t b d Hok Hnd (horizon_NoDup _ _) Hb Hd)
    as (fol & fol' & rec & (z & c & Hn & Hc & Hs & Hm & _) & Es & Em).
  exists c. rewrite Es, Em. split; [exact Hc |]. split; [| split; [| split]].
  - eapply Forall_impl_in; [| exact Hs]. cbv beta. tauto.
  - eapply Forall2_right; [| exact Hm]. cbv beta. tauto.
  - apply length_nonempty. rewrite Hn.
    pose proof (daily_orders_bounds (order_mean d + 15 * z)).
    unfold range_len. lia.
  - inversion Hm. discriminate.
Qed.

(** C9: the average order value is guarded: with zero orders it is the
    value 0 and no division takes place; otherwise it is the quotient. *)
Theorem avg_order_value_guarded :
  (forall revenue : Q, avg_order_value revenue 0 = Some 0)
  /\ (forall (revenue : Q) (orders : Z),
        orders <> 0%Z ->
        avg_order_value revenue orders = Some (revenue / inject_Z orders))
  /\ avg_order_value (total_revenue []) (total_orders []) = Some 0.
Proof.
  split; [reflexivity |]. split; [| reflexivity].
  intros revenue orders H. unfold avg_order_value, np_true_divide.
  destruct (orders =? 0)%Z eqn:E; [apply Z.eqb_eq in E; contradiction |].
  reflexivity.
Qed.

(** C10: with at least one day, a brand list that holds a name outside
    "Radiance", "GlowUp" and "PureBeauty" makes the call raise [KeyError] on
    the first such name, at the lookup in the category-weight table, instead
    of returning tables. *)
Theorem unknown_brand_key_error (start_date days : Z)
    (brands : list string) (b : string) :
  (1 <= days)%Z -> In b brands -> ~ known_brand b ->
  exists known b' rest,
    brands = (known ++ b' :: rest)%list
    /\ Forall known_brand known /\ ~ known_brand b'
    /\ (forall date campaign,
          raises (gen_order b' date campaign) (KeyError b'))
    /\ raises (generate_mock_data start_date days (Some brands))
              (KeyError b').
Proof.
  intros Hd Hin Hb.
  destruct (first_unknown brands) as [H | (known & b' & rest & E & Hk & Hb')].
  - exfalso. rewrite Forall_forall in H. exact (Hb (H b Hin)).
  - exists known, b', rest. split; [exact E |]. split; [exact Hk |].
    split; [exact Hb' |].
    split; [intros date campaign; apply gen_order_unknown; exact Hb' |].
    rewrite generate_unfold, pd_date_range_horizon by lia. simpl lift.
    eapply raises_after;
      [apply (always_ret _ (fun ds => ds = horizon start_date days));
       reflexivity |].
    intros ds ->. simpl brands_of. rewrite E.
    apply after_dates_unknown; [assumption .. |].
    apply horizon_nonempty. exact Hd.
Qed.

(** * More of the program *)

(** ** [clamp] *)

(** X1: with bounds in order, [clamp] lands in the interval, leaves a value
    of the interval as it is, and clamping twice changes nothing more. *)
Theorem clamp_contract (x lo hi : Q) :
  lo <= hi ->
  lo <= clamp x lo hi <= hi
  /\ (lo <= x <= hi -> clamp x lo hi == x)
  /\ clamp (clamp x lo hi) lo hi = clamp x lo hi.
Proof.
  intro H. split; [apply clamp_bounds; exact H |].
  unfold clamp, py_max, py_min. split.
  - intros [H1 H2].
    destruct (Qltb x hi) eqn:E1.
    + destruct (Qltb lo x) eqn:E2; [reflexivity |].
      apply Qltb_false in E2. lra.
    + apply Qltb_false in E1.
      destruct (Qltb lo hi) eqn:E2; [lra |]. apply Qltb_false in E2. lra.
  - destruct (Qltb x hi) eqn:E1.
    + destruct (Qltb lo x) eqn:E2.
      * rewrite E1, E2. reflexivity.
      * apply Qltb_false in E2.
        destruct (Qltb lo hi) eqn:E3.
        -- assert (E4 : Qltb lo lo = false) by (apply Qltb_false; lra).
           rewrite E4. reflexivity.
        -- rewrite E3. reflexivity.
    + destruct (Qltb lo hi) eqn:E2.
      * assert (E3 : Qltb hi hi = false) by (apply Qltb_false; lra).
        rewrite E3, E2. reflexivity.
      * rewrite E2, E2. reflexivity.
Qed.

(** X2: [clamp] does not check its bounds; when they are swapped the result
    is the lower bound, whatever the value. *)
Theorem clamp_swapped_bounds (x lo hi : Q) :
  hi < lo -> clamp x lo hi = lo.
Proof.
  intro H. unfold clamp, py_max, py_min.
  destruct (Qltb x hi) eqn:E1.
  - apply Qltb_true in E1.
    assert (E2 : Qltb lo x = false) by (apply Qltb_false; lra).
    rewrite E2. reflexivity.
  - assert (E2 : Qltb lo hi = false) by (apply Qltb_false; lra).
    rewrite E2. reflexivity.
Qed.

(** ** Seasonal and weekday multipliers *)

Lemma weekday_factor_cases (date : Z) :
  weekday_factor date = 1.1 \/ weekday_factor date = 0.9.
Proof.
  unfold weekday_factor.
  destruct (existsb (Z.eqb (weekday date)) [4%Z; 5%Z]); [left | right];
    reflexivity.
Qed.

(** X3: when [np.sin] stays within [-1, 1], the seasonal multiplier stays
    within [0.75, 1.25], and the mean of the daily order count,
    [80 * seasonal * weekday], within [54, 110]: inside the clamp range
    [40, 150]. *)
Theorem seasonal_multiplier_range :
  (forall y, -1 <= np_sin y <= 1) ->
  forall date,
    0.75 <= generate_seasonal_multiplier date <= 1.25
    /\ 54 <= 80 * generate_seasonal_multiplier date * weekday_factor date
       <= 110.
Proof.
  intros Hsin date. unfold generate_seasonal_multiplier.
  set (y := 2 * np_pi * (inject_Z (tm_yday date) / 365) - np_pi / 2).
  specialize (Hsin y).
  destruct (weekday_factor_cases date) as [-> | ->]; split; lra.
Qed.

Lemma weekday_mod (date : Z) : weekday date = weekday (date mod 7).
Proof. unfold weekday. rewrite Zplus_mod_idemp_l. reflexivity. Qed.

Lemma weekday_factor_mod (date : Z) :
  weekday_factor date = weekday_factor (date mod 7).
Proof. unfold weekday_factor. rewrite weekday_mod. reflexivity. Qed.

(** The days of the week with the high factor. *)
Lemma boosted_mod (k i : Z) :
  weekday_factor (k + i) = weekday_factor ((k mod 7 + i) mod 7).
Proof.
  rewrite weekday_factor_mod. rewrite Zplus_mod_idemp_l. reflexivity.
Qed.

(** X4: the weekday factor is 1.1 on Fridays and Saturdays ([weekday()] 4
    and 5) and 0.9 on the other days; it repeats every 7 days, and any 7
    days in a row hold exactly 2 days with the high factor. *)
Theorem weekday_factor_weekly (date : Z) :
  (weekday_factor date = if (4 <=? weekday date)%Z && (weekday date <=? 5)%Z
                         then 1.1 else 0.9)
  /\ weekday_factor (date + 7) = weekday_factor date
  /\ List.length (filter (fun d => Qeq_bool (weekday_factor d) 1.1)
                         (horizon date 7)) = 2%nat.
Proof.
  assert (Hk : (0 <= date mod 7 < 7)%Z) by (apply Z.mod_pos_bound; lia).
  split; [| split].
  - unfold weekday_factor, weekday.
    assert (Hw : (0 <= (date + 6) mod 7 < 7)%Z) by (apply Z.mod_pos_bound; lia).
    set (w := ((date + 6) mod 7)%Z) in *. simpl.
    destruct (Z.eqb_spec w 4) as [-> | H4]; [reflexivity |].
    destruct (Z.eqb_spec w 5) as [-> | H5]; [reflexivity |].
    simpl. destruct (4 <=? w)%Z eqn:E1; [| reflexivity].
    destruct (w <=? 5)%Z eqn:E2; [| reflexivity].
    apply Z.leb_le in E1, E2. lia.
  - rewrite (weekday_factor_mod (date + 7)), (weekday_factor_mod date).
    f_equal. rewrite <- (Z.mul_1_l 7) at 1. apply Z_mod_plus_full.
  - unfold horizon. simpl map. cbn [filter]. rewrite !boosted_mod.
    set (k := (date mod 7)%Z) in *.
    assert (Hc : (k = 0 \/ k = 1 \/ k = 2 \/ k = 3 \/ k = 4 \/ k = 5
                  \/ k = 6)%Z) by lia.
    destruct Hc as [-> | [-> | [-> | [-> | [-> | [-> | ->]]]]]]; reflexivity.
Qed.
(** ** Rules of [ensures] *)

Lemma ensures_ret {A} (a : A) (P : A -> Prop) : P a -> ensures (ret a) P.
Proof. intros H g a' g' [= <- _]. exact H. Qed.

Lemma ensures_bind {A B} (m : M A) (k : A -> M B) (P : A -> Prop)
    (Q : B -> Prop) :
  ensures m P -> (forall a, P a -> ensures (k a) Q) -> ensures (bind m k) Q.
Proof.
  intros Hm Hk g b g' E. unfold bind in E.
  destruct (m g) as [[a g1] | e] eqn:Em; [| discriminate].
  exact (Hk a (Hm _ _ _ Em) _ _ _ E).
Qed.

Lemma ensures_weaken {A} (m : M A) (P Q : A -> Prop) :
  ensures m P -> (forall a, P a -> Q a) -> ensures m Q.
Proof. intros Hm H g a g' E. apply H. exact (Hm _ _ _ E). Qed.

Lemma ensures_lift {A} (r : result A) (P : A -> Prop) :
  (forall a, r = Ok a -> P a) -> ensures (lift r) P.
Proof.
  intros H g a g' E. destruct r as [a0 | e]; [| discriminate].
  inversion E; subst. apply H. reflexivity.
Qed.

Lemma ensures_raise {A} (e : exn) (P : A -> Prop) : ensures (raise e) P.
Proof. intros g a g' E. discriminate. Qed.

Lemma ensures_of_always {A} (m : M A) (P : A -> Prop) :
  always m P -> ensures m P.
Proof.
  intros H g a g' E. destruct (H g) as (a0 & g0 & E0 & Pa).
  rewrite E in E0. inversion E0; subst. exact Pa.
Qed.

Lemma always_with {A} (m : M A) (P Q : A -> Prop) :
  always m P -> ensures m Q -> always m (fun a => P a /\ Q a).
Proof.
  intros HP HQ g. destruct (HP g) as (a & g' & E & Pa).
  exists a, g'. split; [exact E |]. split; [exact Pa | exact (HQ _ _ _ E)].
Qed.

Lemma ensures_repeatM {A} (n : nat) (m : M A) (P : A -> Prop) :
  ensures m P -> ensures (repeatM n m) (Forall P).
Proof.
  intro Hm. induction n as [| n IH]; simpl.
  - apply ensures_ret. constructor.
  - apply (ensures_bind _ _ P); [exact Hm |]. intros a Pa.
    apply (ensures_bind _ _ _ _ IH). intros l Hl.
    apply ensures_ret. constructor; assumption.
Qed.

Lemma ensures_mapM {A B} (f : A -> M B) (l : list A) (Q : B -> Prop) :
  (forall x, In x l -> ensures (f x) Q) -> ensures (mapM f l) (Forall Q).
Proof.
  induction l as [| x l IH]; intro H; simpl.
  - apply ensures_ret. constructor.
  - apply (ensures_bind _ _ Q); [apply H; left; reflexivity |]. intros b Qb.
    apply (ensures_bind _ _ (Forall Q)).
    + apply IH. intros y Hy. apply H. right. exact Hy.
    + intros bs Hbs. apply ensures_ret. constructor; assumption.
Qed.

Lemma ensures_mapAccumM {S A B} (f : S -> A -> M (S * B))
    (Inv : S -> Prop) (Q : B -> Prop) (l : list A) :
  (forall s x, Inv s -> In x l ->
     ensures (f s x) (fun sb => Inv (fst sb) /\ Q (snd sb))) ->
  forall s, Inv s ->
  ensures (mapAccumM f s l) (fun sbs => Inv (fst sbs) /\ Forall Q (snd sbs)).
Proof.
  induction l as [| x l IH]; intros H s Hs; simpl.
  - apply ensures_ret. split; [exact Hs | constructor].
  - eapply ensures_bind; [apply H; [exact Hs | left; reflexivity] |].
    intros [s1 b] [Hs1 Qb]. simpl in Hs1, Qb.
    eapply ensures_bind.
    + apply IH; [| exact Hs1]. intros s' y Hs' Hy. apply H; [exact Hs' |].
      right. exact Hy.
    + intros [s2 bs] [Hs2 Hbs]. simpl in Hs2, Hbs.
      apply ensures_ret. simpl. split; [exact Hs2 |].
      constructor; assumption.
Qed.

(** ** What the samplers hand back *)

Lemma list_getitem_In {A} (l : list A) (i : Z) (a : A) :
  list_getitem l i = Ok a -> In a l.
Proof.
  unfold list_getitem.
  destruct ((if (i <? 0)%Z then (i + len l)%Z else i) <? 0)%Z;
    [discriminate |].
  destruct (nth_error l _) as [a' |] eqn:E; [| discriminate].
  intros [= <-]. eapply nth_error_In. exact E.
Qed.

Lemma ensures_getitem {A} (l : list A) (i : Z) :
  ensures (lift (list_getitem l i)) (fun a => In a l).
Proof. apply ensures_lift. intros a E. eapply list_getitem_In. exact E. Qed.

Lemma ensures_random_choice {A} (seq : list A) :
  ensures (random_choice seq) (fun a => In a seq).
Proof.
  unfold random_choice. destruct (len seq =? 0)%Z; [apply ensures_raise |].
  apply (ensures_bind _ _ (fun _ => True)); [intros g a g' _; exact I |].
  intros i _. apply ensures_getitem.
Qed.

Lemma ensures_choices_weighted {A} (population : list A) (weights : list Q) :
  ensures (random_choices_weighted population weights)
          (fun a => In a population).
Proof.
  unfold random_choices_weighted.
  destruct (negb _); [apply ensures_raise |].
  apply (ensures_bind _ _ (fun _ => True)); [intros g a g' _; exact I |].
  intros c _. destruct (Qle_bool (c + 0) 0); [apply ensures_raise |].
  apply (ensures_bind _ _ (fun _ => True)); [intros g a g' _; exact I |].
  intros u _. apply ensures_getitem.
Qed.

Lemma ensures_choices_k {A} (population : list A) (k : nat) :
  ensures (random_choices_k population k) (Forall (fun a => In a population)).
Proof.
  unfold random_choices_k. apply ensures_repeatM.
  apply (ensures_bind _ _ (fun _ => True)); [intros g a g' _; exact I |].
  intros u _. apply ensures_getitem.
Qed.

Lemma dict_get_find {V} (d : dict V) (k : string) (v : V) :
  dict_get d k = Ok v -> dict_find d k = Some v.
Proof.
  unfold dict_get. destruct (dict_find d k); [intros [= ->] |]; congruence.
Qed.

Lemma dict_find_set_cases {V} (d : dict V) (k q : string) (v f : V) :
  dict_find (dict_set d k v) q = Some f -> f = v \/ dict_find d q = Some f.
Proof.
  destruct (string_dec q k) as [-> | Hne].
  - rewrite dict_find_set_same. intros [= ->]. left. reflexivity.
  - rewrite (dict_find_set_other _ _ _ _ Hne). intro H. right. exact H.
Qed.

(** ** What every generated row satisfies *)

Ltac estep lemma := eapply ensures_bind; [apply lemma |].
Ltac eskip :=
  eapply (ensures_bind _ _ (fun _ => True)); [intros ? ? ? _; exact I |];
  intros ? _.

Lemma gen_order_wf (brand : string) (date : Z) (campaign : string) :
  ensures (gen_order brand date campaign)
          (fun r => Sales.Brand r = brand /\ Sales.Date r = date
                    /\ Sales.Campaign r = campaign
                    /\ In (Sales.Channel r) channels
                    /\ In (Sales.Offer r) offers
                    /\ exists products,
                         dict_find categories (Sales.Category r) = Some products
                         /\ In (Sales.Product r) products).
Proof.
  unfold gen_order. eskip.
  eapply ensures_bind; [apply ensures_choices_weighted |]. intros cat _.
  apply (ensures_bind _ _ (fun ps => dict_find categories cat = Some ps)).
  { apply ensures_lift. intros ps E. apply dict_get_find. exact E. }
  intros products Hps.
  estep (ensures_random_choice products). intros prod Hprod.
  estep (ensures_choices_weighted channels). intros channel Hch.
  estep (ensures_choices_weighted offers). intros offer Hof.
  eskip. eskip. eskip.
  apply ensures_ret.
  cbn [Sales.Brand Sales.Date Sales.Campaign Sales.Channel Sales.Offer
       Sales.Category Sales.Product].
  do 3 (split; [reflexivity |]). split; [exact Hch |]. split; [exact Hof |].
  exists products. split; assumption.
Qed.

Lemma gen_marketing_wf (brand : string) (date : Z) (campaign : string)
    (seasonal_mult : Q) (mkt_channel : string) :
  ensures (gen_marketing brand date campaign seasonal_mult mkt_channel)
          (fun r => Marketing.Brand r = brand /\ Marketing.Date r = date
                    /\ Marketing.Campaign r = campaign
                    /\ Marketing.Channel r = mkt_channel).
Proof.
  unfold gen_marketing. eskip. eskip. eskip. eskip.
  apply ensures_ret. repeat split.
Qed.

Lemma gen_social_wf (brand : string) (date : Z) (fol : dict Z) (p : string) :
  followers_floor fol ->
  ensures (gen_social brand date fol p)
          (fun sb => followers_floor (fst sb)
                     /\ Social.Brand (snd sb) = brand
                     /\ Social.Date (snd sb) = date
                     /\ Social.Platform (snd sb) = p
                     /\ 0.5 <= Social.EngagementRate (snd sb) <= 8.5
                     /\ (5000 <= Social.Followers (snd sb))%Z).
Proof.
  intro Hfol. unfold gen_social.
  apply (ensures_bind _ _ (fun f => (5000 <= f)%Z)).
  { apply ensures_lift. intros f E. apply (Hfol p). apply dict_get_find.
    exact E. }
  intros f Hf.
  estep (ensures_of_always _ _ (np_random_uniform_spec 1.0005 1.003
                                  ltac:(discriminate))).
  intros u Hu. cbv beta in Hu.
  assert (Hg : (5000 <= py_int (inject_Z f * u))%Z).
  { pose proof (growth_not_below f u ltac:(lia) Hu). lia. }
  assert (Hfol' : followers_floor
                    (dict_set fol p (py_int (inject_Z f * u)))).
  { intros q v Hq. apply dict_find_set_cases in Hq.
    destruct Hq as [-> | Hq]; [exact Hg | exact (Hfol q v Hq)]. }
  estep (ensures_of_always _ _ (np_random_uniform_spec 0.5 8.5
                                  ltac:(discriminate))).
  intros v Hv. cbv beta in Hv.
  apply (ensures_bind _ _ (fun f' => (5000 <= f')%Z)).
  { apply ensures_lift. intros f' E. apply (Hfol' p). apply dict_get_find.
    exact E. }
  intros f' Hf'. apply ensures_ret. cbn [fst snd].
  cbn [Social.Brand Social.Date Social.Platform Social.EngagementRate
       Social.Followers].
  split; [exact Hfol' |]. do 3 (split; [reflexivity |]).
  split; [| exact Hf'].
  apply (py_round2_between _ _ _ 50 850); [reflexivity .. | exact Hv].
Qed.

Lemma gen_review_wf (brand : string) (date : Z) :
  ensures (gen_review brand date)
          (fun r => Reviews.Brand r = brand /\ Reviews.Date r = date
                    /\ rating_matches (Reviews.Sentiment r)
                                      (Reviews.Rating r)).
Proof.
  unfold gen_review.
  estep (ensures_choices_weighted sentiments sentiment_weights).
  intros s Hs.
  estep (ensures_of_always _ _ (random_randint_spec 4 5 ltac:(lia))).
  intros r_pos Hpos.
  estep (ensures_of_always _ _ (random_randint_spec 1 2 ltac:(lia))).
  intros r_neg Hneg. cbv beta in Hs, Hpos, Hneg.
  apply (ensures_bind _ _ (fun rating => rating_matches s rating)).
  { apply ensures_lift. intros rating E. unfold rating_matches.
    simpl in Hs. in_cases Hs; cbv in E; inversion E; subst; intuition lia. }
  intros rating Hr. apply ensures_ret. repeat split. exact Hr.
Qed.
Lemma gen_reviews_wf (brand : string) (dates : list Z) :
  ensures (gen_reviews brand dates)
          (Forall (fun r => Reviews.Brand r = brand
                            /\ In (Reviews.Date r) dates
                            /\ rating_matches (Reviews.Sentiment r)
                                              (Reviews.Rating r))).
Proof.
  unfold gen_reviews. estep (ensures_choices_k dates 120).
  intros ds Hds. apply ensures_mapM. intros d Hd.
  eapply ensures_weaken; [apply gen_review_wf |].
  intros r (Hb & Hdt & Hr). rewrite Forall_forall in Hds.
  split; [exact Hb |]. split; [rewrite Hdt; apply Hds; exact Hd | exact Hr].
Qed.

(** What a day adds to the three per-day lists, row by row. *)
Lemma gen_day_wf (brand : string) (fol : dict Z) (date : Z) :
  followers_floor fol ->
  ensures (gen_day brand fol date)
    (fun sb =>
       followers_floor (fst sb)
       /\ Forall (sales_row_wf [brand] [date]) (day_sales (snd sb))
       /\ Forall (marketing_row_wf [brand] [date]) (day_marketing (snd sb))
       /\ Forall (social_row_wf [brand] [date]) (day_social (snd sb))).
Proof.
  intro Hfol. unfold gen_day. eskip.
  estep (ensures_random_choice campaigns). intros c Hc.
  eapply ensures_bind.
  { apply ensures_repeatM. apply gen_order_wf. }
  intros sales Hsales.
  eapply ensures_bind.
  { apply (ensures_mapM _ marketing_channels
             (marketing_row_wf [brand] [date])).
    intros ch Hch. eapply ensures_weaken; [apply gen_marketing_wf |].
    intros r (Hb & Hd & Hcm & Hchn). unfold marketing_row_wf.
    rewrite Hb, Hd, Hcm, Hchn. simpl. tauto. }
  intros marketing Hmkt.
  eapply ensures_bind.
  { apply (ensures_mapAccumM (gen_social brand date) followers_floor
             (social_row_wf [brand] [date]) social_platforms).
    - intros s p Hs Hp. eapply ensures_weaken; [apply gen_social_wf, Hs |].
      intros [s' r] (Hs' & Hb & Hd & Hpl & Her & Hf). cbn [fst snd] in *.
      split; [exact Hs' |]. unfold social_row_wf. rewrite Hb, Hd, Hpl.
      simpl. tauto.
    - exact Hfol. }
  intros [fol' social] [Hfol' Hsoc]. cbn [fst snd] in Hfol', Hsoc.
  apply ensures_ret. unfold day_sales, day_marketing, day_social.
  cbn [fst snd]. split; [exact Hfol' |]. split; [| split; assumption].
  eapply Forall_impl_in; [| exact Hsales].
  intros r (Hb & Hd & Hcm & Hch & Hof & Hprod). unfold sales_row_wf.
  rewrite Hb, Hd, Hcm. simpl. tauto.
Qed.

Lemma Forall_concat_map {A B} (Q : B -> Prop) (proj : A -> list B)
    (l : list A) :
  Forall (fun a => Forall Q (proj a)) l -> Forall Q (List.concat (map proj l)).
Proof.
  induction 1 as [| a l Ha _ IH]; simpl; [constructor |].
  apply Forall_app. split; assumption.
Qed.

Lemma sales_row_wf_mono (b : string) (d : Z) (brands : list string)
    (dates : list Z) (r : Sales.row) :
  In b brands -> In d dates ->
  sales_row_wf [b] [d] r -> sales_row_wf brands dates r.
Proof.
  unfold sales_row_wf. simpl. intros Hb Hd ([E1 | []] & [E2 | []] & H).
  rewrite <- E1, <- E2. tauto.
Qed.

Lemma marketing_row_wf_mono (b : string) (d : Z) (brands : list string)
    (dates : list Z) (r : Marketing.row) :
  In b brands -> In d dates ->
  marketing_row_wf [b] [d] r -> marketing_row_wf brands dates r.
Proof.
  unfold marketing_row_wf. simpl. intros Hb Hd ([E1 | []] & [E2 | []] & H).
  rewrite <- E1, <- E2. tauto.
Qed.

Lemma social_row_wf_mono (b : string) (d : Z) (brands : list string)
    (dates : list Z) (r : Social.row) :
  In b brands -> In d dates ->
  social_row_wf [b] [d] r -> social_row_wf brands dates r.
Proof.
  unfold social_row_wf. simpl. intros Hb Hd ([E1 | []] & [E2 | []] & H).
  rewrite <- E1, <- E2. tauto.
Qed.

Lemma init_followers_floor :
  ensures (mapM (fun p => v <- random_randint 5000 15000 ;; ret (p, v))
                social_platforms)
          followers_floor.
Proof.
  eapply ensures_weaken.
  - apply (ensures_mapM _ _ (fun pv : string * Z => (5000 <= snd pv)%Z)).
    intros p _.
    estep (ensures_of_always _ _ (random_randint_spec 5000 15000 ltac:(lia))).
    intros v Hv. cbv beta in Hv. apply ensures_ret. simpl. lia.
  - intros fol H. unfold followers_floor.
    induction H as [| [k v] fol' Hv _ IH]; intros q f; simpl;
      [discriminate |].
    destruct (String.eqb q k); [intros [= <-]; exact Hv | apply IH].
Qed.

(** What a brand adds to the four lists, row by row. *)
Lemma gen_brand_wf (dates : list Z) (brand : string) :
  ensures (gen_brand dates brand)
    (fun part =>
       Forall (sales_row_wf [brand] dates) (brand_sales part)
       /\ Forall (marketing_row_wf [brand] dates) (brand_marketing part)
       /\ Forall (social_row_wf [brand] dates) (brand_social part)
       /\ Forall (review_row_wf [brand] dates) (brand_reviews part)).
Proof.
  unfold gen_brand. estep init_followers_floor. intros fol0 Hfol0.
  eapply ensures_bind.
  { apply (ensures_mapAccumM (gen_day brand) followers_floor
             (fun rec =>
                Forall (sales_row_wf [brand] dates) (day_sales rec)
                /\ Forall (marketing_row_wf [brand] dates) (day_marketing rec)
                /\ Forall (social_row_wf [brand] dates) (day_social rec))
             dates).
    - intros s d Hs Hd. eapply ensures_weaken; [apply gen_day_wf, Hs |].
      intros [s' rec] (Hs' & H1 & H2 & H3). cbn [fst snd] in *.
      split; [exact Hs' |].
      split; [| split]; (eapply Forall_impl_in; [| eassumption]); intro r;
        [apply sales_row_wf_mono | apply marketing_row_wf_mono
         | apply social_row_wf_mono]; simpl; tauto.
    - exact Hfol0. }
  intros [fol1 days] [_ Hdays]. cbn [snd] in Hdays.
  estep (gen_reviews_wf brand dates). intros reviews Hrev.
  apply ensures_ret.
  unfold brand_sales, brand_marketing, brand_social, brand_reviews.
  cbn [fst snd]. split; [| split; [| split]].
  - apply Forall_concat_map. eapply Forall_impl_in; [| exact Hdays].
    cbv beta. tauto.
  - apply Forall_concat_map. eapply Forall_impl_in; [| exact Hdays].
    cbv beta. tauto.
  - apply Forall_concat_map. eapply Forall_impl_in; [| exact Hdays].
    cbv beta. tauto.
  - eapply Forall_impl_in; [| exact Hrev]. intros r (Hb & Hd & Hr).
    unfold review_row_wf. rewrite Hb. simpl. tauto.
Qed.

Lemma review_row_wf_mono (b : string) (brands : list string)
    (dates : list Z) (r : Reviews.row) :
  In b brands -> review_row_wf [b] dates r -> review_row_wf brands dates r.
Proof.
  unfold review_row_wf. simpl. intros Hb ([E1 | []] & H).
  rewrite <- E1. tauto.
Qed.

Lemma assemble_rows (r : Records) (t : Tables) :
  assemble r = Ok t ->
  rows (sales_df t) = sales_records r
  /\ rows (marketing_df t) = marketing_records r
  /\ rows (social_df t) = social_records r
  /\ rows (reviews_df t) = reviews_records r
  /\ campaigns_out t = campaigns.
Proof.
  destruct r as [[| s ss] [| m ms] [| o os] [| v vs]]; simpl;
    try discriminate.
  intros [= <-]. simpl. tauto.
Qed.

Lemma after_dates_wf (dates : list Z) (brands : list string) :
  ensures (after_dates dates brands) (tables_wf brands dates).
Proof.
  unfold after_dates, collect_records.
  eapply ensures_bind.
  { eapply ensures_bind.
    - apply (ensures_mapM _ brands
               (fun part =>
                  Forall (sales_row_wf brands dates) (brand_sales part)
                  /\ Forall (marketing_row_wf brands dates)
                            (brand_marketing part)
                  /\ Forall (social_row_wf brands dates) (brand_social part)
                  /\ Forall (review_row_wf brands dates)
                            (brand_reviews part))).
      intros b Hb. eapply ensures_weaken; [apply gen_brand_wf |].
      intros part (H1 & H2 & H3 & H4).
      split; [| split; [| split]];
        (eapply Forall_impl_in; [| eassumption]); intros r Hr.
      + destruct Hr as (Hin & Hr). destruct Hin as [E | []].
        split; [rewrite <- E; exact Hb | exact Hr].
      + destruct Hr as (Hin & Hr). destruct Hin as [E | []].
        split; [rewrite <- E; exact Hb | exact Hr].
      + destruct Hr as (Hin & Hr). destruct Hin as [E | []].
        split; [rewrite <- E; exact Hb | exact Hr].
      + apply (review_row_wf_mono b); assumption.
    - intros parts Hparts.
      apply (ensures_ret _ (fun r =>
               Forall (sales_row_wf brands dates) (sales_records r)
               /\ Forall (marketing_row_wf brands dates) (marketing_records r)
               /\ Forall (social_row_wf brands dates) (social_records r)
               /\ Forall (review_row_wf brands dates) (reviews_records r))).
      cbn [sales_records marketing_records social_records reviews_records].
      split; [| split; [| split]]; apply Forall_concat_map;
        (eapply Forall_impl_in; [| exact Hparts]); cbv beta; tauto. }
  intros r (H1 & H2 & H3 & H4). apply ensures_lift. intros t E.
  destruct (assemble_rows r t E) as (E1 & E2 & E3 & E4 & E5).
  unfold tables_wf. rewrite E1, E2, E3, E4. tauto.
Qed.
(** ** The whole call, once more *)

Lemma generate_tables_wf (start_date days : Z)
    (brands : option (list string)) :
  valid_call days (brands_of brands) ->
  always (generate_mock_data start_date days brands)
         (fun t => generate_ok (horizon start_date days) (brands_of brands) t
                   /\ tables_wf (brands_of brands)
                                (horizon start_date days) t).
Proof.
  intro Hv. apply always_with; [apply generate_returns; exact Hv |].
  destruct Hv as (Hd & _). rewrite generate_unfold.
  rewrite pd_date_range_horizon by lia. simpl lift.
  apply (ensures_bind _ _ (fun ds => ds = horizon start_date days));
    [apply ensures_ret; reflexivity |].
  intros ds ->. apply after_dates_wf.
Qed.

(** X5: with a day count that is not negative, the call returns tables
    exactly when there is at least one day, at least one brand, and every
    brand is one of the three of the weight table; otherwise it raises. *)
Theorem returns_iff_valid_call (start_date days : Z)
    (brands : option (list string)) (g : Rng) :
  (0 <= days)%Z ->
  ((exists t g', generate_mock_data start_date days brands g = Ok (t, g'))
   <-> valid_call days (brands_of brands)).
Proof.
  intro Hd. split.
  - intros (t & g' & E). rewrite generate_unfold in E.
    rewrite pd_date_range_horizon in E by exact Hd.
    unfold bind in E. simpl in E.
    destruct (brands_of brands) as [| b bs] eqn:Eb.
    { rewrite (after_dates_no_brand _ g) in E. discriminate. }
    assert (Hdays : (1 <= days)%Z).
    { destruct (Z.eq_dec days 0) as [-> | Hne]; [| lia].
      change (horizon start_date 0) with (@nil Z) in E.
      rewrite (after_dates_no_dates b bs g) in E. discriminate. }
    split; [exact Hdays |]. split; [discriminate |].
    destruct (first_unknown (b :: bs))
      as [H | (known & b' & rest & Esplit & Hk & Hb')]; [exact H |].
    rewrite Esplit in E.
    rewrite (after_dates_unknown (horizon start_date days) known b' rest
               Hk Hb' (horizon_nonempty _ _ Hdays) g) in E.
    discriminate.
  - intro Hv. destruct (generate_returns start_date days brands Hv g)
      as (t & g' & E & _).
    exists t, g'. exact E.
Qed.

Lemma Chain_length {S A B} (R : S -> A -> S -> B -> Prop)
    (s : S) (l : list A) (s' : S) (bs : list B) :
  Chain R s l s' bs -> List.length bs = List.length l.
Proof. induction 1; simpl; congruence. Qed.

Lemma concat_length_between {A B} (R : A -> B -> Prop) {C}
    (proj : B -> list C) (lo hi : nat) (l : list A) (parts : list B) :
  (forall a p, R a p -> (lo <= List.length (proj p) <= hi)%nat) ->
  Forall2 R l parts ->
  (lo * List.length l <= List.length (List.concat (map proj parts))
   <= hi * List.length l)%nat.
Proof.
  intro H. induction 1 as [| a p l parts Hap _ IH]; simpl; [lia |].
  rewrite length_app. specialize (H a p Hap). nia.
Qed.

Lemma day_step_sizes (brand : string) (fol : dict Z) (date : Z)
    (fol' : dict Z) (rec : DayRecords) :
  day_step brand fol date fol' rec ->
  (40 <= List.length (day_sales rec) <= 150)%nat
  /\ List.length (day_marketing rec) = 4%nat
  /\ List.length (day_social rec) = 4%nat.
Proof.
  intros (z & c & Hn & _ & _ & Hm & Ho). split; [| split].
  - rewrite Hn. pose proof (daily_orders_bounds (order_mean date + 15 * z)).
    unfold range_len. lia.
  - symmetry. exact (Forall2_length Hm).
  - exact (Chain_length _ _ _ _ _ Ho).
Qed.

Lemma brand_step_sizes (dates : list Z) (brand : string)
    (part : BrandRecords) :
  brand_step dates brand part ->
  (40 * List.length dates <= List.length (brand_sales part)
   <= 150 * List.length dates)%nat
  /\ List.length (brand_marketing part) = (4 * List.length dates)%nat
  /\ List.length (brand_social part) = (4 * List.length dates)%nat
  /\ List.length (brand_reviews part) = 120%nat.
Proof.
  intro H. destruct (brand_step_days _ _ _ H) as (days & Hd & Es & Em & Eo).
  destruct H as (_ & _ & _ & _ & _ & _ & _ & _ & Hlen & _).
  rewrite Es, Em, Eo. split; [| split; [| split; [| exact Hlen]]].
  - apply (concat_length_between _ day_sales 40 150 dates days)
      in Hd; [exact Hd |].
    intros d rec (f1 & f2 & Hday). apply (day_step_sizes _ _ _ _ _ Hday).
  - apply (concat_length_between _ day_marketing 4 4 dates days)
      in Hd; [lia |].
    intros d rec (f1 & f2 & Hday).
    destruct (day_step_sizes _ _ _ _ _ Hday) as (_ & E & _). lia.
  - apply (concat_length_between _ day_social 4 4 dates days)
      in Hd; [lia |].
    intros d rec (f1 & f2 & Hday).
    destruct (day_step_sizes _ _ _ _ _ Hday) as (_ & _ & E). lia.
Qed.

(** X6: the sizes of the four tables, for [b] brands (a brand named twice
    counts twice) and [d] days: [120 * b] reviews, [4 * b * d] Marketing
    rows and as many Social rows, and between [40 * b * d] and [150 * b * d]
    Sales rows. *)
Theorem table_sizes (start_date days : Z) (brands : option (list string)) :
  valid_call days (brands_of brands) ->
  always (generate_mock_data start_date days brands)
    (fun t =>
       let b := List.length (brands_of brands) in
       let d := Z.to_nat days in
       List.length (rows (reviews_df t)) = (120 * b)%nat
       /\ List.length (rows (marketing_df t)) = (4 * (b * d))%nat
       /\ List.length (rows (social_df t)) = (4 * (b * d))%nat
       /\ (40 * (b * d) <= List.length (rows (sales_df t))
           <= 150 * (b * d))%nat).
Proof.
  intro Hv. eapply always_weaken; [apply generate_returns; exact Hv |].
  intros t (r & (parts & Hparts & Es & Em & Eo & Ev) & ->).
  unfold tables_of. cbn [rows sales_df marketing_df social_df reviews_df].
  cbv zeta. rewrite Es, Em, Eo, Ev.
  assert (Hh : List.length (horizon start_date days) = Z.to_nat days).
  { unfold horizon. rewrite length_map, length_seq. reflexivity. }
  set (d := Z.to_nat days) in *.
  assert (Hr : (120 * List.length (brands_of brands)
                <= List.length (List.concat (map brand_reviews parts))
                <= 120 * List.length (brands_of brands))%nat).
  { apply (concat_length_between (brand_step (horizon start_date days))
             brand_reviews); [| exact Hparts].
    intros b p H. destruct (brand_step_sizes _ _ _ H) as (_ & _ & _ & E).
    lia. }
  assert (Hm : (4 * d * List.length (brands_of brands)
                <= List.length (List.concat (map brand_marketing parts))
                <= 4 * d * List.length (brands_of brands))%nat).
  { apply (concat_length_between (brand_step (horizon start_date days))
             brand_marketing); [| exact Hparts].
    intros b p H. destruct (brand_step_sizes _ _ _ H) as (_ & E & _). lia. }
  assert (Ho : (4 * d * List.length (brands_of brands)
                <= List.length (List.concat (map brand_social parts))
                <= 4 * d * List.length (brands_of brands))%nat).
  { apply (concat_length_between (brand_step (horizon start_date days))
             brand_social); [| exact Hparts].
    intros b p H. destruct (brand_step_sizes _ _ _ H) as (_ & _ & E & _).
    lia. }
  assert (Hs : (40 * d * List.length (brands_of brands)
                <= List.length (List.concat (map brand_sales parts))
                <= 150 * d * List.length (brands_of brands))%nat).
  { apply (concat_length_between (brand_step (horizon start_date days))
             brand_sales); [| exact Hparts].
    intros b p H. destruct (brand_step_sizes _ _ _ H) as (E & _). lia. }
  nia.
Qed.

(** X7: every Sales row is labelled from the catalogs: its brand is one of
    the call's brands, its date one of the horizon, its campaign, channel
    and offer come from their lists, and its product belongs to the product
    list of its category. *)
Theorem sales_rows_labelled (start_date days : Z)
    (brands : option (list string)) :
  valid_call days (brands_of brands) ->
  always (generate_mock_data start_date days brands)
         (fun t => Forall (sales_row_wf (brands_of brands)
                                        (horizon start_date days))
                          (rows (sales_df t))).
Proof.
  intro Hv. eapply always_weaken; [apply generate_tables_wf; exact Hv |].
  intros t (_ & H & _). exact H.
Qed.

(** X8: every Social row has a platform of the list, an engagement rate in
    [0.5, 8.5] and at least 5000 followers, under a brand and a date of the
    call. *)
Theorem social_rows_in_range (start_date days : Z)
    (brands : option (list string)) :
  valid_call days (brands_of brands) ->
  always (generate_mock_data start_date days brands)
         (fun t => Forall (social_row_wf (brands_of brands)
                                         (horizon start_date days))
                          (rows (social_df t))).
Proof.
  intro Hv. eapply always_weaken; [apply generate_tables_wf; exact Hv |].
  intros t (_ & _ & _ & H & _). exact H.
Qed.

(** X9: every review has a rating that goes with its sentiment: 4 or 5 when
    "Positive", 3 when "Neutral", 1 or 2 when "Negative"; so a rating is
    between 1 and 5; its brand and date are of the call. *)
Theorem review_ratings_match_sentiment (start_date days : Z)
    (brands : option (list string)) :
  valid_call days (brands_of brands) ->
  always (generate_mock_data start_date days brands)
         (fun t =>
            Forall (fun r =>
                      review_row_wf (brands_of brands)
                                    (horizon start_date days) r
                      /\ (1 <= Reviews.Rating r <= 5)%Z)
                   (rows (reviews_df t))).
Proof.
  intro Hv. eapply always_weaken; [apply generate_tables_wf; exact Hv |].
  intros t (_ & _ & _ & _ & H & _).
  eapply Forall_impl_in; [| exact H]. intros r Hr. split; [exact Hr |].
  destruct Hr as (_ & _ & [[_ Hr] | [[_ Hr] | [_ Hr]]]); lia.
Qed.

(** X10: with brands that are all different, the Marketing rows of a brand
    on a day are one per marketing channel, in the order of the channel
    list; and every Marketing row carries a brand and a date of the call and
    a campaign of the catalog. *)
Theorem marketing_one_row_per_channel (start_date days : Z)
    (brands : option (list string)) :
  valid_call days (brands_of brands) -> NoDup (brands_of brands) ->
  always (generate_mock_data start_date days brands)
         (fun t =>
            Forall (marketing_row_wf (brands_of brands)
                                     (horizon start_date days))
                   (rows (marketing_df t))
            /\ forall b d,
                 In b (brands_of brands) -> In d (horizon start_date days) ->
                 map Marketing.Channel (marketing_on b d t)
                 = marketing_channels).
Proof.
  intros Hv Hnd.
  eapply always_weaken; [apply generate_tables_wf; exact Hv |].
  intros t (Hok & _ & Hm & _). split; [exact Hm |]. intros b d Hb Hd.
  destruct (brand_day _ _ t b d Hok Hnd (horizon_NoDup _ _) Hb Hd)
    as (fol & fol' & rec & (z & c & _ & _ & _ & Hmk & _) & _ & Em).
  rewrite Em. clear - Hmk.
  induction Hmk as [| ch r chs rs (_ & _ & _ & Hch & _) _ IH];
    [reflexivity |].
  simpl. rewrite Hch, IH. reflexivity.
Qed.
(** ** The dashboard's filters *)

Lemma isin_In (x : string) (values : list string) :
  In x values -> isin x values = true.
Proof.
  intro H. unfold isin. apply existsb_exists. exists x.
  split; [exact H | apply String.eqb_refl].
Qed.

Lemma filter_keeps_all {A} (mask : A -> bool) (l : list A) :
  Forall (fun r => mask r = true) l -> filter mask l = l.
Proof.
  induction 1 as [| r l Hr _ IH]; simpl; [reflexivity |].
  rewrite Hr, IH. reflexivity.
Qed.

Lemma filter_keeps_none {A} (mask : A -> bool) (l : list A) :
  (forall r, mask r = false) -> filter mask l = [].
Proof.
  intro H. induction l as [| r l IH]; simpl; [reflexivity |].
  rewrite H. exact IH.
Qed.

Lemma df_filter_keeps_all {A} (mask : A -> bool) (df : DataFrame A) :
  Forall (fun r => mask r = true) (rows df) -> df_filter mask df = df.
Proof.
  intro H. unfold df_filter. rewrite (filter_keeps_all _ _ H).
  destruct df. reflexivity.
Qed.

Lemma load_data_wf (today : Z) :
  always (load_data today)
         (fun t => generate_ok (horizon (today - 90) 91) brands_available t
                   /\ tables_wf brands_available (horizon (today - 90) 91) t).
Proof.
  unfold load_data. cbv zeta.
  replace (today - (today - 90) + 1)%Z with 91%Z by lia.
  apply (generate_tables_wf (today - 90) 91 (Some brands_available)).
  unfold valid_call, brands_of, brands_available, known_brand. simpl.
  split; [lia |]. split; [discriminate |].
  repeat (constructor; [tauto |]). constructor.
Qed.

(** X11: the dashboard's own call always returns, and with its default
    selections - every brand, every campaign of the returned catalog, and a
    date widget that holds the whole range or does not hold a pair of dates -
    the four filters keep every row of the four tables. *)
Theorem default_filters_keep_everything (today : Z) :
  always (load_data today)
    (fun t =>
       forall w : date_input,
         (forall a b, w = DateTuple [a; b] -> a = (today - 90)%Z /\ b = today) ->
         let start_filter := fst (filter_window w (today - 90) today) in
         let end_filter := snd (filter_window w (today - 90) today) in
         filter_sales brands_available (campaigns_out t)
                      start_filter end_filter (sales_df t) = sales_df t
         /\ filter_marketing brands_available (campaigns_out t)
                             start_filter end_filter (marketing_df t)
            = marketing_df t
         /\ filter_social brands_available start_filter end_filter
                          (social_df t) = social_df t
         /\ filter_reviews brands_available start_filter end_filter
                           (reviews_df t) = reviews_df t).
Proof.
  eapply always_weaken; [apply load_data_wf |].
  intros t (_ & Hs & Hm & Ho & Hv & Ec) w Hw. cbv zeta.
  assert (Ew : filter_window w (today - 90) today = ((today - 90)%Z, today)).
  { destruct w as [d | [| a [| b [| c ds]]]]; try reflexivity.
    destruct (Hw a b eq_refl) as [-> ->]. reflexivity. }
  rewrite Ew, Ec. cbn [fst snd].
  assert (Hdate : forall d, In d (horizon (today - 90) 91) ->
                    ((today - 90 <=? d) = true /\ (d <=? today) = true)%Z).
  { intros d Hd. apply in_horizon in Hd.
    split; apply Z.leb_le; lia. }
  split; [| split; [| split]]; apply df_filter_keeps_all.
  - eapply Forall_impl_in; [| exact Hs].
    intros r (Hb & Hd & Hc & _). destruct (Hdate _ Hd) as [E1 E2].
    rewrite (isin_In _ _ Hb), (isin_In _ _ Hc), E1, E2. reflexivity.
  - eapply Forall_impl_in; [| exact Hm].
    intros r (Hb & Hd & Hc & _). destruct (Hdate _ Hd) as [E1 E2].
    rewrite (isin_In _ _ Hb), (isin_In _ _ Hc), E1, E2. reflexivity.
  - eapply Forall_impl_in; [| exact Ho].
    intros r (Hb & Hd & _). destruct (Hdate _ Hd) as [E1 E2].
    rewrite (isin_In _ _ Hb), E1, E2. reflexivity.
  - eapply Forall_impl_in; [| exact Hv].
    intros r (Hb & Hd & _). destruct (Hdate _ Hd) as [E1 E2].
    rewrite (isin_In _ _ Hb), E1, E2. reflexivity.
Qed.

(** X12: when no brand is selected, or no campaign, or the window ends
    before it starts, the filtered Sales table has no row and the executive
    summary shows 0 revenue, 0 units and an average order value of 0. *)
Theorem empty_selection_summary (selected_brands selected_campaigns
    : list string) (start_filter end_filter : Z) (df : DataFrame Sales.row) :
  selected_brands = [] \/ selected_campaigns = []
  \/ (end_filter < start_filter)%Z ->
  rows (filter_sales selected_brands selected_campaigns
                     start_filter end_filter df) = []
  /\ executive_summary (filter_sales selected_brands selected_campaigns
                                     start_filter end_filter df)
     = (0, 0%Z, Some 0).
Proof.
  intro H.
  assert (E : rows (filter_sales selected_brands selected_campaigns
                                 start_filter end_filter df) = []).
  { unfold filter_sales, df_filter. cbn [rows]. apply filter_keeps_none.
    intro r. destruct H as [-> | [-> | H]].
    - reflexivity.
    - simpl. apply andb_false_intro1, andb_false_intro1, andb_false_r.
    - destruct (start_filter <=? Sales.Date r)%Z eqn:E1;
        [| rewrite andb_false_r; reflexivity].
      destruct (Sales.Date r <=? end_filter)%Z eqn:E2;
        [| apply andb_false_r].
      apply Z.leb_le in E1, E2. lia. }
  split; [exact E |]. unfold executive_summary. rewrite E. reflexivity.
Qed.
(** ** The executive summary of generated sales *)

Lemma generate_ok_sales_rows (dates : list Z) (brands : list string)
    (t : Tables) :
  generate_ok dates brands t -> Forall sales_row_ok (rows (sales_df t)).
Proof.
  intros (r & (parts & Hparts & Es & _) & ->).
  unfold tables_of. cbn [rows sales_df]. rewrite Es.
  eapply Forall2_concat; [| exact Hparts]. intros b part Hstep.
  destruct (brand_step_days _ _ _ Hstep) as (ds & Hds & E & _). rewrite E.
  eapply Forall2_concat; [| exact Hds].
  intros d rec (fol & fol' & z & c & _ & _ & Hs & _).
  eapply Forall_impl_in; [| exact Hs]. cbv beta. tauto.
Qed.

Lemma generate_ok_marketing_rows (dates : list Z) (brands : list string)
    (t : Tables) :
  generate_ok dates brands t ->
  Forall marketing_row_ok (rows (marketing_df t)).
Proof.
  intros (r & (parts & Hparts & _ & Em & _) & ->).
  unfold tables_of. cbn [rows marketing_df]. rewrite Em.
  eapply Forall2_concat; [| exact Hparts]. intros b part Hstep.
  destruct (brand_step_days _ _ _ Hstep) as (ds & Hds & _ & E & _). rewrite E.
  eapply Forall2_concat; [| exact Hds].
  intros d rec (fol & fol' & z & c & _ & _ & _ & Hm & _).
  eapply Forall2_right; [| exact Hm]. cbv beta. tauto.
Qed.

Lemma round_half_even_error (y : Q) :
  y - (1 # 2) <= inject_Z (round_half_even y) <= y + (1 # 2).
Proof.
  unfold round_half_even.
  pose proof (Qfloor_le y) as H1. pose proof (Qlt_floor y) as H2.
  rewrite inject_Z_plus in H2. change (inject_Z 1) with 1 in H2.
  destruct (Qltb (y - inject_Z (Qfloor y)) (1 # 2)) eqn:E1.
  - apply Qltb_true in E1. split; lra.
  - apply Qltb_false in E1.
    destruct (Qltb (1 # 2) (y - inject_Z (Qfloor y))) eqn:E2.
    + rewrite inject_Z_plus. change (inject_Z 1) with 1. split; lra.
    + apply Qltb_false in E2. destruct (Z.even (Qfloor y)); [split; lra |].
      rewrite inject_Z_plus. change (inject_Z 1) with 1. split; lra.
Qed.

(** [round(x, 2)] moves a value by at most half a cent. *)
Lemma py_round2_error (x : Q) :
  x - (1 # 200) <= py_round2 x <= x + (1 # 200).
Proof.
  unfold py_round2, Qdiv. change (/ 100) with (1 # 100).
  pose proof (round_half_even_error (x * 100)). split; lra.
Qed.

Lemma base_price_values (cat : string) (base : Z) :
  dict_find base_price cat = Some base -> (25 <= base <= 75)%Z.
Proof.
  unfold base_price. simpl.
  repeat (destruct (String.eqb cat _); [intros [= <-]; lia |]).
  discriminate.
Qed.

(** What a consistent Sales row earns per unit, rounding included. *)
Lemma sales_row_revenue_bounds (r : Sales.row) :
  sales_row_ok r ->
  (1 <= Sales.Qty r)%Z
  /\ 14.995 * inject_Z (Sales.Qty r) <= Sales.Revenue r
     <= 112.505 * inject_Z (Sales.Qty r).
Proof.
  intros (Er & Hq & base & Eb & Hp). split; [exact Hq |].
  apply base_price_values in Eb.
  assert (Hb1 : 25 <= inject_Z base).
  { change 25 with (inject_Z 25). rewrite <- Zle_Qle. lia. }
  assert (Hb2 : inject_Z base <= 75).
  { change 75 with (inject_Z 75). rewrite <- Zle_Qle. lia. }
  assert (Hq1 : 1 <= inject_Z (Sales.Qty r)).
  { change 1 with (inject_Z 1). rewrite <- Zle_Qle. exact Hq. }
  rewrite Er.
  pose proof (py_round2_error (Sales.UnitPrice r * inject_Z (Sales.Qty r))).
  set (p := Sales.UnitPrice r) in *. set (q := inject_Z (Sales.Qty r)) in *.
  assert (15 * q <= p * q) by nra.
  assert (p * q <= (225 # 2) * q) by nra.
  split; lra.
Qed.

Lemma totals_bounds (l : list Sales.row) :
  Forall sales_row_ok l ->
  forall (revenue : Q) (orders : Z),
    14.995 * inject_Z orders <= revenue <= 112.505 * inject_Z orders ->
    (orders + Z.of_nat (List.length l)
     <= fold_left Z.add (map Sales.Qty l) orders)%Z
    /\ 14.995 * inject_Z (fold_left Z.add (map Sales.Qty l) orders)
       <= fold_left Qplus (map Sales.Revenue l) revenue
       <= 112.505 * inject_Z (fold_left Z.add (map Sales.Qty l) orders).
Proof.
  induction 1 as [| r l Hr _ IH]; intros revenue orders Hacc.
  - simpl. split; [lia | exact Hacc].
  - destruct (sales_row_revenue_bounds r Hr) as (Hq & Hrev).
    cbn [map fold_left List.length].
    destruct (IH (revenue + Sales.Revenue r) (orders + Sales.Qty r)%Z)
      as (Hn & Hb).
    { rewrite inject_Z_plus. split; lra. }
    split; [lia | exact Hb].
Qed.

(** X13: whatever rows of the generated Sales table a filter keeps, if it
    keeps any, the units sold are at least the number of rows (so the
    division takes place) and the average order value lies between 14.995
    and 112.505: the cheapest and the dearest unit price, to half a cent. *)
Theorem avg_order_value_range (start_date days : Z)
    (brands : option (list string)) :
  valid_call days (brands_of brands) ->
  always (generate_mock_data start_date days brands)
    (fun t =>
       forall mask : Sales.row -> bool,
         let df := df_filter mask (sales_df t) in
         rows df <> [] ->
         (Z.of_nat (List.length (rows df)) <= total_orders (rows df))%Z
         /\ exists v : Q,
              executive_summary df
              = (total_revenue (rows df), total_orders (rows df), Some v)
              /\ v == total_revenue (rows df)
                      / inject_Z (total_orders (rows df))
              /\ 14.995 <= v <= 112.505).
Proof.
  intro Hv. eapply always_weaken; [apply generate_returns; exact Hv |].
  intros t Hok mask. cbv zeta. unfold df_filter. cbn [rows]. intro Hne.
  pose proof (generate_ok_sales_rows _ _ t Hok) as Hrows.
  assert (Hf : Forall sales_row_ok (filter mask (rows (sales_df t)))).
  { rewrite Forall_forall in *. intros r Hr. apply filter_In in Hr.
    apply Hrows. tauto. }
  set (l := filter mask (rows (sales_df t))) in *.
  destruct (totals_bounds l Hf 0 0%Z) as (Hn & Hb).
  { change (inject_Z 0) with 0. split; lra. }
  fold (total_orders l) in Hn, Hb. fold (total_revenue l) in Hb.
  assert (Hlen : (0 < List.length l)%nat) by (destruct l; simpl; [congruence | lia]).
  assert (Hpos : (0 < total_orders l)%Z) by lia.
  split; [lia |].
  exists (total_revenue l / inject_Z (total_orders l)).
  split; [| split; [reflexivity |]].
  - unfold executive_summary, avg_order_value, np_true_divide. cbn [rows].
    fold l. destruct (total_orders l =? 0)%Z eqn:E;
      [apply Z.eqb_eq in E; lia | reflexivity].
  - assert (Hq : 0 < inject_Z (total_orders l)).
    { change 0 with (inject_Z 0). rewrite <- Zlt_Qlt. exact Hpos. }
    split; [apply Qle_shift_div_l | apply Qle_shift_div_r];
      try exact Hq; lra.
Qed.

(** ** Paid ads *)

Lemma filter_drops_all {A} (mask : A -> bool) (l : list A) :
  Forall (fun r => mask r = false) l -> filter mask l = [].
Proof.
  induction 1 as [| r l Hr _ IH]; simpl; [reflexivity |].
  rewrite Hr. exact IH.
Qed.

(** X14: among the generated Marketing rows, whatever a filter keeps,
    dropping the rows without a CPC from the paid ads drops nothing, and the
    rows of any other channel all lack a CPC. *)
Theorem dropna_keeps_paid_ads (start_date days : Z)
    (brands : option (list string)) :
  valid_call days (brands_of brands) ->
  always (generate_mock_data start_date days brands)
    (fun t =>
       forall mask : Marketing.row -> bool,
         let df := df_filter mask (marketing_df t) in
         dropna_CPC (channel_rows "Paid" df) = channel_rows "Paid" df
         /\ forall channel, channel <> "Paid"%string ->
              rows (dropna_CPC (channel_rows channel df)) = []).
Proof.
  intro Hv. eapply always_weaken; [apply generate_returns; exact Hv |].
  intros t Hok mask. cbv zeta.
  pose proof (generate_ok_marketing_rows _ _ t Hok) as Hrows.
  rewrite Forall_forall in Hrows.
  split.
  - unfold dropna_CPC. apply df_filter_keeps_all.
    unfold channel_rows, df_filter. cbn [rows].
    rewrite Forall_forall. intros r Hr.
    apply filter_In in Hr. destruct Hr as (Hr & Ech).
    apply filter_In in Hr. destruct Hr as (Hr & _).
    apply String.eqb_eq in Ech.
    destruct (Hrows r Hr) as (_ & _ & Hiff & _).
    destruct (Marketing.CPC r); [reflexivity |].
    exfalso. apply Hiff in Ech. apply Ech. reflexivity.
  - intros channel Hne. unfold dropna_CPC, channel_rows, df_filter.
    cbn [rows]. apply filter_drops_all. rewrite Forall_forall. intros r Hr.
    apply filter_In in Hr. destruct Hr as (Hr & Ech).
    apply filter_In in Hr. destruct Hr as (Hr & _).
    apply String.eqb_eq in Ech.
    destruct (Hrows r Hr) as (_ & _ & Hiff & _).
    destruct (Marketing.CPC r) as [c |]; [| reflexivity].
    exfalso. apply Hne. rewrite <- Ech. apply Hiff. discriminate.
Qed.
(** ** The followers shown per brand and platform *)

Lemma followers_series_facts (dates : list Z) (brands : list string)
    (t : Tables) (b p : string) :
  generate_ok dates brands t -> NoDup brands ->
  In b brands -> In p social_platforms ->
  map Social.Date (followers_series b p t) = dates
  /\ Sorted Z.le (map Social.Followers (followers_series b p t)).
Proof.
  intros Hok Hnd Hb Hp.
  destruct (brand_part _ _ t b Hok Hnd Hb) as (part & Hstep & _ & _ & Eo & _).
  destruct Hstep as (fol0 & fol1 & ds & Hinit & Hchain & _ & _ & Es & _).
  destruct (Hinit p Hp) as (f0 & Ef0 & Hf0).
  destruct (brand_series b fol0 _ fol1 ds p Hchain Hp f0 Ef0)
    as (f1 & _ & Hl & Hdates).
  assert (E : followers_series b p t
              = on_platform p (List.concat (map day_social ds))).
  { unfold followers_series, on_platform. rewrite filter_andb, Eo, Es.
    reflexivity. }
  rewrite E. split; [exact Hdates |].
  pose proof (linked_Sorted _ _ _ _ Hl) as HS.
  inversion HS as [| ? ? HS' _]; subst.
  eapply Sorted_weaken; [| exact HS']. apply growth_step_le.
Qed.

Lemma filter_swap {A} (f g : A -> bool) (l : list A) :
  filter f (filter g l) = filter g (filter f l).
Proof.
  induction l as [| x l IH]; simpl; [reflexivity |].
  destruct (f x) eqn:Ef, (g x) eqn:Eg; simpl; rewrite ?Ef, ?Eg, IH;
    reflexivity.
Qed.

Lemma StronglySorted_map_filter {A} (f : A -> Z) (R : Z -> Z -> Prop)
    (mask : A -> bool) (l : list A) :
  StronglySorted R (map f l) -> StronglySorted R (map f (filter mask l)).
Proof.
  induction l as [| x l IH]; simpl; intro H; [constructor |].
  inversion H as [| ? ? Hl Hx]; subst. destruct (mask x); [| apply IH, Hl].
  simpl. constructor; [apply IH, Hl |].
  rewrite Forall_forall in *. intros v Hv. apply Hx.
  apply in_map_iff in Hv. destruct Hv as (y & <- & Hy).
  apply in_map. apply filter_In in Hy. tauto.
Qed.

Lemma StronglySorted_before_last {A} (f : A -> Z) (R : Z -> Z -> Prop)
    (l : list A) (r : A) :
  StronglySorted R (map f (l ++ [r])) -> Forall (fun x => R (f x) (f r)) l.
Proof.
  induction l as [| x l IH]; simpl; intro H; [constructor |].
  inversion H as [| ? ? Hl Hx]; subst. constructor; [| apply IH, Hl].
  rewrite Forall_forall in Hx. apply Hx. rewrite map_app. apply in_or_app.
  right. left. reflexivity.
Qed.

Lemma fold_max_le (l : list Z) (v0 v : Z) :
  (v0 <= v)%Z -> Forall (fun x => (x <= v)%Z) l ->
  (fold_left Z.max l v0 <= v)%Z.
Proof.
  intros H0 H. revert v0 H0.
  induction H as [| x l Hx _ IH]; intros v0 H0; simpl; [exact H0 |].
  apply IH. lia.
Qed.

Lemma agg_max_last (l : list Z) (v : Z) :
  Forall (fun x => (x <= v)%Z) l -> agg_max (l ++ [v]) = Some v.
Proof.
  intro H. destruct l as [| v0 l]; [reflexivity |].
  inversion H as [| ? ? H0 Hl]; subst. simpl. rewrite fold_left_app. simpl.
  f_equal. pose proof (fold_max_le l v0 v H0 Hl). lia.
Qed.

(** X15: with brands that are all different, in every group of the
    followers summary - a brand, a platform, whatever rows a filter keeps -
    the rows come in the order of their dates and the maximum of
    [Followers] is the count of the last row, the latest day kept. *)
Theorem followers_max_is_latest (start_date days : Z)
    (brands : option (list string)) :
  valid_call days (brands_of brands) -> NoDup (brands_of brands) ->
  always (generate_mock_data start_date days brands)
    (fun t =>
       forall (b p : string) (mask : Social.row -> bool)
              (earlier : list Social.row) (latest : Social.row),
         In b (brands_of brands) -> In p social_platforms ->
         social_group b p (df_filter mask (social_df t))
         = (earlier ++ [latest])%list ->
         Forall (fun r => (Social.Date r < Social.Date latest)%Z) earlier
         /\ agg_max (map Social.Followers (earlier ++ [latest]))
            = Some (Social.Followers latest)).
Proof.
  intros Hv Hnd. eapply always_weaken; [apply generate_returns; exact Hv |].
  intros t Hok b p mask earlier latest Hb Hp E.
  destruct (followers_series_facts _ _ t b p Hok Hnd Hb Hp) as (Hd & Hf).
  assert (Eg : social_group b p (df_filter mask (social_df t))
               = filter mask (followers_series b p t)).
  { unfold social_group, df_filter, followers_series. cbn [rows].
    apply filter_swap. }
  rewrite Eg in E.
  assert (Hdates : StronglySorted Z.lt
                     (map Social.Date (earlier ++ [latest]))).
  { rewrite <- E. apply StronglySorted_map_filter. rewrite Hd.
    apply horizon_increasing. }
  assert (Hfol : StronglySorted Z.le
                   (map Social.Followers (earlier ++ [latest]))).
  { rewrite <- E. apply StronglySorted_map_filter.
    apply Sorted_StronglySorted; [| exact Hf].
    intros x y z. apply Z.le_trans. }
  split; [exact (StronglySorted_before_last _ _ _ _ Hdates) |].
  rewrite map_app. simpl. apply agg_max_last.
  apply StronglySorted_before_last in Hfol.
  rewrite Forall_forall in *. intros v Hv'. apply in_map_iff in Hv'.
  destruct Hv' as (r & <- & Hr). apply Hfol. exact Hr.
Qed.
(** ** A brand named more than once *)

Lemma filter_concat_count {K P R} (eqb : K -> K -> bool)
    (eqb_spec : forall x y, eqb x y = true <-> x = y)
    (dec : forall x y : K, {x = y} + {x <> y})
    (key : R -> K) (proj : P -> list R) (n : nat)
    (keys : list K) (parts : list P) (k0 : K) :
  Forall2 (fun k p => Forall (fun r => key r = k) (proj p)
                      /\ List.length (proj p) = n) keys parts ->
  List.length (filter (fun r => eqb (key r) k0)
                      (List.concat (map proj parts)))
  = (n * count_occ dec keys k0)%nat.
Proof.
  induction 1 as [| k p ks ps [Hk Hn] _ IH]; simpl; [lia |].
  rewrite filter_app, length_app, IH.
  destruct (dec k k0) as [-> | Hne].
  - rewrite (filter_key_all eqb eqb_spec key k0 _ Hk). lia.
  - rewrite (filter_key_none eqb eqb_spec key k k0 _ Hne Hk). simpl. lia.
Qed.

(** X16: the brand loop does not merge the passes of a brand that the list
    names more than once: a brand named [n] times has [120 * n] reviews and
    [4 * n] Social rows per day (so the per-brand figures of the claims need
    a list without repeats). *)
Theorem rows_per_brand_with_repeats (start_date days : Z)
    (brands : option (list string)) :
  valid_call days (brands_of brands) ->
  always (generate_mock_data start_date days brands)
    (fun t =>
       forall b : string,
         let n := count_occ string_dec (brands_of brands) b in
         List.length (reviews_of b t) = (120 * n)%nat
         /\ List.length (filter (fun r => String.eqb (Social.Brand r) b)
                                (rows (social_df t)))
            = (4 * Z.to_nat days * n)%nat).
Proof.
  intro Hv. eapply always_weaken; [apply generate_returns; exact Hv |].
  intros t (r & (parts & Hparts & _ & _ & Eo & Ev) & ->) b. cbv zeta.
  unfold reviews_of, tables_of. cbn [rows social_df reviews_df].
  rewrite Eo, Ev.
  assert (Hh : List.length (horizon start_date days) = Z.to_nat days).
  { unfold horizon. rewrite length_map, length_seq. reflexivity. }
  split.
  - apply (filter_concat_count String.eqb string_eqb_iff string_dec).
    eapply Forall2_weaken; [| exact Hparts]. intros b' p' Hp'.
    destruct (brand_step_keys _ _ _ Hp') as (_ & _ & _ & Hk).
    destruct (brand_step_sizes _ _ _ Hp') as (_ & _ & _ & Hn).
    split; assumption.
  - rewrite <- Hh.
    apply (filter_concat_count String.eqb string_eqb_iff string_dec).
    eapply Forall2_weaken; [| exact Hparts]. intros b' p' Hp'.
    destruct (brand_step_keys _ _ _ Hp') as (_ & _ & Hk & _).
    destruct (brand_step_sizes _ _ _ Hp') as (_ & _ & Hn & _).
    split; assumption.
Qed.

(** * The draw behind the daily order count *)

(** ** Rules of [runs] *)

Lemma runs_weaken {A} (m : M A) (P Q : Rng -> A -> Rng -> Prop) :
  runs m P -> (forall g a g', P g a g' -> Q g a g') -> runs m Q.
Proof. intros Hm H g a g' E. apply H. exact (Hm _ _ _ E). Qed.

Lemma runs_bind {A B} (m : M A) (k : A -> M B)
    (P : Rng -> A -> Rng -> Prop) (Q : A -> Rng -> B -> Rng -> Prop) :
  runs m P -> (forall a, runs (k a) (Q a)) ->
  runs (bind m k) (fun g b g2 => exists a g1, P g a g1 /\ Q a g1 b g2).
Proof.
  intros Hm Hk g b g2 E. unfold bind in E.
  destruct (m g) as [[a g1] | e] eqn:Em; [| discriminate].
  exists a, g1. split; [exact (Hm _ _ _ Em) | exact (Hk a _ _ _ E)].
Qed.

Lemma np_frame_trans (j k : nat) (g g1 g2 : Rng) :
  np_frame j g g1 -> np_frame k g1 g2 -> np_frame (j + k) g g2.
Proof.
  intros [T1 P1] [T2 P2]. split; [congruence | lia].
Qed.

Lemma np_frame_refl (g : Rng) : np_frame 0 g g.
Proof. split; [reflexivity | lia]. Qed.

(** A step that reads [j] cells, then one that reads [k] cells. *)
Lemma runs_frame_bind {A B} (m : M A) (k : A -> M B) (j n : nat)
    (P : A -> Prop) (Q : B -> Prop) :
  runs m (fun g a g' => np_frame j g g' /\ P a) ->
  (forall a, P a -> runs (k a) (fun g b g' => np_frame n g g' /\ Q b)) ->
  runs (bind m k) (fun g b g' => np_frame (j + n) g g' /\ Q b).
Proof.
  intros Hm Hk g b g2 E. unfold bind in E.
  destruct (m g) as [[a g1] | e] eqn:Em; [| discriminate].
  destruct (Hm _ _ _ Em) as [F1 Pa].
  destruct (Hk a Pa _ _ _ E) as [F2 Qb].
  split; [eapply np_frame_trans; eassumption | exact Qb].
Qed.

Lemma runs_frame_ret {A} (a : A) (Q : A -> Prop) :
  Q a -> runs (ret a) (fun g b g' => np_frame 0 g g' /\ Q b).
Proof.
  intros H g b g' [= <- <-]. split; [apply np_frame_refl | exact H].
Qed.

Lemma runs_frame_lift {A} (r : result A) :
  runs (lift r) (fun g a g' => np_frame 0 g g' /\ r = Ok a).
Proof.
  intros g a g' E. destruct r as [a0 | e]; [| discriminate].
  inversion E; subst. split; [apply np_frame_refl | reflexivity].
Qed.

Lemma runs_frame_raise {A} (e : exn) (n : nat) (Q : A -> Prop) :
  runs (raise e) (fun g b g' => np_frame n g g' /\ Q b).
Proof. intros g a g' E. discriminate. Qed.

(** Facts about what is returned go along with the count of cells read. *)
Lemma runs_frame_with {A} (m : M A) (n : nat) (P Q : A -> Prop) :
  runs m (fun g a g' => np_frame n g g' /\ P a) -> ensures m Q ->
  runs m (fun g a g' => np_frame n g g' /\ P a /\ Q a).
Proof.
  intros H1 H2 g a g' E. destruct (H1 _ _ _ E) as [F Pa].
  split; [exact F |]. split; [exact Pa | exact (H2 _ _ _ E)].
Qed.

Lemma runs_frame_repeatM {A} (n k : nat) (m : M A) :
  runs m (fun g a g' => np_frame k g g' /\ True) ->
  runs (repeatM n m)
       (fun g l g' => np_frame (n * k) g g' /\ List.length l = n).
Proof.
  intro Hm. induction n as [| n IH]; simpl.
  - apply runs_frame_ret. reflexivity.
  - eapply runs_weaken.
    + apply (runs_frame_bind _ _ k (n * k + 0) (fun _ => True)
               (fun l => List.length l = S n)); [exact Hm |].
      intros a _.
      apply (runs_frame_bind _ _ (n * k) 0 (fun l => List.length l = n));
        [exact IH |].
      intros l Hl. apply runs_frame_ret. simpl. congruence.
    + intros g l g' [F H]. split; [| exact H].
      replace (k + n * k)%nat with (k + (n * k + 0))%nat by lia. exact F.
Qed.

(** The cells read over a list are those of its elements, added up. *)
Lemma runs_frame_mapM {A B} (f : A -> M B) (cost : A -> nat) (l : list A) :
  (forall x, In x l ->
     runs (f x) (fun g b g' => np_frame (cost x) g g' /\ True)) ->
  runs (mapM f l)
       (fun g bs g' => np_frame (list_sum (map cost l)) g g' /\ True).
Proof.
  induction l as [| x l IH]; intro H; simpl.
  - apply runs_frame_ret. exact I.
  - eapply runs_weaken.
    + apply (runs_frame_bind _ _ (cost x) (list_sum (map cost l) + 0)
               (fun _ => True) (fun _ => True));
        [apply H; left; reflexivity |].
      intros b _.
      apply (runs_frame_bind _ _ (list_sum (map cost l)) 0 (fun _ => True)).
      * apply IH. intros y Hy. apply H. right. exact Hy.
      * intros bs _. apply runs_frame_ret. exact I.
    + intros g bs g' [F _]. split; [| exact I].
      replace (cost x + list_sum (map cost l))%nat
        with (cost x + (list_sum (map cost l) + 0))%nat by lia.
      exact F.
Qed.

Lemma runs_frame_mapAccumM {S A B} (f : S -> A -> M (S * B)) (k : nat)
    (l : list A) :
  (forall s x, runs (f s x) (fun g b g' => np_frame k g g' /\ True)) ->
  forall s,
    runs (mapAccumM f s l)
         (fun g sbs g' => np_frame (List.length l * k) g g' /\ True).
Proof.
  intro H. induction l as [| x l IH]; intro s; simpl.
  - apply runs_frame_ret. exact I.
  - eapply runs_weaken.
    + apply (runs_frame_bind _ _ k (List.length l * k + 0)
               (fun _ => True) (fun _ => True)); [apply H |].
      intros [s1 b] _.
      apply (runs_frame_bind _ _ (List.length l * k) 0 (fun _ => True));
        [apply IH |].
      intros [s2 bs] _. apply runs_frame_ret. exact I.
    + intros g sbs g' [F _]. split; [| exact I].
      replace (k + List.length l * k)%nat
        with (k + (List.length l * k + 0))%nat by lia.
      exact F.
Qed.
Lemma runs_frame_step {A B} (m : M A) (k : A -> M B) (j n N : nat)
    (P : A -> Prop) (Q : B -> Prop) :
  N = (j + n)%nat ->
  runs m (fun g a g' => np_frame j g g' /\ P a) ->
  (forall a, P a -> runs (k a) (fun g b g' => np_frame n g g' /\ Q b)) ->
  runs (bind m k) (fun g b g' => np_frame N g g' /\ Q b).
Proof. intros ->. apply runs_frame_bind. Qed.

Lemma runs_frame_true {A} (m : M A) (n : nat) (P : A -> Prop) :
  runs m (fun g a g' => np_frame n g g' /\ P a) ->
  runs m (fun g a g' => np_frame n g g' /\ True).
Proof. intro H. eapply runs_weaken; [exact H |]. cbv beta. tauto. Qed.

Lemma runs_with_ensures {A} (m : M A) (P : Rng -> A -> Rng -> Prop)
    (Q : A -> Prop) :
  runs m P -> ensures m Q -> runs m (fun g a g' => P g a g' /\ Q a).
Proof.
  intros H1 H2 g a g' E. split; [exact (H1 _ _ _ E) | exact (H2 _ _ _ E)].
Qed.

(** ** The cells of [np.random] that each step reads *)

Lemma py_next_frame :
  runs py_next (fun g a g' => np_frame 0 g g' /\ True).
Proof.
  intros g a g' [= <- <-]. split; [| exact I]. split; simpl; [reflexivity | lia].
Qed.

Lemma np_next_frame :
  runs np_next (fun g a g' => np_frame 1 g g' /\ a = np_tape g (np_pos g)).
Proof.
  intros g a g' [= <- <-]. split; [| reflexivity].
  split; simpl; [reflexivity | lia].
Qed.

Lemma random_random_frame :
  runs random_random (fun g a g' => np_frame 0 g g' /\ True).
Proof.
  unfold random_random.
  apply (runs_frame_step _ _ 0 0 0 (fun _ => True) _ eq_refl);
    [apply py_next_frame |].
  intros x _. apply runs_frame_ret. exact I.
Qed.

Lemma randbelow_frame (n : Z) :
  runs (randbelow n) (fun g a g' => np_frame 0 g g' /\ True).
Proof.
  unfold randbelow.
  apply (runs_frame_step _ _ 0 0 0 (fun _ => True) _ eq_refl);
    [apply py_next_frame |].
  intros x _. apply runs_frame_ret. exact I.
Qed.

Lemma random_randint_frame (a b : Z) :
  runs (random_randint a b) (fun g r g' => np_frame 0 g g' /\ True).
Proof.
  unfold random_randint.
  apply (runs_frame_step _ _ 0 0 0 (fun _ => True) _ eq_refl);
    [apply randbelow_frame |].
  intros x _. apply runs_frame_ret. exact I.
Qed.

Lemma lift_frame {A} (r : result A) :
  runs (lift r) (fun g a g' => np_frame 0 g g' /\ True).
Proof. apply (runs_frame_true _ _ _ (runs_frame_lift r)). Qed.

Lemma random_choice_frame {A} (seq : list A) :
  runs (random_choice seq) (fun g a g' => np_frame 0 g g' /\ True).
Proof.
  unfold random_choice. destruct (len seq =? 0)%Z; [apply runs_frame_raise |].
  apply (runs_frame_step _ _ 0 0 0 (fun _ => True) _ eq_refl);
    [apply randbelow_frame |].
  intros i _. apply lift_frame.
Qed.

Lemma random_choices_weighted_frame {A} (population : list A)
    (weights : list Q) :
  runs (random_choices_weighted population weights)
       (fun g a g' => np_frame 0 g g' /\ True).
Proof.
  unfold random_choices_weighted.
  destruct (negb _); [apply runs_frame_raise |].
  apply (runs_frame_step _ _ 0 0 0 (fun _ => True) _ eq_refl);
    [apply lift_frame |].
  intros c _. destruct (Qle_bool (c + 0) 0); [apply runs_frame_raise |].
  apply (runs_frame_step _ _ 0 0 0 (fun _ => True) _ eq_refl);
    [apply random_random_frame |].
  intros u _. apply lift_frame.
Qed.

Lemma random_choices_k_frame {A} (population : list A) (k : nat) :
  runs (random_choices_k population k)
       (fun g a g' => np_frame 0 g g' /\ True).
Proof.
  unfold random_choices_k. eapply runs_weaken.
  - apply (runs_frame_repeatM k 0).
    apply (runs_frame_step _ _ 0 0 0 (fun _ => True) _ eq_refl);
      [apply random_random_frame |].
    intros u _. apply lift_frame.
  - intros g l g' [F _]. rewrite Nat.mul_0_r in F. split; [exact F | exact I].
Qed.

Lemma np_random_normal_run (loc scale : Q) :
  runs (np_random_normal loc scale)
       (fun g a g' => np_frame 1 g g'
                      /\ a = loc + scale * np_tape g (np_pos g)).
Proof.
  intros g a g' [= <- <-]. split; [| reflexivity].
  split; simpl; [reflexivity | lia].
Qed.

Lemma np_random_normal_frame (loc scale : Q) :
  runs (np_random_normal loc scale) (fun g a g' => np_frame 1 g g' /\ True).
Proof.
  eapply runs_weaken; [apply np_random_normal_run |]. cbv beta. tauto.
Qed.

Lemma np_random_uniform_frame (low high : Q) :
  runs (np_random_uniform low high) (fun g a g' => np_frame 1 g g' /\ True).
Proof.
  intros g a g' [= <- <-]. split; [| exact I].
  split; simpl; [reflexivity | lia].
Qed.

Lemma np_random_exponential_frame (scale : Q) :
  runs (np_random_exponential scale)
       (fun g a g' => np_frame 1 g g' /\ True).
Proof.
  intros g a g' [= <- <-]. split; [| exact I].
  split; simpl; [reflexivity | lia].
Qed.

Ltac still lemma :=
  apply (runs_frame_step _ _ 0 _ _ (fun _ => True) _ eq_refl);
  [apply lemma | intros ? _].
Ltac still_lift :=
  apply (runs_frame_step _ _ 0 _ _ (fun _ => True) _ eq_refl);
  [apply lift_frame | intros ? _].
Ltac reads lemma :=
  apply (runs_frame_step _ _ 1 _ _ (fun _ => True) _ eq_refl);
  [apply lemma | intros ? _].

(** An order reads two cells: its price and its quantity. *)
Lemma gen_order_frame (brand : string) (date : Z) (campaign : string) :
  runs (gen_order brand date campaign)
       (fun g r g' => np_frame 2 g g' /\ True).
Proof.
  unfold gen_order.
  still_lift.
  still (random_choices_weighted_frame (dict_keys categories)).
  still_lift. still (@random_choice_frame string).
  still (random_choices_weighted_frame channels).
  still (random_choices_weighted_frame offers).
  still_lift.
  reads np_random_normal_frame.
  reads np_random_exponential_frame.
  apply runs_frame_ret. exact I.
Qed.

Lemma gen_marketing_frame (brand : string) (date : Z) (campaign : string)
    (seasonal_mult : Q) (mkt_channel : string) :
  runs (gen_marketing brand date campaign seasonal_mult mkt_channel)
       (fun g r g' => np_frame (marketing_draws mkt_channel) g g' /\ True).
Proof.
  unfold gen_marketing, marketing_draws.
  destruct (String.eqb mkt_channel "Paid").
  - still_lift. reads np_random_normal_frame. reads np_random_uniform_frame.
    apply (runs_frame_step _ _ 1 0 _ (fun _ => True) _ eq_refl).
    + reads np_random_uniform_frame. apply runs_frame_ret. exact I.
    + intros cpc _. apply runs_frame_ret. exact I.
  - still_lift. reads np_random_normal_frame. reads np_random_uniform_frame.
    apply (runs_frame_step _ _ 0 0 _ (fun _ => True) _ eq_refl).
    + apply runs_frame_ret. exact I.
    + intros cpc _. apply runs_frame_ret. exact I.
Qed.

(** A social record reads two cells: the growth factor and the engagement
    rate. *)
Lemma gen_social_frame (brand : string) (date : Z) (fol : dict Z)
    (p : string) :
  runs (gen_social brand date fol p)
       (fun g r g' => np_frame 2 g g' /\ True).
Proof.
  unfold gen_social.
  still_lift. reads np_random_uniform_frame. reads np_random_uniform_frame.
  still_lift. apply runs_frame_ret. exact I.
Qed.

Lemma gen_day_sales_keys (brand : string) (fol : dict Z) (date : Z) :
  ensures (gen_day brand fol date)
          (fun res => Forall (fun r => Sales.Brand r = brand
                                       /\ Sales.Date r = date)
                             (day_sales (snd res))).
Proof.
  unfold gen_day. eskip. eskip.
  eapply ensures_bind; [apply ensures_repeatM, gen_order_wf |].
  intros sales Hs. eskip.
  eapply (ensures_bind _ _ (fun _ => True)); [intros ? ? ? _; exact I |].
  intros [fol' social] _. apply ensures_ret.
  unfold day_sales. cbn [fst snd].
  eapply Forall_impl_in; [| exact Hs]. cbv beta. tauto.
Qed.

Lemma Qle_bool_false (x y : Q) : Qle_bool x y = false -> y < x.
Proof.
  intro E. apply Qnot_le_lt. intro H. apply Qle_bool_iff in H. congruence.
Qed.

(** The order count of the code is the one of the spec's words. *)
Lemma daily_orders_as_specified (seasonal weekday z : Q) :
  daily_orders_of (80 * seasonal * weekday + 15 * z)
  = spec_daily_orders seasonal weekday z.
Proof.
  unfold daily_orders_of, spec_daily_orders. cbv zeta.
  set (x := 80 * seasonal * weekday + 15 * z).
  set (c := if Qle_bool 40 x then if Qle_bool x 150 then x else 150 else 40).
  pose proof (clamp_bounds x 40 150 ltac:(discriminate)) as [Hlo Hhi].
  assert (Ec : clamp x 40 150 == c).
  { unfold c, clamp, py_max, py_min.
    destruct (Qle_bool 40 x) eqn:E1;
      [apply Qle_bool_iff in E1 | apply Qle_bool_false in E1];
      (destruct (Qle_bool x 150) eqn:E2;
       [apply Qle_bool_iff in E2 | apply Qle_bool_false in E2]);
      (destruct (Qltb x 150) eqn:E3;
       [apply Qltb_true in E3 | apply Qltb_false in E3]);
      try lra.
    - destruct (Qltb 40 x) eqn:E4;
        [apply Qltb_true in E4 | apply Qltb_false in E4]; lra.
    - change (Qltb 40 150) with true. cbv iota. lra.
    - change (Qltb 40 150) with true. cbv iota. lra.
    - destruct (Qltb 40 x) eqn:E4;
        [apply Qltb_true in E4 | apply Qltb_false in E4]; lra. }
  assert (H0 : Qle_bool 0 c = true) by (apply Qle_bool_iff; lra).
  rewrite H0, py_int_floor by lra. apply Qfloor_comp. exact Ec.
Qed.

Lemma spec_daily_orders_bounds (seasonal weekday z : Q) :
  (40 <= spec_daily_orders seasonal weekday z <= 150)%Z.
Proof. rewrite <- daily_orders_as_specified. apply daily_orders_bounds. Qed.

(** One day: the order count comes from the cell the tape stands at, and
    the day reads 1 cell for it, 2 per order and 17 more. *)
Lemma gen_day_run (brand : string) (fol : dict Z) (date : Z) :
  runs (gen_day brand fol date)
    (fun g res g' =>
       let n := spec_daily_orders (generate_seasonal_multiplier date)
                                  (weekday_factor date)
                                  (np_tape g (np_pos g)) in
       np_frame (1 + 2 * Z.to_nat n + day_other_draws) g g'
       /\ Z.of_nat (List.length (day_sales (snd res))) = n).
Proof.
  unfold gen_day. eapply runs_weaken.
  - apply runs_bind; [apply np_random_normal_run |]. intro x.
    apply (runs_frame_step _ _ 0
             (range_len (daily_orders_of x) * 2 + (9 + (8 + 0)))
             (range_len (daily_orders_of x) * 2 + (9 + (8 + 0)))
             (fun _ => True)
             (fun res => List.length (day_sales (snd res))
                         = range_len (daily_orders_of x)) eq_refl);
      [apply random_choice_frame |].
    intros c _.
    apply (runs_frame_step _ _ (range_len (daily_orders_of x) * 2) _ _
             (fun l => List.length l = range_len (daily_orders_of x))
             _ eq_refl).
    { apply runs_frame_repeatM. apply gen_order_frame. }
    intros sales Hlen.
    apply (runs_frame_step _ _ 9 _ _ (fun _ => True) _ eq_refl).
    { apply (runs_frame_mapM _ marketing_draws marketing_channels).
      intros ch _. apply gen_marketing_frame. }
    intros marketing _.
    apply (runs_frame_step _ _ 8 0 _ (fun _ => True) _ eq_refl).
    { apply (runs_frame_mapAccumM (gen_social brand date) 2 social_platforms).
      intros s p. apply gen_social_frame. }
    intros [fol' social] _. apply runs_frame_ret. exact Hlen.
  - cbv beta zeta. intros g res g' (x & g1 & [F1 Ex] & F2 & Hlen).
    rewrite <- daily_orders_as_specified.
    rewrite <- Ex.
    pose proof (daily_orders_bounds x) as Hb. unfold range_len in *.
    split; [| rewrite Hlen; lia].
    unfold day_other_draws.
    replace (1 + 2 * Z.to_nat (daily_orders_of x) + (9 + 8))%nat
      with (1 + (Z.to_nat (daily_orders_of x) * 2 + (9 + (8 + 0))))%nat
      by lia.
    eapply np_frame_trans; eassumption.
Qed.
(** ** The days of a brand, and the brands *)

Lemma keyed_parts {K P R} (eqb : K -> K -> bool)
    (eqb_spec : forall x y, eqb x y = true <-> x = y)
    (key : R -> K) (proj : P -> list R) (keys : list K) (parts : list P) :
  NoDup keys ->
  Forall2 (fun k p => Forall (fun r => key r = k) (proj p)) keys parts ->
  map (fun k => filter (fun r => eqb (key r) k)
                       (List.concat (map proj parts))) keys
  = map proj parts.
Proof.
  intros Hnd H. revert Hnd.
  induction H as [| k p ks ps Hkp Hrest IH]; intro Hnd; [reflexivity |].
  inversion Hnd as [| ? ? Hnotin Hnd']; subst. simpl. f_equal.
  - rewrite filter_app, (filter_key_all eqb eqb_spec key k _ Hkp).
    rewrite (filter_key_absent eqb eqb_spec key proj ks ps k Hrest Hnotin).
    apply app_nil_r.
  - etransitivity; [| exact (IH Hnd')]. apply map_ext_in. intros k' Hk'.
    rewrite filter_app.
    rewrite (filter_key_none eqb eqb_spec key k k'); [reflexivity | | exact Hkp].
    intros ->. contradiction.
Qed.

Lemma list_sum_zero {A} (l : list A) :
  list_sum (map (fun _ : A => 0%nat) l) = 0%nat.
Proof. induction l; simpl; [reflexivity | exact IHl]. Qed.

Lemma gen_review_frame (brand : string) (date : Z) :
  runs (gen_review brand date) (fun g r g' => np_frame 0 g g' /\ True).
Proof.
  unfold gen_review.
  still (random_choices_weighted_frame sentiments).
  still random_randint_frame. still random_randint_frame. still_lift.
  apply runs_frame_ret. exact I.
Qed.

Lemma gen_reviews_frame (brand : string) (dates : list Z) :
  runs (gen_reviews brand dates) (fun g r g' => np_frame 0 g g' /\ True).
Proof.
  unfold gen_reviews. still (@random_choices_k_frame Z).
  eapply runs_weaken.
  - apply (runs_frame_mapM _ (fun _ => 0%nat)). intros d _.
    apply gen_review_frame.
  - intros g l g' [F _]. rewrite list_sum_zero in F. tauto.
Qed.

Lemma init_followers_frame :
  runs (mapM (fun p => v <- random_randint 5000 15000 ;; ret (p, v))
             social_platforms)
       (fun g r g' => np_frame 0 g g' /\ True).
Proof.
  eapply runs_weaken.
  - apply (runs_frame_mapM _ (fun _ => 0%nat)). intros p _.
    still random_randint_frame. apply runs_frame_ret. exact I.
  - intros g l g' [F _]. rewrite list_sum_zero in F. tauto.
Qed.

(** The day loop of a brand follows the schedule. *)
Lemma day_loop_run (brand : string) (dates : list Z) :
  forall fol : dict Z,
    runs (mapAccumM (gen_day brand) fol dates)
      (fun g res g' =>
         np_tape g' = np_tape g
         /\ np_pos g' = snd (order_schedule (np_tape g) (np_pos g) dates)
         /\ map (fun rec => Z.of_nat (List.length (day_sales rec))) (snd res)
            = fst (order_schedule (np_tape g) (np_pos g) dates)
         /\ Forall2 (fun d rec => Forall (fun r => Sales.Date r = d)
                                         (day_sales rec))
                    dates (snd res)
         /\ Forall (fun rec => Forall (fun r => Sales.Brand r = brand)
                                      (day_sales rec))
                   (snd res)).
Proof.
  induction dates as [| d ds IH]; intros fol g res g' E.
  - simpl in E. inversion E; subst. simpl.
    repeat split; constructor.
  - simpl in E. unfold bind in E.
    destruct (gen_day brand fol d g) as [[[s1 rec] g1] | e] eqn:E1;
      [| discriminate].
    destruct (mapAccumM (gen_day brand) s1 ds g1)
      as [[[s2 recs] g2] | e] eqn:E2; [| discriminate].
    inversion E; subst. clear E.
    destruct (gen_day_run brand fol d _ _ _ E1) as ([T1 P1] & Hn).
    pose proof (gen_day_sales_keys brand fol d _ _ _ E1) as Hk.
    destruct (IH s1 _ _ _ E2) as (T2 & P2 & Hns & Hd & Hb).
    cbn [snd fst] in *. rewrite T1, P1 in *.
    cbn [order_schedule fst snd map].
    split; [congruence |]. split; [exact P2 |].
    split; [rewrite Hn, Hns; reflexivity |]. split.
    + constructor; [| exact Hd].
      eapply Forall_impl_in; [| exact Hk]. cbv beta. tauto.
    + constructor; [| exact Hb].
      eapply Forall_impl_in; [| exact Hk]. cbv beta. tauto.
Qed.

(** One brand: its Sales rows, day by day, follow the schedule. *)
Lemma gen_brand_run (dates : list Z) (brand : string) :
  NoDup dates ->
  runs (gen_brand dates brand)
    (fun g part g' =>
       np_tape g' = np_tape g
       /\ np_pos g' = snd (order_schedule (np_tape g) (np_pos g) dates)
       /\ Forall (fun r => Sales.Brand r = brand) (brand_sales part)
       /\ map (fun d => count_on d (brand_sales part)) dates
          = fst (order_schedule (np_tape g) (np_pos g) dates)).
Proof.
  intros Hnd g part g' E. unfold gen_brand, bind in E.
  destruct (mapM _ social_platforms g) as [[fol0 g0] | e] eqn:E0;
    [| discriminate].
  destruct (mapAccumM (gen_day brand) fol0 dates g0)
    as [[[fol1 days] g1] | e] eqn:E1; [| discriminate].
  destruct (gen_reviews brand dates g1) as [[reviews g2] | e] eqn:E2;
    [| discriminate].
  inversion E; subst. clear E.
  destruct (init_followers_frame _ _ _ E0) as ([T0 P0] & _).
  destruct (day_loop_run brand dates fol0 _ _ _ E1)
    as (T1 & P1 & Hns & Hd & Hb).
  destruct (gen_reviews_frame brand dates _ _ _ E2) as ([T2 P2] & _).
  cbn [snd fst] in *. unfold brand_sales. cbn [fst snd].
  rewrite T0 in *. replace (np_pos g0) with (np_pos g) in * by lia.
  split; [congruence |]. split; [lia |]. split.
  - apply Forall_concat_map. exact Hb.
  - rewrite <- Hns.
    pose proof (keyed_parts Z.eqb Z_eqb_iff Sales.Date day_sales dates days
                  Hnd Hd) as Hp.
    apply (f_equal (map (fun l => Z.of_nat (List.length l)))) in Hp.
    rewrite !map_map in Hp. exact Hp.
Qed.

(** The brand loop follows the schedule, brand after brand. *)
Lemma brand_loop_run (dates : list Z) (brands : list string) :
  NoDup dates ->
  runs (mapM (gen_brand dates) brands)
    (fun g parts g' =>
       Forall2 (fun b part => Forall (fun r => Sales.Brand r = b)
                                     (brand_sales part))
               brands parts
       /\ map (fun part => map (fun d => count_on d (brand_sales part)) dates)
              parts
          = brand_schedule (np_tape g) (np_pos g) dates brands).
Proof.
  intro Hnd. induction brands as [| b bs IH]; intros g parts g' E.
  - simpl in E. inversion E; subst. split; [constructor | reflexivity].
  - simpl in E. unfold bind in E.
    destruct (gen_brand dates b g) as [[part g1] | e] eqn:E1;
      [| discriminate].
    destruct (mapM (gen_brand dates) bs g1) as [[ps g2] | e] eqn:E2;
      [| discriminate].
    inversion E; subst. clear E.
    destruct (gen_brand_run dates b Hnd _ _ _ E1) as (T1 & P1 & Hb & Hc).
    destruct (IH _ _ _ E2) as (Hbs & Hcs).
    rewrite T1, P1 in Hcs. cbn [brand_schedule map].
    split; [constructor; assumption |]. rewrite Hc, Hcs. reflexivity.
Qed.

(** The whole call: the Sales rows of each brand on each day. *)
Lemma after_dates_run (dates : list Z) (brands : list string) :
  NoDup dates -> NoDup brands ->
  runs (after_dates dates brands)
    (fun g t g' =>
       map (fun b => map (fun d => Z.of_nat (List.length (sales_on b d t)))
                         dates) brands
       = brand_schedule (np_tape g) (np_pos g) dates brands).
Proof.
  intros Hnd Hnb g t g' E. unfold after_dates, collect_records, bind in E.
  destruct (mapM (gen_brand dates) brands g) as [[parts g1] | e] eqn:E1;
    [| discriminate].
  simpl in E.
  match type of E with
  | lift (assemble ?r) _ = _ => destruct (assemble r) as [t0 | e] eqn:Ea
  end; [| discriminate].
  inversion E; subst. clear E.
  destruct (assemble_rows _ _ Ea) as (Es & _). cbn [sales_records] in Es.
  destruct (brand_loop_run dates brands Hnd _ _ _ E1) as (Hk & Hc).
  rewrite <- Hc.
  pose proof (keyed_parts String.eqb string_eqb_iff Sales.Brand brand_sales
                brands parts Hnb Hk) as Hp.
  apply (f_equal (map (fun l => map (fun d => count_on d l) dates))) in Hp.
  rewrite !map_map in Hp. rewrite <- Hp.
  apply map_ext. intro b. apply map_ext. intro d.
  unfold sales_on, count_on. rewrite filter_andb, Es. reflexivity.
Qed.
(** C8: for every brand and every day, the number of Sales rows of that
    brand on that day is the normal draw of mean [80 * seasonal * weekday]
    and deviation 15, clamped to [40, 150] and truncated to an integer, as
    the spec words it ([spec_daily_orders]), taken at the standard normal
    draw that [np.random] holds where the day starts ([brand_schedule]
    follows the tape through the brands and their days); and it lies in
    [40, 150] whatever the multipliers are ([np.sin] and [np.pi] are
    arbitrary here). The brands are a set: the list names no brand twice. *)
Theorem daily_orders_clamped (start_date days : Z)
    (brands : option (list string)) :
  valid_call days (brands_of brands) -> NoDup (brands_of brands) ->
  forall g : Rng,
  exists (t : Tables) (g' : Rng),
    generate_mock_data start_date days brands g = Ok (t, g')
    /\ map (fun b => map (fun d => Z.of_nat (List.length (sales_on b d t)))
                         (horizon start_date days))
           (brands_of brands)
       = brand_schedule (np_tape g) (np_pos g) (horizon start_date days)
                        (brands_of brands)
    /\ forall b d,
         In b (brands_of brands) -> In d (horizon start_date days) ->
         (40 <= Z.of_nat (List.length (sales_on b d t)) <= 150)%Z.
Proof.
  intros Hv Hnb g.
  destruct (generate_returns start_date days brands Hv g)
    as (t & g' & E & Hok).
  exists t, g'. split; [exact E |]. split.
  - destruct Hv as (Hd & _). rewrite generate_unfold in E.
    rewrite pd_date_range_horizon in E by lia.
    exact (after_dates_run _ _ (horizon_NoDup _ _) Hnb g t g' E).
  - intros b d Hb Hd.
    destruct (brand_day _ _ t b d Hok Hnb (horizon_NoDup _ _) Hb Hd)
      as (fol & fol' & rec & (z & c & Hn & _) & Es & _).
    rewrite Es, Hn.
    pose proof (daily_orders_bounds (order_mean d + 15 * z)) as Hbd.
    unfold range_len. lia.
Qed.

End Generator.

(** * The dashboard's own call, and other concrete calls *)

(** Two days of one brand: 190 orders, 4 marketing and 4 social records a
    day, 120 reviews. *)
Example sample_two_days :
  match generate_mock_data sample_sin sample_pi empty_when_negative
                           738886 2 (Some ["Radiance"%string]) sample_rng with
  | Ok (t, _) =>
      (List.length (rows (sales_df t)), List.length (rows (marketing_df t)),
       List.length (rows (social_df t)), List.length (rows (reviews_df t)),
       map Social.Followers (followers_series "Radiance" "TikTok" t))
      = (190%nat, 8%nat, 8%nat, 120%nat, [5006%Z; 5016%Z])
  | Raised _ => False
  end.
Proof. vm_compute. reflexivity. Qed.

(** No day, one brand: the call raises. *)
Example sample_no_day :
  generate_mock_data sample_sin sample_pi empty_when_negative
                     738886 0 (Some ["Radiance"%string]) sample_rng
  = Raised IndexError.
Proof. reflexivity. Qed.

(** C2 does not hold of the code: with an empty brand list the call goes through the
    whole generation without a signal and only stops when the assembly reads
    the [Date] column of a frame that has no column, with a [KeyError]; so
    not every invalid input gives an invalid-argument signal. *)
Lemma empty_brand_list_gives_no_signal :
  collect_records sample_sin sample_pi (horizon 738886 91) [] sample_rng
  = Ok (mkRecords [] [] [] [], sample_rng)
  /\ generate_mock_data sample_sin sample_pi empty_when_negative
                        738886 91 (Some []) sample_rng
     = Raised (KeyError "Date")
  /\ ~ (forall np_sin np_pi date_range_negative start_date days brands g,
          (days < 0)%Z \/ brands = Some [] ->
          fails_with_invalid_argument
            (generate_mock_data np_sin np_pi date_range_negative
                                start_date days brands g)).
Proof.
  assert (E : generate_mock_data sample_sin sample_pi empty_when_negative
                                 738886 91 (Some []) sample_rng
              = Raised (KeyError "Date")) by reflexivity.
  split; [reflexivity |]. split; [exact E |].
  intro H.
  destruct (H sample_sin sample_pi empty_when_negative 738886%Z 91%Z
              (Some []) sample_rng (or_intror eq_refl)) as (e & He & Hsig).
  rewrite E in He. inversion He; subst e. discriminate Hsig.
Qed.

Lemma sample_call_valid : valid_call 91 (brands_of None).
Proof.
  unfold valid_call, brands_of, default_brands, known_brand. simpl.
  split; [lia |]. split; [discriminate |].
  repeat (constructor; [tauto |]). constructor.
Defined.

Lemma sample_brands_NoDup : NoDup (brands_of None).
Proof.
  unfold brands_of, default_brands.
  repeat (constructor; [simpl; intuition discriminate |]). constructor.
Defined.

Lemma sales_rows_consistent_witness :
  valid_call 91 (brands_of None)
  /\ always (generate_mock_data sample_sin sample_pi empty_when_negative
                                738886 91 None)
            (fun t => Forall sales_row_ok (rows (sales_df t))).
Proof.
  split; [exact sample_call_valid |].
  exact (sales_rows_consistent sample_sin sample_pi empty_when_negative
           738886 91 None sample_call_valid).
Defined.

Lemma marketing_rows_in_range_witness :
  valid_call 91 (brands_of None)
  /\ always (generate_mock_data sample_sin sample_pi empty_when_negative
                                738886 91 None)
            (fun t => Forall marketing_row_ok (rows (marketing_df t))).
Proof.
  split; [exact sample_call_valid |].
  exact (marketing_rows_in_range sample_sin sample_pi empty_when_negative
           738886 91 None sample_call_valid).
Defined.

Lemma followers_non_decreasing_witness :
  valid_call 91 (brands_of None) /\ NoDup (brands_of None)
  /\ always (generate_mock_data sample_sin sample_pi empty_when_negative
                                738886 91 None)
       (fun t =>
          forall b p, In b (brands_of None) -> In p social_platforms ->
            let series := followers_series b p t in
            map Social.Date series = horizon 738886 91
            /\ Sorted Z.le (map Social.Followers series)
            /\ exists f0, (5000 <= f0 <= 15000)%Z
                 /\ Sorted growth_step (f0 :: map Social.Followers series)).
Proof.
  split; [exact sample_call_valid |]. split; [exact sample_brands_NoDup |].
  exact (followers_non_decreasing sample_sin sample_pi empty_when_negative
           738886 91 None sample_call_valid sample_brands_NoDup).
Defined.

Lemma reviews_per_brand_witness :
  valid_call 91 (brands_of None) /\ NoDup (brands_of None)
  /\ always (generate_mock_data sample_sin sample_pi empty_when_negative
                                738886 91 None)
       (fun t =>
          forall b, In b (brands_of None) ->
            let rs := reviews_of b t in
            List.length rs = 120%nat
            /\ (List.length (nodup Z.eq_dec (map Reviews.Date rs)) <= 120)%nat
            /\ Forall (fun r => (738886 <= Reviews.Date r < 738886 + 91)%Z)
                      rs).
Proof.
  split; [exact sample_call_valid |]. split; [exact sample_brands_NoDup |].
  exact (reviews_per_brand sample_sin sample_pi empty_when_negative
           738886 91 None sample_call_valid sample_brands_NoDup).
Defined.

Lemma one_campaign_per_brand_day_witness :
  valid_call 91 (brands_of None) /\ NoDup (brands_of None)
  /\ always (generate_mock_data sample_sin sample_pi empty_when_negative
                                738886 91 None)
       (fun t =>
          forall b d, In b (brands_of None) -> In d (horizon 738886 91) ->
            exists c,
              In c campaigns
              /\ Forall (fun r => Sales.Campaign r = c) (sales_on b d t)
              /\ Forall (fun r => Marketing.Campaign r = c)
                        (marketing_on b d t)
              /\ sales_on b d t <> [] /\ marketing_on b d t <> []).
Proof.
  split; [exact sample_call_valid |]. split; [exact sample_brands_NoDup |].
  exact (one_campaign_per_brand_day sample_sin sample_pi empty_when_negative
           738886 91 None sample_call_valid sample_brands_NoDup).
Defined.

Lemma unknown_brand_key_error_witness :
  (1 <= 91)%Z /\ In "Luxe"%string ["Radiance"; "Luxe"]%string
  /\ ~ known_brand "Luxe"
  /\ exists known b' rest,
       ["Radiance"; "Luxe"]%string = (known ++ b' :: rest)%list
       /\ Forall known_brand known /\ ~ known_brand b'
       /\ (forall date campaign,
             raises (gen_order b' date campaign) (KeyError b'))
       /\ raises (generate_mock_data sample_sin sample_pi empty_when_negative
                                     738886 91
                                     (Some ["Radiance"; "Luxe"]%string))
                 (KeyError b').
Proof.
  assert (H1 : (1 <= 91)%Z) by lia.
  assert (H2 : In "Luxe"%string ["Radiance"; "Luxe"]%string)
    by (simpl; tauto).
  assert (H3 : ~ known_brand "Luxe")
    by (unfold known_brand; simpl; intuition discriminate).
  split; [exact H1 |]. split; [exact H2 |]. split; [exact H3 |].
  exact (unknown_brand_key_error sample_sin sample_pi empty_when_negative
           738886 91 ["Radiance"; "Luxe"]%string "Luxe"%string H1 H2 H3).
Defined.

(** * Concrete instances of the further properties *)

Lemma clamp_contract_witness :
  40 <= 150
  /\ 40 <= clamp 80 40 150 <= 150
  /\ (40 <= 80 <= 150 -> clamp 80 40 150 == 80)
  /\ clamp (clamp 80 40 150) 40 150 = clamp 80 40 150.
Proof.
  assert (H : 40 <= 150) by discriminate.
  split; [exact H |]. exact (clamp_contract 80 40 150 H).
Defined.

Lemma clamp_swapped_bounds_witness :
  40 < 150 /\ clamp 80 150 40 = 150.
Proof.
  assert (H : 40 < 150) by reflexivity.
  split; [exact H |]. exact (clamp_swapped_bounds 80 150 40 H).
Defined.

Lemma sample_sin_range : forall y, -1 <= sample_sin y <= 1.
Proof. intro y. unfold sample_sin. split; discriminate. Defined.

Lemma seasonal_multiplier_range_witness :
  (forall y, -1 <= sample_sin y <= 1)
  /\ forall date,
       0.75 <= generate_seasonal_multiplier sample_sin sample_pi date <= 1.25
       /\ 54 <= 80 * generate_seasonal_multiplier sample_sin sample_pi date
                * weekday_factor date <= 110.
Proof.
  split; [exact sample_sin_range |].
  exact (seasonal_multiplier_range sample_sin sample_pi sample_sin_range).
Defined.

Lemma returns_iff_valid_call_witness :
  (0 <= 91)%Z
  /\ ((exists t g',
         generate_mock_data sample_sin sample_pi empty_when_negative
                            738886 91 None sample_rng = Ok (t, g'))
      <-> valid_call 91 (brands_of None)).
Proof.
  assert (H : (0 <= 91)%Z) by lia.
  split; [exact H |].
  exact (returns_iff_valid_call sample_sin sample_pi empty_when_negative
           738886 91 None sample_rng H).
Defined.

Lemma table_sizes_witness :
  valid_call 91 (brands_of None)
  /\ always (generate_mock_data sample_sin sample_pi empty_when_negative
                                738886 91 None)
       (fun t =>
          let b := List.length (brands_of None) in
          let d := Z.to_nat 91 in
          List.length (rows (reviews_df t)) = (120 * b)%nat
          /\ List.length (rows (marketing_df t)) = (4 * (b * d))%nat
          /\ List.length (rows (social_df t)) = (4 * (b * d))%nat
          /\ (40 * (b * d) <= List.length (rows (sales_df t))
              <= 150 * (b * d))%nat).
Proof.
  split; [exact sample_call_valid |].
  exact (table_sizes sample_sin sample_pi empty_when_negative
           738886 91 None sample_call_valid).
Defined.

Lemma sales_rows_labelled_witness :
  valid_call 91 (brands_of None)
  /\ always (generate_mock_data sample_sin sample_pi empty_when_negative
                                738886 91 None)
            (fun t => Forall (sales_row_wf (brands_of None)
                                           (horizon 738886 91))
                             (rows (sales_df t))).
Proof.
  split; [exact sample_call_valid |].
  exact (sales_rows_labelled sample_sin sample_pi empty_when_negative
           738886 91 None sample_call_valid).
Defined.

Lemma social_rows_in_range_witness :
  valid_call 91 (brands_of None)
  /\ always (generate_mock_data sample_sin sample_pi empty_when_negative
                                738886 91 None)
            (fun t => Forall (social_row_wf (brands_of None)
                                            (horizon 738886 91))
                             (rows (social_df t))).
Proof.
  split; [exact sample_call_valid |].
  exact (social_rows_in_range sample_sin sample_pi empty_when_negative
           738886 91 None sample_call_valid).
Defined.

Lemma review_ratings_match_sentiment_witness :
  valid_call 91 (brands_of None)
  /\ always (generate_mock_data sample_sin sample_pi empty_when_negative
                                738886 91 None)
       (fun t =>
          Forall (fun r =>
                    review_row_wf (brands_of None) (horizon 738886 91) r
                    /\ (1 <= Reviews.Rating r <= 5)%Z)
                 (rows (reviews_df t))).
Proof.
  split; [exact sample_call_valid |].
  exact (review_ratings_match_sentiment sample_sin sample_pi
           empty_when_negative 738886 91 None sample_call_valid).
Defined.

Lemma marketing_one_row_per_channel_witness :
  valid_call 91 (brands_of None) /\ NoDup (brands_of None)
  /\ always (generate_mock_data sample_sin sample_pi empty_when_negative
                                738886 91 None)
       (fun t =>
          Forall (marketing_row_wf (brands_of None) (horizon 738886 91))
                 (rows (marketing_df t))
          /\ forall b d,
               In b (brands_of None) -> In d (horizon 738886 91) ->
               map Marketing.Channel (marketing_on b d t)
               = marketing_channels).
Proof.
  split; [exact sample_call_valid |]. split; [exact sample_brands_NoDup |].
  exact (marketing_one_row_per_channel sample_sin sample_pi
           empty_when_negative 738886 91 None sample_call_valid
           sample_brands_NoDup).
Defined.

Lemma avg_order_value_range_witness :
  valid_call 91 (brands_of None)
  /\ always (generate_mock_data sample_sin sample_pi empty_when_negative
                                738886 91 None)
       (fun t =>
          forall mask : Sales.row -> bool,
            let df := df_filter mask (sales_df t) in
            rows df <> [] ->
            (Z.of_nat (List.length (rows df)) <= total_orders (rows df))%Z
            /\ exists v : Q,
                 executive_summary df
                 = (total_revenue (rows df), total_orders (rows df), Some v)
                 /\ v == total_revenue (rows df)
                         / inject_Z (total_orders (rows df))
                 /\ 14.995 <= v <= 112.505).
Proof.
  split; [exact sample_call_valid |].
  exact (avg_order_value_range sample_sin sample_pi empty_when_negative
           738886 91 None sample_call_valid).
Defined.

Lemma dropna_keeps_paid_ads_witness :
  valid_call 91 (brands_of None)
  /\ always (generate_mock_data sample_sin sample_pi empty_when_negative
                                738886 91 None)
       (fun t =>
          forall mask : Marketing.row -> bool,
            let df := df_filter mask (marketing_df t) in
            dropna_CPC (channel_rows "Paid" df) = channel_rows "Paid" df
            /\ forall channel, channel <> "Paid"%string ->
                 rows (dropna_CPC (channel_rows channel df)) = []).
Proof.
  split; [exact sample_call_valid |].
  exact (dropna_keeps_paid_ads sample_sin sample_pi empty_when_negative
           738886 91 None sample_call_valid).
Defined.

Lemma followers_max_is_latest_witness :
  valid_call 91 (brands_of None) /\ NoDup (brands_of None)
  /\ always (generate_mock_data sample_sin sample_pi empty_when_negative
                                738886 91 None)
       (fun t =>
          forall (b p : string) (mask : Social.row -> bool)
                 (earlier : list Social.row) (latest : Social.row),
            In b (brands_of None) -> In p social_platforms ->
            social_group b p (df_filter mask (social_df t))
            = (earlier ++ [latest])%list ->
            Forall (fun r => (Social.Date r < Social.Date latest)%Z) earlier
            /\ agg_max (map Social.Followers (earlier ++ [latest]))
               = Some (Social.Followers latest)).
Proof.
  split; [exact sample_call_valid |]. split; [exact sample_brands_NoDup |].
  exact (followers_max_is_latest sample_sin sample_pi empty_when_negative
           738886 91 None sample_call_valid sample_brands_NoDup).
Defined.

Lemma twice_named_valid :
  valid_call 2 (brands_of (Some ["GlowUp"; "Radiance"; "GlowUp"]%string)).
Proof.
  unfold valid_call, brands_of, known_brand. simpl.
  split; [lia |]. split; [discriminate |].
  repeat (constructor; [tauto |]). constructor.
Defined.

Lemma rows_per_brand_with_repeats_witness :
  valid_call 2 (brands_of (Some ["GlowUp"; "Radiance"; "GlowUp"]%string))
  /\ always (generate_mock_data sample_sin sample_pi empty_when_negative
               738886 2 (Some ["GlowUp"; "Radiance"; "GlowUp"]%string))
       (fun t =>
          forall b : string,
            let n := count_occ string_dec
                       (brands_of (Some ["GlowUp"; "Radiance"; "GlowUp"]%string))
                       b in
            List.length (reviews_of b t) = (120 * n)%nat
            /\ List.length (filter (fun r => String.eqb (Social.Brand r) b)
                                   (rows (social_df t)))
               = (4 * Z.to_nat 2 * n)%nat).
Proof.
  split; [exact twice_named_valid |].
  exact (rows_per_brand_with_repeats sample_sin sample_pi empty_when_negative
           738886 2 (Some ["GlowUp"; "Radiance"; "GlowUp"]%string)
           twice_named_valid).
Defined.

(** The brand named twice has 240 reviews. *)
Example sample_twice_named :
  match generate_mock_data sample_sin sample_pi empty_when_negative
          738886 2 (Some ["GlowUp"; "Radiance"; "GlowUp"]%string)
          sample_rng with
  | Ok (t, _) =>
      (List.length (reviews_of "GlowUp" t),
       List.length (reviews_of "Radiance" t))
      = (240%nat, 120%nat)
  | Raised _ => False
  end.
Proof. vm_compute. reflexivity. Qed.

(** ** The order counts of a concrete call *)

(** The spec's order count at three draws on a weekday of factor 0.9 and
    season 1: below the range, inside it (136.5, truncated) and above it. *)
Example spec_daily_orders_values :
  map (spec_daily_orders 1 0.9) [-(61 # 10); 4.3; 6.9]
  = [40%Z; 136%Z; 150%Z].
Proof. reflexivity. Qed.

(** Four days of two brands from 2024-01-01, with [sample_draws]: the
    counts that the tape of [np.random] gives. *)
Example sample_schedule :
  brand_schedule sample_sin sample_pi (np_tape sample_draws)
                 (np_pos sample_draws) (horizon 738886 4)
                 ["Radiance"; "GlowUp"]%string
  = [[40%Z; 150%Z; 150%Z; 136%Z]; [40%Z; 40%Z; 150%Z; 150%Z]].
Proof. vm_compute. reflexivity. Qed.

(** The same call, run: the Sales rows of each brand on each day. *)
Example sample_run_counts :
  match generate_mock_data sample_sin sample_pi empty_when_negative 738886 4
                           (Some ["Radiance"; "GlowUp"]%string)
                           sample_draws with
  | Ok (t, _) =>
      map (fun b => map (fun d => Z.of_nat (List.length (sales_on b d t)))
                        (horizon 738886 4))
          ["Radiance"; "GlowUp"]%string
      = [[40%Z; 150%Z; 150%Z; 136%Z]; [40%Z; 40%Z; 150%Z; 150%Z]]
  | Raised _ => False
  end.
Proof. vm_compute. reflexivity. Qed.

Lemma daily_orders_clamped_witness :
  valid_call 91 (brands_of None) /\ NoDup (brands_of None)
  /\ forall g : Rng,
     exists (t : Tables) (g' : Rng),
       generate_mock_data sample_sin sample_pi empty_when_negative
                          738886 91 None g = Ok (t, g')
       /\ map (fun b => map (fun d => Z.of_nat (List.length (sales_on b d t)))
                            (horizon 738886 91))
              (brands_of None)
          = brand_schedule sample_sin sample_pi (np_tape g) (np_pos g)
                           (horizon 738886 91) (brands_of None)
       /\ forall b d,
            In b (brands_of None) -> In d (horizon 738886 91) ->
            (40 <= Z.of_nat (List.length (sales_on b d t)) <= 150)%Z.
Proof.
  split; [exact sample_call_valid |]. split; [exact sample_brands_NoDup |].
  exact (daily_orders_clamped sample_sin sample_pi empty_when_negative
           738886 91 None sample_call_valid sample_brands_NoDup).
Defined.

(** ** The filters on a table that has rows *)

(** [sample_sales] holds the first rows of a generated table. *)
Example sample_sales_generated :
  match generate_mock_data sample_sin sample_pi empty_when_negative 738886 2
                           (Some ["Radiance"%string]) sample_rng with
  | Ok (t, _) => firstn 3 (rows (sales_df t)) = rows sample_sales
  | Raised _ => False
  end.
Proof. vm_compute. reflexivity. Qed.

(** With "Radiance" selected, every campaign and the whole quarter, the
    filters keep the three rows: 11 units for 651.82. *)
Example sample_sales_selected :
  rows (filter_sales ["Radiance"%string] campaigns 738886 738976 sample_sales)
  = rows sample_sales
  /\ (let '(revenue, units, _) :=
         executive_summary (filter_sales ["Radiance"%string] campaigns
                                         738886 738976 sample_sales) in
      Qeq_bool revenue 651.82 = true /\ units = 11%Z).
Proof. split; [reflexivity | split; reflexivity]. Qed.

(** No campaign selected, or a window that ends before it starts: the same
    three rows are all dropped. *)
Example sample_sales_other_empty_selections :
  rows (filter_sales ["Radiance"%string] [] 738886 738976 sample_sales) = []
  /\ rows (filter_sales ["Radiance"%string] campaigns 738976 738886
                        sample_sales) = [].
Proof. split; reflexivity. Qed.

Lemma empty_selection_summary_witness :
  (@nil string = [] \/ campaigns = [] \/ (738976 < 738886)%Z)
  /\ rows sample_sales <> []
  /\ rows (filter_sales [] campaigns 738886 738976 sample_sales) = []
  /\ executive_summary (filter_sales [] campaigns 738886 738976 sample_sales)
     = (0, 0%Z, Some 0).
Proof.
  assert (H : @nil string = [] \/ campaigns = [] \/ (738976 < 738886)%Z)
    by (left; reflexivity).
  split; [exact H |]. split; [discriminate |].
  exact (empty_selection_summary [] campaigns 738886 738976 sample_sales H).
Defined.
